(** * Cytomind web tier: upload, status and report routes, and the client-side
      upload validator.

    The development embeds four pieces of the repository:
    - [ImageUpload]  : [handleFileChange] of src/components/ImageUpload.jsx;
    - [UploadRoute]  : [POST] of the upload route (app/api/upload/route.js);
    - [StatusRoute]  : [GET] of the job status route;
    - [ReportRoute]  : [GET] of app/api/reports/[jobId]/route.js.

    The routes are [async] functions over a MongoDB store and [fetch].  They are
    modelled by explicit state passing over a [Store] (two collections, kept as
    lists in insertion order) and by taking the answer of the inference service
    as an argument: a [fetch] oracle that either throws or yields a response.
    Requests are handled one after the other; interleavings of concurrent
    requests are outside this model. *)

From Stdlib Require Import String Ascii List ZArith NArith Bool Lia PeanoNat.
From Stdlib Require Import DecimalString.
Import ListNotations.
Local Open Scope string_scope.
Set Warnings "-register-all".

(** ** JavaScript values

    The part of the language the routes rely on: truthiness, [a || b],
    property reads and the string conversion done by [new Error(x)].  A
    [string] stands for the JavaScript string with the same characters, one
    [ascii] (a character code below 256) each. *)
Module Js.

Inductive Value : Type :=
| Undefined
| Null
| Bool (b : bool)
| Num (z : Z)
| Str (s : string)
| Arr (items : list Value)
| Obj (fields : list (string * Value)).

(** ToBoolean.  Numbers are integers here (payload numbers are only copied). *)
Definition truthy (v : Value) : bool :=
  match v with
  | Undefined | Null => false
  | Bool b => b
  | Num z => negb (z =? 0)%Z
  | Str s => negb (s =? "")
  | Arr _ | Obj _ => true
  end.

(** [a || b] *)
Definition or (a b : Value) : Value := if truthy a then a else b.

Fixpoint lookup (k : string) (fields : list (string * Value)) : Value :=
  match fields with
  | [] => Undefined
  | (k', v) :: rest => if k' =? k then v else lookup k rest
  end.

(** [v.k] for a [v] that is neither [null] nor [undefined]; only the property
    names the routes read ([detail], [error], [classification], ...) are looked
    up, none of which a primitive or an array owns. *)
Definition get (v : Value) (k : string) : Value :=
  match v with
  | Obj fields => lookup k fields
  | _ => Undefined
  end.

(** [v?.k] *)
Definition get_opt (v : Value) (k : string) : Value :=
  match v with
  | Undefined | Null => Undefined
  | _ => get v k
  end.

(** A string with its trailing zeros removed. *)
Fixpoint strip_trailing_zeros (s : string) : string :=
  match s with
  | "" => ""
  | String c rest =>
      match strip_trailing_zeros rest with
      | "" => if (c =? "0")%char then "" else String c ""
      | kept => String c kept
      end
  end.

(** The decimal digits of a number of more than 21 digits, as
    Number::toString prints them: the significant digits with a point after
    the first, then the exponent. *)
Definition exponent_form (digits : string) : string :=
  match strip_trailing_zeros digits with
  | "" => digits
  | String d "" => String d ("e+" ++ NilZero.string_of_uint (Nat.to_uint (String.length digits - 1)))
  | String d more =>
      String d ("." ++ more ++ "e+"
                ++ NilZero.string_of_uint (Nat.to_uint (String.length digits - 1)))
  end.

(** Number::toString on an integer-valued number.  [z] stands for the number
    JavaScript prints with the digits of [z]: a safe integer (below 2^53 in
    size) or an integer with at most 15 significant digits.  Up to 21 digits
    are printed in full; a longer number is printed in exponent form. *)
Definition string_of_Z (z : Z) : string :=
  let digits := NilZero.string_of_int (Z.to_int (Z.abs z)) in
  let printed :=
    if (String.length digits <=? 21)%nat then digits else exponent_form digits in
  if (z <? 0)%Z then "-" ++ printed else printed.

(** An array length (below 2^32) in a template string. *)
Definition string_of_nat (n : nat) : string := string_of_Z (Z.of_nat n).

Fixpoint join (sep : string) (l : list string) : string :=
  match l with
  | [] => ""
  | [s] => s
  | s :: rest => s ++ sep ++ join sep rest
  end.

(** ToString, as applied by [new Error(x)] to its argument. *)
Fixpoint ToString (v : Value) : string :=
  match v with
  | Undefined => "undefined"
  | Null => "null"
  | Bool true => "true"
  | Bool false => "false"
  | Num z => string_of_Z z
  | Str s => s
  | Arr items =>
      join "," (map (fun x => match x with
                              | Undefined | Null => ""
                              | _ => ToString x
                              end) items)
  | Obj _ => "[object Object]"
  end.

(** [s || d] on an optional string ([null] when absent). *)
Definition or_str (s : option string) (d : string) : string :=
  match s with
  | Some x => if x =? "" then d else x
  | None => d
  end.

Definition truthy_str (s : option string) : bool :=
  match s with
  | Some x => negb (x =? "")
  | None => false
  end.

End Js.

(** ** Exceptions, fetch and responses *)

(** Outcome of an awaited call inside a [try]: a value, or a thrown error of
    which the handlers only read [error.message]. *)
Inductive Try (A : Type) : Type :=
| Returns (a : A)
| Throws (message : string).
Arguments Returns {A} a.
Arguments Throws {A} message.

Definition bind {A B : Type} (t : Try A) (k : A -> Try B) : Try B :=
  match t with
  | Returns a => k a
  | Throws m => Throws m
  end.

Notation "x <- t ;; k" := (bind t (fun x => k))
  (at level 61, t at next level, right associativity).

(** What the routes read of a fetch [Response]. *)
Record FetchResponse : Type := mkFetchResponse {
  ok : bool;
  json : Try Js.Value;
  arrayBuffer : Try (list Byte.byte)
}.

Record Report : Type := mkReport {
  report_jobId : string;
  report_patientId : string;
  patientName : string;
  report_age : string;
  date : Z;
  classification : Js.Value;
  primaryClass : Js.Value;
  primaryClassFullName : Js.Value;
  malignancyPercentage : Js.Value;
  confidence : Js.Value;
  topPredictions : Js.Value
}.

(** The object handed to [NextResponse.json]; one constructor per shape built
    in the routes.  An absent key is [None]. *)
Inductive Body : Type :=
| Message (message : string)
| UploadAccepted (jobId status : string) (totalImages : nat) (message : string)
| UploadError (message error : string)
| JobStatus (jobId status : string) (progress : Z)
            (report : option Report) (message : option Js.Value).

Inductive Response : Type :=
| Json (status : nat) (body : Body)
| Binary (body : list Byte.byte) (headers : list (string * string)).

(** The [message] key of a JSON response body. *)
Definition body_message (b : Body) : Js.Value :=
  match b with
  | Message m => Js.Str m
  | UploadAccepted _ _ _ m => Js.Str m
  | UploadError m _ => Js.Str m
  | JobStatus _ _ _ _ (Some m) => m
  | JobStatus _ _ _ _ None => Js.Undefined
  end.

Definition response_message (r : Response) : Js.Value :=
  match r with
  | Json _ b => body_message b
  | Binary _ _ => Js.Undefined
  end.

Definition response_status (r : Response) : nat :=
  match r with
  | Json s _ => s
  | Binary _ _ => 200
  end.

(** Result of [verifyToken(request)] (src/lib/auth, imported by every route):
    either [{ error }] or [{ user: { userId } }]. *)
Inductive Auth : Type :=
| AuthError (error : string)
| AuthUser (userId : string).

(** ** The persistent store *)

(** Modelled from the spec: the Job schema (src/models/Job is imported by the
    routes but is not among the sources).  The fields are those the routes
    read and write, as listed in the data model; [labId] is the owner.
    [result] is [Js.Undefined] until something is stored in it. *)
Record Job : Type := mkJob {
  jobId : string;
  job_patientId : string;
  job_labId : string;
  status : string;
  progress : option Z;
  totalImages : nat;
  result : Js.Value;
  createdAt : Z
}.

(** Modelled from the spec: the Patient schema (src/models/Patient is imported
    by the routes but is not among the sources).  [name] and [age] hold the
    form values as submitted, [None] for [null]. *)
Record Patient : Type := mkPatient {
  patientId : string;
  name : option string;
  age : option string;
  patient_labId : string
}.

Record Store : Type := mkStore {
  jobs : list Job;
  patients : list Patient
}.

Definition PENDING := "PENDING".
Definition PROCESSING := "PROCESSING".
Definition COMPLETED := "COMPLETED".
Definition FAILED := "FAILED".

(** The Mongoose calls the routes make on the Job collection. *)
Module JobModel.

(** [Job.findOne({ jobId, labId })] *)
Definition findOne (id lab : string) (db : Store) : option Job :=
  find (fun j => (jobId j =? id) && (job_labId j =? lab)) (jobs db).

(** [Job.create({ jobId, patientId, labId, status, progress, totalImages })];
    [now] is the creation time the schema stamps on the document. *)
Definition create (now : Z) (id pid lab st : string) (prog : Z) (total : nat)
    (db : Store) : Store :=
  mkStore (jobs db ++ [mkJob id pid lab st (Some prog) total Js.Undefined now])
          (patients db).

Fixpoint update_first (id st : string) (res : Js.Value) (l : list Job) : list Job :=
  match l with
  | [] => []
  | j :: rest =>
      if jobId j =? id
      then mkJob (jobId j) (job_patientId j) (job_labId j) st (progress j)
                 (totalImages j) res (createdAt j) :: rest
      else j :: update_first id st res rest
  end.

(** [Job.findOneAndUpdate({ jobId }, { status, result })]: the first document
    with that id gets the two fields set; nothing happens when there is none. *)
Definition findOneAndUpdate (id st : string) (res : Js.Value) (db : Store) : Store :=
  mkStore (update_first id st res (jobs db)) (patients db).

End JobModel.

(** The Mongoose calls the routes make on the Patient collection. *)
Module PatientModel.

(** [Patient.findOne({ patientId })] *)
Definition findOne (pid : string) (db : Store) : option Patient :=
  find (fun p => patientId p =? pid) (patients db).

Fixpoint upsert (p : Patient) (l : list Patient) : list Patient :=
  match l with
  | [] => [p]
  | q :: rest =>
      if patientId q =? patientId p then p :: rest else q :: upsert p rest
  end.

(** [Patient.findOneAndUpdate({ patientId }, { patientId, name, age, labId },
    { upsert: true, new: true })]: the first document with that key gets the
    four fields set, and a new document is inserted when there is none. *)
Definition findOneAndUpdate (pid : string) (nm ag : option string) (lab : string)
    (db : Store) : Store :=
  mkStore (jobs db) (upsert (mkPatient pid nm ag lab) (patients db)).

(** Number of documents stored under a key. *)
Definition count (pid : string) (l : list Patient) : nat :=
  length (filter (fun p => patientId p =? pid) l).

End PatientModel.

(** ** Upload validator: src/components/ImageUpload.jsx *)
Module ImageUpload.

(** What [handleFileChange] reads of a DOM [File]. *)
Record File : Type := mkFile {
  file_name : string;
  file_type : string;
  file_size : N
}.

(** The component state the handler touches synchronously.  [previews] is
    filled later by the [FileReader] callbacks and is left out. *)
Record State : Type := mkState {
  files : list File;
  error : string
}.

Definition initial : State := mkState [] "".

Definition validTypes : list string :=
  ["image/jpeg"; "image/jpg"; "image/png"; "image/tiff"].

Definition maxSize : N := 50 * 1024 * 1024.

(** [validTypes.includes(t)] *)
Definition includes (l : list string) (t : string) : bool :=
  existsb (fun x => x =? t) l.

(** The [for ... of] loop; the accumulator is [validFiles] and the value of the
    last [setError] call so far ([err]). *)
Fixpoint loop (selectedFiles : list File) (validFiles : list File) (err : string)
    : list File * string :=
  match selectedFiles with
  | [] => (validFiles, err)
  | file :: rest =>
      if negb (includes validTypes (file_type file)) then
        loop rest validFiles
          (file_name file ++ ": Invalid file type. Only JPG, PNG, or TIFF allowed.")
      else if (maxSize <? file_size file)%N then
        loop rest validFiles
          (file_name file ++ ": File size must be less than 50MB")
      else
        loop rest (validFiles ++ [file]) err
  end.

Definition handleFileChange (selectedFiles : list File) (st : State) : State :=
  match selectedFiles with
  | [] => st
  | _ =>
      let '(validFiles, err) := loop selectedFiles [] (error st) in
      if (0 <? length validFiles)%nat
      then mkState (files st ++ validFiles) ""
      else mkState (files st) err
  end.

(** [removeFile(index)] *)
Fixpoint remove_at {A : Type} (index : nat) (l : list A) : list A :=
  match l, index with
  | [], _ => []
  | _ :: rest, O => rest
  | x :: rest, S i => x :: remove_at i rest
  end.

Definition removeFile (index : nat) (st : State) : State :=
  mkState (remove_at index (files st)) (error st).

(** The "Clear all" button. *)
Definition clearAll (st : State) : State := mkState [] (error st).

Inductive Event : Type :=
| Select (selectedFiles : list File)
| Remove (index : nat)
| Clear.

Definition step (st : State) (e : Event) : State :=
  match e with
  | Select l => handleFileChange l st
  | Remove i => removeFile i st
  | Clear => clearAll st
  end.

Definition run (es : list Event) : State := fold_left step es initial.

(** The two checks of the loop, as one predicate on a file. *)
Definition allowed (f : File) : Prop :=
  In (file_type f) validTypes /\ (file_size f <= maxSize)%N.

(** The reason the loop reports for a file it skips. *)
Definition rejection_reason (f : File) : string :=
  if negb (includes validTypes (file_type f))
  then file_name f ++ ": Invalid file type. Only JPG, PNG, or TIFF allowed."
  else file_name f ++ ": File size must be less than 50MB".

Definition rejected (f : File) : bool :=
  negb (includes validTypes (file_type f)) || (maxSize <? file_size f)%N.

(** The last file of a selection that the loop skips, if any. *)
Fixpoint last_rejected (l : list File) : option File :=
  match l with
  | [] => None
  | f :: rest =>
      match last_rejected rest with
      | Some g => Some g
      | None => if rejected f then Some f else None
      end
  end.

End ImageUpload.

(** ** Upload route: [POST] *)
Module UploadRoute.

(** A [FormData] entry value: a string or a file. *)
Inductive Entry : Type :=
| Text (value : string)
| FileValue (filename : string) (content : list Byte.byte).

(** Truthiness of an entry: a [File] object always, a string when not empty. *)
Definition truthy (e : Entry) : bool :=
  match e with
  | Text s => negb (s =? "")
  | FileValue _ _ => true
  end.

(** The request body as the route reads it: [getAll('images')], [get('image')],
    [get('patientId')], [get('name')], [get('age')].  The three patient fields
    are text fields, [None] when the key is absent ([null]). *)
Record FormData : Type := mkFormData {
  form_images : list Entry;
  form_image : option Entry;
  form_patientId : option string;
  form_name : option string;
  form_age : option string
}.

(** What the handler takes from its surroundings: the environment variable,
    the value [randomUUID()] returns, the creation time stamped on the new job,
    and the inference service behind [fetch(url, { method: 'POST', body })]. *)
Record Env : Type := mkEnv {
  env_ML_BACKEND_URL : option string;
  randomUUID : string;
  now : Z;
  fetch : string -> list (string * Entry) -> Try FetchResponse
}.

(** [process.env.ML_BACKEND_URL || 'http://127.0.0.1:8000'] *)
Definition ML_BACKEND_URL (env : Env) : string :=
  Js.or_str (env_ML_BACKEND_URL env) "http://127.0.0.1:8000".

(** [images.length > 0 ? images : (singleImage ? [singleImage] : [])] *)
Definition allImages (formData : FormData) : list Entry :=
  if (0 <? length (form_images formData))%nat then form_images formData
  else match form_image formData with
       | Some singleImage => if truthy singleImage then [singleImage] else []
       | None => []
       end.

(** The guard: [allImages.length === 0 || !patientId]. *)
Definition invalid (formData : FormData) : bool :=
  (length (allImages formData) =? 0)%nat
  || negb (Js.truthy_str (form_patientId formData)).

Definition string_of (s : option string) : string :=
  match s with Some x => x | None => "" end.

Definition mlFormData (images : list Entry) (jobId pid : string)
    (name age : option string) (userId : string) : list (string * Entry) :=
  map (fun image => ("images", image)) images
  ++ [ ("job_id", Text jobId);
       ("patient_id", Text pid);
       ("patient_name", Text (Js.or_str name ""));
       ("patient_age", Text (Js.or_str age "0"));
       ("lab_id", Text userId) ].

(** [errorData.detail]: a property read, which throws on [null]. *)
Definition read_detail (errorData : Js.Value) : Try Js.Value :=
  match errorData with
  | Js.Null => Throws "Cannot read properties of null (reading 'detail')"
  | Js.Undefined => Throws "Cannot read properties of undefined (reading 'detail')"
  | _ => Returns (Js.get errorData "detail")
  end.

(** The body of the [try] block. *)
Definition forward (env : Env) (images : list Entry) (jobId pid : string)
    (name age : option string) (userId : string) : Try Response :=
  mlResponse <- fetch env (ML_BACKEND_URL env ++ "/api/analyze")
                  (mlFormData images jobId pid name age userId) ;;
  if negb (ok mlResponse) then
    errorData <- json mlResponse ;;
    detail <- read_detail errorData ;;
    Throws (Js.ToString (Js.or detail (Js.Str "ML backend error")))
  else
    Returns (Json 200
      (UploadAccepted jobId PENDING (length images)
         (Js.string_of_nat (length images)
            ++ " image(s) uploaded, ML processing started"))).

(** The two writes made before forwarding: the patient upsert and
    [Job.create]. *)
Definition persist (env : Env) (userId : string) (images : list Entry)
    (pid : string) (name age : option string) (db : Store) : Store :=
  let db := PatientModel.findOneAndUpdate pid name age userId db in
  JobModel.create (now env) (randomUUID env) pid userId PENDING 0 (length images) db.

Definition POST (env : Env) (auth : Auth) (formData : FormData) (db : Store)
    : Store * Response :=
  match auth with
  | AuthError error => (db, Json 401 (Message error))
  | AuthUser userId =>
      let images := allImages formData in
      let name := form_name formData in
      let age := form_age formData in
      if invalid formData then
        (db, Json 400 (Message "At least one image and patient ID are required"))
      else
        let patientId := string_of (form_patientId formData) in
        let jobId := randomUUID env in
        let db := persist env userId images patientId name age db in
        match forward env images jobId patientId name age userId with
        | Returns response => (db, response)
        | Throws message =>
            (JobModel.findOneAndUpdate jobId FAILED
               (Js.Obj [("error", Js.Str message)]) db,
             Json 500 (UploadError "Failed to start ML processing" message))
        end
  end.

(** A sequence of upload requests served one after the other. *)
Record Request : Type := mkRequest {
  req_env : Env;
  req_auth : Auth;
  req_form : FormData
}.

Definition serve (db : Store) (r : Request) : Store :=
  fst (POST (req_env r) (req_auth r) (req_form r) db).

Definition serve_all (rs : list Request) (db : Store) : Store :=
  fold_left serve rs db.

End UploadRoute.

(** ** Job status route: [GET] *)
Module StatusRoute.

(** [job.progress || 0] *)
Definition progress_or_0 (p : option Z) : Z :=
  match p with
  | Some z => if (z =? 0)%Z then 0%Z else z
  | None => 0%Z
  end.

(** [patient?.name || 'N/A'] and [patient?.age || 'N/A'] *)
Definition name_or_NA (patient : option Patient) : string :=
  Js.or_str (match patient with Some p => name p | None => None end) "N/A".

Definition age_or_NA (patient : option Patient) : string :=
  Js.or_str (match patient with Some p => age p | None => None end) "N/A".

Definition build_report (job : Job) (patient : option Patient) : Report :=
  mkReport (jobId job) (job_patientId job)
    (name_or_NA patient) (age_or_NA patient) (createdAt job)
    (Js.get (result job) "classification")
    (Js.get (result job) "primaryClass")
    (Js.get (result job) "primaryClassFullName")
    (Js.get (result job) "malignancyPercentage")
    (Js.get (result job) "confidence")
    (Js.get (result job) "topPredictions").

Definition GET (auth : Auth) (id : string) (db : Store) : Response :=
  match auth with
  | AuthError error => Json 401 (Message error)
  | AuthUser userId =>
      match JobModel.findOne id userId db with
      | None => Json 404 (Message "Job not found or access denied")
      | Some job =>
          let report :=
            if (status job =? COMPLETED) && Js.truthy (result job)
            then Some (build_report job (PatientModel.findOne (job_patientId job) db))
            else None in
          let message :=
            if (status job =? FAILED) && Js.truthy (Js.get_opt (result job) "error")
            then Some (Js.get (result job) "error")
            else None in
          Json 200 (JobStatus (jobId job) (status job)
                      (progress_or_0 (progress job)) report message)
      end
  end.

End StatusRoute.

(** ** Report route: [GET] of app/api/reports/[jobId]/route.js *)
Module ReportRoute.

Record Env : Type := mkEnv {
  env_ML_BACKEND_URL : option string;
  fetch : string -> Try FetchResponse
}.

Definition ML_BACKEND_URL (env : Env) : string :=
  Js.or_str (env_ML_BACKEND_URL env) "http://127.0.0.1:8000".

Definition pdf_url (env : Env) (id : string) : string :=
  ML_BACKEND_URL env ++ "/api/reports/" ++ id ++ "/pdf".

Definition pdf_headers (id : string) : list (string * string) :=
  [ ("Content-Type", "application/pdf");
    ("Content-Disposition",
     "attachment; filename=cytomind_report_" ++ id ++ ".pdf") ].

(** Whether the [Headers] constructor takes a value: it must hold no NUL, LF
    or CR.  (It also trims white space at both ends; the two values built
    here start and end with a letter.  A character of a string is one [ascii],
    so every character is within the byte range the constructor asks for.) *)
Fixpoint header_value_ok (value : string) : bool :=
  match value with
  | "" => true
  | String c rest =>
      negb ((c =? "000")%char || (c =? "010")%char || (c =? "013")%char)
      && header_value_ok rest
  end.

(** [new NextResponse(body, { headers })], which throws a TypeError on a
    header value that is not legal. *)
Definition new_NextResponse (body : list Byte.byte)
    (headers : list (string * string)) : Try Response :=
  if forallb (fun h => header_value_ok (snd h)) headers
  then Returns (Binary body headers)
  else Throws "Invalid header value".

(** The body of the [try] block. *)
Definition download (env : Env) (id : string) : Try Response :=
  pdfResponse <- fetch env (pdf_url env id) ;;
  if negb (ok pdfResponse) then
    Throws "Failed to fetch PDF from ML backend"
  else
    pdfBuffer <- arrayBuffer pdfResponse ;;
    new_NextResponse pdfBuffer (pdf_headers id).

Definition GET (env : Env) (auth : Auth) (id : string) (db : Store) : Response :=
  match auth with
  | AuthError error => Json 401 (Message error)
  | AuthUser userId =>
      match JobModel.findOne id userId db with
      | None => Json 404 (Message "Report not found or access denied")
      | Some job =>
          if negb (status job =? COMPLETED) then
            Json 400 (Message "Report not ready yet")
          else
            match download env id with
            | Returns response => response
            | Throws _ => Json 500 (Message "Failed to download report")
            end
      end
  end.

End ReportRoute.

(** ** Multipart form entries

    [FormData.getAll(key)] and [FormData.get(key)] over the entries in the
    order they were appended. *)
Module FormEntries.

Definition getAll {A : Type} (key : string) (entries : list (string * A)) : list A :=
  map snd (filter (fun kv => fst kv =? key) entries).

Definition get {A : Type} (key : string) (entries : list (string * A)) : option A :=
  hd_error (getAll key entries).

End FormEntries.

(** ** API client: the [api] object used by the components *)
Module Api.

(** A value appended to the client's [FormData]: a string or a [File]. *)
Inductive Part : Type :=
| TextPart (value : string)
| FilePart (file : ImageUpload.File).

(** What the client passes to [fetch]. *)
Record Request : Type := mkRequest {
  url : string;
  method : string;
  authorization : option string;
  content_type : option string;
  body : list (string * Part)
}.

(** What the client reads of the [Response]. *)
Record ClientResponse : Type := mkClientResponse {
  resp_ok : bool;
  resp_json : Try Js.Value;
  resp_blob : Try (list Byte.byte)
}.

(** The [patientData] object handed to the upload calls. *)
Record PatientData : Type := mkPatientData {
  pd_patientId : Js.Value;
  pd_name : Js.Value;
  pd_age : Js.Value
}.

(** What [downloadReport] hands to the browser: the blob behind the object
    URL and the [download] attribute of the link it clicks. *)
Record Download : Type := mkDownload {
  download_blob : list Byte.byte;
  download_name : string
}.

(** [`Bearer ${token}`]; a missing token prints as [null]. *)
Definition bearer (token : option string) : string :=
  "Bearer " ++ match token with Some t => t | None => "null" end.

(** [data.message], which throws on [null]. *)
Definition read_message (data : Js.Value) : Try Js.Value :=
  match data with
  | Js.Null => Throws "Cannot read properties of null (reading 'message')"
  | Js.Undefined => Throws "Cannot read properties of undefined (reading 'message')"
  | _ => Returns (Js.get data "message")
  end.

(** [if (!response.ok) throw new Error(data.message || fallback); return data] *)
Definition unwrap (fallback : string) (response : ClientResponse) : Try Js.Value :=
  data <- resp_json response ;;
  if negb (resp_ok response) then
    m <- read_message data ;;
    Throws (Js.ToString (Js.or m (Js.Str fallback)))
  else Returns data.

Section Client.

(** The world the network reaches: [fetch] may change it. *)
Variable W : Type.

(** [localStorage.getItem('token')] and the global [fetch]. *)
Record Env : Type := mkEnv {
  token : option string;
  fetch : Request -> W -> W * Try ClientResponse
}.

(** [call(endpoint)], with the default [options = {}]. *)
Definition call (env : Env) (endpoint : string) (w : W) : W * Try Js.Value :=
  let headers_authorization :=
    if Js.truthy_str (token env) then Some (bearer (token env)) else None in
  let '(w, fetched) :=
    fetch env (mkRequest endpoint "GET" headers_authorization
                 (Some "application/json") []) w in
  (w, response <- fetched ;; unwrap "API request failed" response).

Definition upload_request (env : Env) (files : list ImageUpload.File)
    (patientData : PatientData) : Request :=
  mkRequest "/api/upload" "POST" (Some (bearer (token env))) None
    (map (fun file => ("images", FilePart file)) files
     ++ [ ("patientId", TextPart (Js.ToString (pd_patientId patientData)));
          ("name", TextPart (Js.ToString (pd_name patientData)));
          ("age", TextPart (Js.ToString (pd_age patientData))) ]).

Definition uploadImages (env : Env) (files : list ImageUpload.File)
    (patientData : PatientData) (w : W) : W * Try Js.Value :=
  let '(w, fetched) := fetch env (upload_request env files patientData) w in
  (w, response <- fetched ;; unwrap "Upload failed" response).

Definition uploadImage (env : Env) (file : ImageUpload.File)
    (patientData : PatientData) (w : W) : W * Try Js.Value :=
  uploadImages env [file] patientData w.

Definition getPatient (env : Env) (patientId : string) (w : W) : W * Try Js.Value :=
  call env ("/api/patients/" ++ patientId) w.

Definition getJobStatus (env : Env) (jobId : string) (w : W) : W * Try Js.Value :=
  call env ("/api/jobs/" ++ jobId ++ "/status") w.

Definition downloadReport (env : Env) (jobId : string) (w : W) : W * Try Download :=
  let '(w, fetched) :=
    fetch env (mkRequest ("/api/reports/" ++ jobId) "GET"
                 (Some (bearer (token env))) None []) w in
  (w, response <- fetched ;;
      if negb (resp_ok response) then Throws "Download failed"
      else
        blob <- resp_blob response ;;
        Returns (mkDownload blob ("cytomind_report_" ++ jobId ++ ".pdf"))).

End Client.

Arguments mkEnv {W} token fetch.
Arguments token {W} e.
Arguments fetch {W} e.
Arguments call {W} env endpoint w.
Arguments upload_request {W} env files patientData.
Arguments uploadImages {W} env files patientData w.
Arguments uploadImage {W} env file patientData w.
Arguments getPatient {W} env patientId w.
Arguments getJobStatus {W} env jobId w.
Arguments downloadReport {W} env jobId w.

End Api.

(** ** The upload button of [ImageUpload]: [handleUpload] *)
Module UploadPanel.

(** The component state: the part [handleFileChange] works on, and
    [uploading]. *)
Record View : Type := mkView {
  staged : ImageUpload.State;
  uploading : bool
}.

(** [handleUpload], given [api.uploadImages], the [onUploadComplete] prop and
    the [patientData] prop ([None] for a missing one).  The third component is
    the argument [onUploadComplete] was called with, if it was called. *)
Definition handleUpload {W : Type}
    (uploadImages : list ImageUpload.File -> Api.PatientData -> W -> W * Try Js.Value)
    (onUploadComplete : Js.Value -> Try unit)
    (patientData : option Api.PatientData) (v : View) (w : W)
    : W * View * option Js.Value :=
  let files := ImageUpload.files (staged v) in
  match patientData with
  | Some pd =>
      if (length files =? 0)%nat then
        (w, mkView (ImageUpload.mkState files
                      "Please select at least one image and enter patient data")
                   (uploading v), None)
      else
        let '(w, uploaded) := uploadImages files pd w in
        match uploaded with
        | Returns result =>
            match onUploadComplete result with
            | Returns _ => (w, mkView (ImageUpload.mkState files "") true, Some result)
            | Throws message =>
                (w, mkView (ImageUpload.mkState files
                              (Js.or_str (Some message)
                                 "Upload failed. Please try again."))
                           false, Some result)
            end
        | Throws message =>
            (w, mkView (ImageUpload.mkState files
                          (Js.or_str (Some message)
                             "Upload failed. Please try again."))
                       false, None)
        end
  | None =>
      (w, mkView (ImageUpload.mkState files
                    "Please select at least one image and enter patient data")
                 (uploading v), None)
  end.

End UploadPanel.

(** ** The download button of [ReportViewer]: [handleDownload] *)
Module ReportViewer.

Record State : Type := mkState {
  downloading : bool;
  error : string
}.

(** [handleDownload], given [api.downloadReport] and [report.jobId].  The
    third component is the download handed to the browser, if any. *)
Definition handleDownload {W : Type}
    (downloadReport : string -> W -> W * Try Api.Download)
    (jobId : string) (st : State) (w : W) : W * State * option Api.Download :=
  let '(w, downloaded) := downloadReport jobId w in
  match downloaded with
  | Returns d => (w, mkState false "", Some d)
  | Throws _ => (w, mkState false "Download failed. Please try again.", None)
  end.

End ReportViewer.

(** ** The client in front of the routes

    The browser's [fetch] reaching the three handlers.  What lies between and
    is not code of the repository is taken as a parameter: [verifyToken] (the
    routes import it from src/lib/auth), the bytes of an uploaded file, the
    printing of a [Date] in JSON, and the JSON text of a body as bytes and
    back. *)
Module Site.

Section Site.

Variable verifyToken : option string -> Auth.
Variable content : ImageUpload.File -> list Byte.byte.
Variable toISOString : Z -> string.
Variable encode : Js.Value -> list Byte.byte.
Variable decode : list Byte.byte -> Try Js.Value.

(** A key whose value is [undefined] is left out by [JSON.stringify]. *)
Definition field (k : string) (v : Js.Value) : list (string * Js.Value) :=
  match v with
  | Js.Undefined => []
  | _ => [(k, v)]
  end.

Definition json_of_report (r : Report) : Js.Value :=
  Js.Obj ([ ("jobId", Js.Str (report_jobId r));
            ("patientId", Js.Str (report_patientId r));
            ("patientName", Js.Str (patientName r));
            ("age", Js.Str (report_age r));
            ("date", Js.Str (toISOString (date r))) ]
          ++ field "classification" (classification r)
          ++ field "primaryClass" (primaryClass r)
          ++ field "primaryClassFullName" (primaryClassFullName r)
          ++ field "malignancyPercentage" (malignancyPercentage r)
          ++ field "confidence" (confidence r)
          ++ field "topPredictions" (topPredictions r)).

(** The body as the client parses it back. *)
Definition json_of_body (b : Body) : Js.Value :=
  match b with
  | Message m => Js.Obj [("message", Js.Str m)]
  | UploadAccepted j s n m =>
      Js.Obj [ ("jobId", Js.Str j); ("status", Js.Str s);
               ("totalImages", Js.Num (Z.of_nat n)); ("message", Js.Str m) ]
  | UploadError m e => Js.Obj [("message", Js.Str m); ("error", Js.Str e)]
  | JobStatus j s p rep msg =>
      Js.Obj ([ ("jobId", Js.Str j); ("status", Js.Str s); ("progress", Js.Num p) ]
              ++ match rep with
                 | Some r => [("report", json_of_report r)]
                 | None => []
                 end
              ++ match msg with
                 | Some m => field "message" m
                 | None => []
                 end)
  end.

(** [response.ok]: a status in 200..299. *)
Definition reply_of (r : Response) : Api.ClientResponse :=
  match r with
  | Json s b =>
      Api.mkClientResponse ((200 <=? s)%nat && (s <=? 299)%nat)
        (Returns (json_of_body b)) (Returns (encode (json_of_body b)))
  | Binary bytes _ =>
      Api.mkClientResponse true (decode bytes) (Returns bytes)
  end.

(** The multipart encoding of a text value: every CR not followed by LF and
    every LF not preceded by CR is sent as CR LF. *)
Fixpoint crlf (s : string) : string :=
  match s with
  | "" => ""
  | String c rest =>
      if (c =? "013")%char then
        match rest with
        | String c' rest' =>
            if (c' =? "010")%char
            then String "013" (String "010" (crlf rest'))
            else String "013" (String "010" (crlf rest))
        | "" => String "013" (String "010" "")
        end
      else if (c =? "010")%char then String "013" (String "010" (crlf rest))
      else String c (crlf rest)
  end.

(** An entry as the route reads it back.  A text value arrives with its line
    breaks as CR LF; a file arrives with its bytes, under its name (taken as a
    name the encoding leaves as it is: no quote, line break or percent escape
    in it). *)
Definition entry_of (p : Api.Part) : UploadRoute.Entry :=
  match p with
  | Api.TextPart s => UploadRoute.Text (crlf s)
  | Api.FilePart f => UploadRoute.FileValue (ImageUpload.file_name f) (content f)
  end.

(** A text field of the form; a file sent under such a key is not in the
    domain of [UploadRoute.FormData] and no client call makes one. *)
Definition text_of (p : option Api.Part) : option string :=
  match p with
  | Some (Api.TextPart s) => Some (crlf s)
  | _ => None
  end.

(** [request.formData()] on the body the client sent. *)
Definition upload_form (body : list (string * Api.Part)) : UploadRoute.FormData :=
  UploadRoute.mkFormData
    (map entry_of (FormEntries.getAll "images" body))
    (option_map entry_of (FormEntries.get "image" body))
    (text_of (FormEntries.get "patientId" body))
    (text_of (FormEntries.get "name" body))
    (text_of (FormEntries.get "age" body)).

(** The form the upload route reads from the request [api.uploadImages]
    sends for these files and patient data (see [upload_form_request]). *)
Definition submitted_form (files : list ImageUpload.File)
    (pd : Api.PatientData) : UploadRoute.FormData :=
  UploadRoute.mkFormData (map (fun f => entry_of (Api.FilePart f)) files) None
    (Some (crlf (Js.ToString (Api.pd_patientId pd))))
    (Some (crlf (Js.ToString (Api.pd_name pd))))
    (Some (crlf (Js.ToString (Api.pd_age pd)))).

(** [fetch] answered by the upload route; the world is the store. *)
Definition fetch_upload (srv : UploadRoute.Env) (req : Api.Request) (db : Store)
    : Store * Try Api.ClientResponse :=
  let out := UploadRoute.POST srv (verifyToken (Api.authorization req))
               (upload_form (Api.body req)) db in
  (fst out, Returns (reply_of (snd out))).

(** [fetch] answered by the status route, the router having put the path
    segment in [params.jobId]. *)
Definition fetch_status (id : string) (req : Api.Request) (db : Store)
    : Store * Try Api.ClientResponse :=
  (db, Returns (reply_of (StatusRoute.GET (verifyToken (Api.authorization req)) id db))).

(** [fetch] answered by the report route. *)
Definition fetch_report (srv : ReportRoute.Env) (id : string) (req : Api.Request)
    (db : Store) : Store * Try Api.ClientResponse :=
  (db, Returns (reply_of (ReportRoute.GET srv (verifyToken (Api.authorization req)) id db))).

(** Pressing "Upload and Analyze". *)
Definition submit (srv : UploadRoute.Env) (token : option string)
    (onUploadComplete : Js.Value -> Try unit)
    (patientData : option Api.PatientData) (v : UploadPanel.View) (db : Store)
    : Store * UploadPanel.View * option Js.Value :=
  UploadPanel.handleUpload
    (Api.uploadImages (Api.mkEnv token (fetch_upload srv)))
    onUploadComplete patientData v db.

(** One status poll. *)
Definition poll (token : option string) (id : string) (db : Store)
    : Store * Try Js.Value :=
  Api.getJobStatus (Api.mkEnv token (fetch_status id)) id db.

(** Pressing "Download Full Report". *)
Definition download (srv : ReportRoute.Env) (token : option string) (id : string)
    (st : ReportViewer.State) (db : Store)
    : Store * ReportViewer.State * option Api.Download :=
  ReportViewer.handleDownload
    (Api.downloadReport (Api.mkEnv token (fetch_report srv id))) id st db.

End Site.

End Site.

(** * Properties *)

(** ** Upload validator *)
Section ImageUploadFacts.
Import ImageUpload.

Lemma includes_In (l : list string) (t : string) :
  includes l t = true <-> In t l.
Proof.
  unfold includes. rewrite existsb_exists. split.
  - intros (x & Hx & Heq). apply String.eqb_eq in Heq. now subst.
  - intros H. exists t. split; [assumption | apply String.eqb_refl].
Qed.

Lemma rejected_false_allowed (f : File) :
  rejected f = false <-> allowed f.
Proof.
  unfold rejected, allowed. rewrite orb_false_iff, negb_false_iff.
  rewrite includes_In, N.ltb_ge. reflexivity.
Qed.

Lemma rejected_true_not_allowed (f : File) :
  rejected f = true <-> ~ allowed f.
Proof.
  rewrite <- rejected_false_allowed. destruct (rejected f); split; congruence.
Qed.

(** The loop keeps, in order, the files that pass both checks. *)
Lemma loop_validFiles (sel acc : list File) (err : string) :
  fst (loop sel acc err) = (acc ++ filter (fun f => negb (rejected f)) sel)%list.
Proof.
  revert acc err. induction sel as [|f sel IH]; intros acc err;
    cbn [loop filter fst].
  - now rewrite app_nil_r.
  - unfold rejected.
    destruct (negb (includes validTypes (file_type f))); cbn [orb negb].
    + apply IH.
    + destruct (maxSize <? file_size f)%N; cbn [negb].
      * apply IH.
      * rewrite IH, <- app_assoc. reflexivity.
Qed.

(** The loop leaves in [error] the reason of the last file it skipped. *)
Lemma loop_error (sel acc : list File) (err : string) :
  snd (loop sel acc err) =
  match last_rejected sel with
  | Some f => rejection_reason f
  | None => err
  end.
Proof.
  revert acc err. induction sel as [|f sel IH]; intros acc err;
    cbn [loop last_rejected snd].
  - reflexivity.
  - unfold rejected.
    destruct (negb (includes validTypes (file_type f))) eqn:Et; cbn [orb].
    + rewrite IH. destruct (last_rejected sel); [reflexivity|].
      unfold rejection_reason. now rewrite Et.
    + destruct (maxSize <? file_size f)%N.
      * rewrite IH. destruct (last_rejected sel); [reflexivity|].
        unfold rejection_reason. now rewrite Et.
      * rewrite IH. now destruct (last_rejected sel).
Qed.

Lemma handleFileChange_files (sel : list File) (st : State) :
  files (handleFileChange sel st) =
  (files st ++ filter (fun f => negb (rejected f)) sel)%list.
Proof.
  unfold handleFileChange. destruct sel as [|f sel].
  - cbn [filter]. now rewrite app_nil_r.
  - pose proof (loop_validFiles (f :: sel) [] (error st)) as Hv.
    destruct (loop (f :: sel) [] (error st)) as [validFiles err].
    cbn [fst app] in Hv. subst validFiles.
    destruct (filter (fun f0 => negb (rejected f0)) (f :: sel)) eqn:E.
    + cbn [length Nat.ltb Nat.leb files]. now rewrite app_nil_r.
    + reflexivity.
Qed.

Lemma In_remove_at {A : Type} (i : nat) (l : list A) (x : A) :
  In x (remove_at i l) -> In x l.
Proof.
  revert i. induction l as [|y l IH]; intros i H; simpl in *.
  - destruct i; assumption.
  - destruct i; simpl in H.
    + now right.
    + destruct H as [H | H]; [now left | right; eauto].
Qed.

Lemma step_keeps_allowed (st : State) (e : Event) :
  Forall allowed (files st) -> Forall allowed (files (step st e)).
Proof.
  intros H. destruct e as [sel | i |]; simpl.
  - rewrite handleFileChange_files. apply Forall_app. split; [assumption|].
    apply Forall_forall. intros f Hf. apply filter_In in Hf.
    destruct Hf as [_ Hf]. apply negb_true_iff in Hf.
    now apply rejected_false_allowed.
  - apply Forall_forall. intros f Hf. apply In_remove_at in Hf.
    rewrite Forall_forall in H. auto.
  - constructor.
Qed.

Lemma fold_step_keeps_allowed (es : list Event) (st : State) :
  Forall allowed (files st) -> Forall allowed (files (fold_left step es st)).
Proof.
  revert st. induction es as [|e es IH]; intros st H; simpl.
  - assumption.
  - apply IH. now apply step_keeps_allowed.
Qed.

End ImageUploadFacts.

(** C7. A file of a selection is staged by [handleFileChange] exactly when its
    MIME type is one of image/jpeg, image/jpg, image/png, image/tiff and its
    size is at most 50 MiB; the staged list afterwards holds the files staged
    before plus those, and nothing else.  Consequently no file failing either
    check is ever staged, whatever selections, removals and clears happened
    since the component was mounted. *)
Theorem C7_validator_accepts_iff_allowed :
  (forall (sel : list ImageUpload.File) (st : ImageUpload.State) (f : ImageUpload.File),
      In f (ImageUpload.files (ImageUpload.handleFileChange sel st)) <->
      In f (ImageUpload.files st)
      \/ (In f sel
          /\ In (ImageUpload.file_type f)
                ["image/jpeg"; "image/jpg"; "image/png"; "image/tiff"]
          /\ (ImageUpload.file_size f <= 52428800)%N))
  /\ (forall (es : list ImageUpload.Event) (f : ImageUpload.File),
         In f (ImageUpload.files (ImageUpload.run es)) ->
         In (ImageUpload.file_type f)
            ["image/jpeg"; "image/jpg"; "image/png"; "image/tiff"]
         /\ (ImageUpload.file_size f <= 52428800)%N).
Proof.
  split.
  - intros sel st f. rewrite handleFileChange_files, in_app_iff, filter_In.
    rewrite negb_true_iff, rejected_false_allowed. reflexivity.
  - intros es f Hf.
    assert (H : Forall ImageUpload.allowed (ImageUpload.files (ImageUpload.run es))).
    { apply fold_step_keeps_allowed. constructor. }
    rewrite Forall_forall in H. exact (H f Hf).
Qed.

Section ImageUploadErrors.
Import ImageUpload.

Lemma last_rejected_nonempty (sel : list File) (f : File) :
  last_rejected sel = Some f -> sel <> [].
Proof. destruct sel; [discriminate | congruence]. Qed.

Lemma no_accepted_forallb (sel : list File) :
  (0 <? length (filter (fun f => negb (rejected f)) sel))%nat
  = negb (forallb rejected sel).
Proof.
  induction sel as [|f sel IH]; cbn [filter forallb].
  - reflexivity.
  - destruct (rejected f); cbn [negb andb]; [exact IH | reflexivity].
Qed.

Lemma rejection_reason_keyed (f : File) :
  exists why, rejection_reason f = file_name f ++ ": " ++ why.
Proof.
  unfold rejection_reason.
  destruct (negb (includes validTypes (file_type f))); eexists; reflexivity.
Qed.

End ImageUploadErrors.

(** C9, as the claim states it, fails: a selection of one GIF followed by one
    valid PNG has a rejected file, yet the error shown afterwards is the empty
    string and not the reason for the GIF. *)
Lemma C9_counterexample_error_cleared :
  let gif := ImageUpload.mkFile "smear.gif" "image/gif" 1024 in
  let png := ImageUpload.mkFile "cell.png" "image/png" 2048 in
  ImageUpload.last_rejected [gif; png] = Some gif
  /\ ImageUpload.error (ImageUpload.handleFileChange [gif; png] ImageUpload.initial) = ""
  /\ ImageUpload.error (ImageUpload.handleFileChange [gif; png] ImageUpload.initial)
     <> ImageUpload.rejection_reason gif.
Proof.
  cbv zeta. repeat split; try (vm_compute; reflexivity).
  vm_compute. discriminate.
Qed.

(** C9, amended.  Every rejected file's reason starts with its file name, and a
    single reason is held.  After a selection with at least one rejected file,
    whose last rejected file is [f]: when no file of the selection was accepted
    the error shown is the reason for [f]; when at least one file was accepted
    the error is cleared to the empty string. *)
Theorem C9_error_after_selection :
  forall (sel : list ImageUpload.File) (st : ImageUpload.State) (f : ImageUpload.File),
    ImageUpload.last_rejected sel = Some f ->
    ImageUpload.error (ImageUpload.handleFileChange sel st)
    = (if forallb ImageUpload.rejected sel
       then ImageUpload.rejection_reason f else "")
    /\ exists why,
         ImageUpload.rejection_reason f = ImageUpload.file_name f ++ ": " ++ why.
Proof.
  intros sel st f Hlast. split; [| apply rejection_reason_keyed].
  unfold ImageUpload.handleFileChange.
  destruct sel as [|g sel]; [discriminate|].
  pose proof (loop_validFiles (g :: sel) [] (ImageUpload.error st)) as Hv.
  pose proof (loop_error (g :: sel) [] (ImageUpload.error st)) as He.
  destruct (ImageUpload.loop (g :: sel) [] (ImageUpload.error st)) as [validFiles err].
  cbn [fst snd app] in Hv, He. subst validFiles.
  rewrite Hlast in He. subst err.
  rewrite no_accepted_forallb.
  destruct (forallb ImageUpload.rejected (g :: sel)); reflexivity.
Qed.

Lemma C9_error_after_selection_witness :
  let bmp := ImageUpload.mkFile "a.bmp" "image/bmp" 10 in
  let big := ImageUpload.mkFile "b.png" "image/png" 52428801 in
  ImageUpload.error (ImageUpload.handleFileChange [bmp; big] ImageUpload.initial)
  = "b.png: File size must be less than 50MB".
Proof.
  cbv zeta.
  exact (proj1 (C9_error_after_selection
                  [ImageUpload.mkFile "a.bmp" "image/bmp" 10;
                   ImageUpload.mkFile "b.png" "image/png" 52428801]
                  ImageUpload.initial
                  (ImageUpload.mkFile "b.png" "image/png" 52428801)
                  eq_refl)).
Defined.

Lemma C7_validator_accepts_iff_allowed_witness :
  let png := ImageUpload.mkFile "cell.png" "image/png" 2048 in
  In (ImageUpload.file_type png)
     ["image/jpeg"; "image/jpg"; "image/png"; "image/tiff"]
  /\ (ImageUpload.file_size png <= 52428800)%N.
Proof.
  cbv zeta.
  apply (proj2 C7_validator_accepts_iff_allowed
           [ImageUpload.Select
              [ImageUpload.mkFile "smear.gif" "image/gif" 1024;
               ImageUpload.mkFile "cell.png" "image/png" 2048]]).
  vm_compute. left. reflexivity.
Defined.

(** ** The store *)
Section StoreFacts.

Lemma count_upsert (p : Patient) (l : list Patient) (q : string) :
  PatientModel.count q (PatientModel.upsert p l) =
  if patientId p =? q then Nat.max 1 (PatientModel.count q l)
  else PatientModel.count q l.
Proof.
  unfold PatientModel.count.
  induction l as [|x l IH]; cbn [PatientModel.upsert filter length].
  - destruct (patientId p =? q); reflexivity.
  - destruct (patientId x =? patientId p) eqn:Exp.
    + apply String.eqb_eq in Exp. cbn [filter]. rewrite Exp.
      destruct (patientId p =? q); reflexivity.
    + cbn [filter]. destruct (patientId x =? q) eqn:Exq; cbn [length].
      * rewrite IH. destruct (patientId p =? q) eqn:Epq; [|reflexivity].
        apply String.eqb_eq in Exq, Epq. apply String.eqb_neq in Exp. congruence.
      * exact IH.
Qed.

Lemma count_upsert_le_1 (p : Patient) (l : list Patient) (q : string) :
  PatientModel.count q l <= 1 ->
  PatientModel.count q (PatientModel.upsert p l) <= 1.
Proof.
  intros H. rewrite count_upsert. destruct (patientId p =? q); lia.
Qed.

Lemma find_upsert_same (p : Patient) (l : list Patient) :
  find (fun x => patientId x =? patientId p) (PatientModel.upsert p l) = Some p.
Proof.
  induction l as [|x l IH]; cbn [PatientModel.upsert find].
  - now rewrite String.eqb_refl.
  - destruct (patientId x =? patientId p) eqn:E; cbn [find].
    + now rewrite String.eqb_refl.
    + now rewrite E.
Qed.

Lemma find_upsert_other (p : Patient) (l : list Patient) (q : string) :
  q <> patientId p ->
  find (fun x => patientId x =? q) (PatientModel.upsert p l)
  = find (fun x => patientId x =? q) l.
Proof.
  intros Hq. assert (Hpq : (patientId p =? q) = false).
  { apply String.eqb_neq. congruence. }
  induction l as [|x l IH]; cbn [PatientModel.upsert find].
  - now rewrite Hpq.
  - destruct (patientId x =? patientId p) eqn:E; cbn [find].
    + apply String.eqb_eq in E. rewrite E, Hpq. reflexivity.
    + now rewrite IH.
Qed.

Lemma update_first_length (id st : string) (res : Js.Value) (l : list Job) :
  length (JobModel.update_first id st res l) = length l.
Proof.
  induction l as [|j l IH]; cbn [JobModel.update_first length].
  - reflexivity.
  - destruct (jobId j =? id); cbn [length]; congruence.
Qed.

(** With an id no earlier job carries, the update reaches the job just
    appended and no other. *)
Lemma update_first_fresh (id st : string) (res : Js.Value) (l : list Job) (j : Job) :
  (forall x, In x l -> jobId x <> id) ->
  jobId j = id ->
  JobModel.update_first id st res (l ++ [j]) =
  (l ++ [mkJob (jobId j) (job_patientId j) (job_labId j) st (progress j)
               (totalImages j) res (createdAt j)])%list.
Proof.
  intros Hfresh Hj. induction l as [|x l IH]; cbn [app JobModel.update_first].
  - apply String.eqb_eq in Hj. now rewrite Hj.
  - assert (Hx : (jobId x =? id) = false).
    { apply String.eqb_neq. apply Hfresh. now left. }
    rewrite Hx, IH; [reflexivity|]. intros y Hy. apply Hfresh. now right.
Qed.

(** A lookup by id and owner fails exactly when no job has both. *)
Lemma findOne_None (id lab : string) (db : Store) :
  JobModel.findOne id lab db = None <->
  (forall j, In j (jobs db) -> jobId j = id -> job_labId j <> lab).
Proof.
  unfold JobModel.findOne. split.
  - intros H j Hin Hid Hlab.
    pose proof (find_none _ _ H j Hin) as Hf. cbv beta in Hf.
    apply andb_false_iff in Hf. destruct Hf as [Hf | Hf];
      apply String.eqb_neq in Hf; contradiction.
  - intros H. destruct (find _ (jobs db)) as [j|] eqn:E; [|reflexivity].
    apply find_some in E. destruct E as [Hin Hb].
    apply andb_true_iff in Hb. destruct Hb as [Hid Hlab].
    apply String.eqb_eq in Hid, Hlab. exfalso. exact (H j Hin Hid Hlab).
Qed.

End StoreFacts.

(** ** Upload route *)
Section UploadFacts.
Import UploadRoute.

Lemma truthy_str_Some (s : option string) :
  Js.truthy_str s = true <-> exists x, s = Some x /\ x <> "".
Proof.
  destruct s as [x|]; cbn [Js.truthy_str].
  - rewrite negb_true_iff, String.eqb_neq. split.
    + intros H. now exists x.
    + intros (y & Hy & Hne). now inversion Hy; subst.
  - split; [discriminate | intros (y & Hy & _); discriminate].
Qed.

Lemma invalid_false (formData : FormData) (pid : string) :
  allImages formData <> [] ->
  form_patientId formData = Some pid ->
  pid <> "" ->
  invalid formData = false.
Proof.
  intros Himg Hpid Hne. unfold invalid. rewrite Hpid. cbn [Js.truthy_str].
  apply String.eqb_neq in Hne. rewrite Hne.
  destruct (allImages formData); [congruence | reflexivity].
Qed.

(** The handler on a request that passes the guard. *)
Lemma POST_valid (env : Env) (userId : string) (formData : FormData)
    (db : Store) (pid : string) :
  allImages formData <> [] ->
  form_patientId formData = Some pid ->
  pid <> "" ->
  POST env (AuthUser userId) formData db =
  let images := allImages formData in
  let db1 := persist env userId images pid (form_name formData) (form_age formData) db in
  match forward env images (randomUUID env) pid
          (form_name formData) (form_age formData) userId with
  | Returns response => (db1, response)
  | Throws message =>
      (JobModel.findOneAndUpdate (randomUUID env) FAILED
         (Js.Obj [("error", Js.Str message)]) db1,
       Json 500 (UploadError "Failed to start ML processing" message))
  end.
Proof.
  intros Himg Hpid Hne. unfold POST.
  rewrite (invalid_false formData pid Himg Hpid Hne), Hpid. reflexivity.
Qed.

Lemma POST_patients (env : Env) (auth : Auth) (formData : FormData) (db : Store) :
  patients (fst (POST env auth formData db)) = patients db
  \/ exists userId pid,
       auth = AuthUser userId
       /\ allImages formData <> []
       /\ form_patientId formData = Some pid /\ pid <> ""
       /\ patients (fst (POST env auth formData db))
          = PatientModel.upsert
              (mkPatient pid (form_name formData) (form_age formData) userId)
              (patients db).
Proof.
  destruct auth as [e | userId]; [left; reflexivity|].
  destruct (invalid formData) eqn:Hinv.
  - left. unfold POST. rewrite Hinv. reflexivity.
  - right. unfold invalid in Hinv. apply orb_false_iff in Hinv.
    destruct Hinv as [Hlen Htr]. apply negb_false_iff in Htr.
    apply truthy_str_Some in Htr. destruct Htr as (pid & Hpid & Hne).
    assert (Himg : allImages formData <> []).
    { intros E. rewrite E in Hlen. discriminate. }
    exists userId, pid. repeat split; try assumption.
    rewrite (POST_valid env userId formData db pid Himg Hpid Hne). cbv zeta.
    destruct (forward _ _ _ _ _ _ _); reflexivity.
Qed.

(** The images the route works with, read off the two form keys: the
    [images] entries when there are any, else the single [image] entry when it
    is a file or a non-empty text. *)
Lemma allImages_submitted_images (formData : FormData) (submitted : list Entry) :
  (form_images formData <> [] /\ submitted = form_images formData)
  \/ (form_images formData = []
      /\ exists image, form_image formData = Some image
                       /\ image <> Text "" /\ submitted = [image]) ->
  allImages formData = submitted /\ submitted <> [].
Proof.
  unfold allImages. intros [[Hne Hs] | (Hnil & image & Himg & Htext & Hs)]; subst submitted.
  - destruct (form_images formData); [congruence|]. split; [reflexivity | discriminate].
  - rewrite Hnil, Himg. cbn [length Nat.ltb Nat.leb].
    assert (Ht : truthy image = true).
    { destruct image as [t | name content]; [| reflexivity].
      cbn [truthy]. apply negb_true_iff, String.eqb_neq. congruence. }
    rewrite Ht. split; [reflexivity | discriminate].
Qed.

Lemma serve_all_app (rs1 rs2 : list Request) (db : Store) :
  serve_all (rs1 ++ rs2) db = serve_all rs2 (serve_all rs1 db).
Proof. unfold serve_all. apply fold_left_app. Qed.

(** Serving uploads never makes a second document for a patient id. *)
Lemma serve_all_count_le_1 (rs : list Request) (db : Store) (q : string) :
  PatientModel.count q (patients db) <= 1 ->
  PatientModel.count q (patients (serve_all rs db)) <= 1.
Proof.
  revert db. induction rs as [|r rs IH]; intros db H; cbn [serve_all fold_left].
  - assumption.
  - apply IH. unfold serve.
    destruct (POST_patients (req_env r) (req_auth r) (req_form r) db)
      as [E | (u & pid & _ & _ & _ & _ & E)]; rewrite E.
    + assumption.
    + now apply count_upsert_le_1.
Qed.

End UploadFacts.

(** C2. An authenticated upload with no image (no [images] entry and no usable
    [image] entry) or without a patient id (absent or empty) is answered with
    400 and the validation message, and the store it returns is the store it
    was given: no Job and no Patient document is written.  The store is also
    untouched when the request is not authenticated. *)
Theorem C2_invalid_upload_leaves_store_unchanged :
  forall (env : UploadRoute.Env) (auth : Auth) (formData : UploadRoute.FormData)
         (db : Store),
    (UploadRoute.form_images formData = []
     /\ (UploadRoute.form_image formData = None
         \/ UploadRoute.form_image formData = Some (UploadRoute.Text "")))
    \/ UploadRoute.form_patientId formData = None
    \/ UploadRoute.form_patientId formData = Some "" ->
    fst (UploadRoute.POST env auth formData db) = db
    /\ forall userId,
         auth = AuthUser userId ->
         snd (UploadRoute.POST env auth formData db)
         = Json 400 (Message "At least one image and patient ID are required").
Proof.
  intros env auth formData db H.
  assert (Hinv : UploadRoute.invalid formData = true).
  { unfold UploadRoute.invalid, UploadRoute.allImages.
    destruct H as [[Himgs Himg] | [Hpid | Hpid]].
    - rewrite Himgs. destruct Himg as [Himg | Himg]; rewrite Himg; reflexivity.
    - rewrite Hpid. apply orb_true_r.
    - rewrite Hpid. apply orb_true_r. }
  destruct auth as [e | u].
  - split; [reflexivity | discriminate].
  - unfold UploadRoute.POST. rewrite Hinv. split; [reflexivity|].
    intros userId _. reflexivity.
Qed.

Lemma C2_invalid_upload_leaves_store_unchanged_witness :
  let env := UploadRoute.mkEnv None "job-1" 0 (fun _ _ => Throws "unused") in
  let formData :=
    UploadRoute.mkFormData [UploadRoute.FileValue "cell.png" []] None None
      (Some "Jane Doe") (Some "34") in
  let db := mkStore [] [mkPatient "P1" (Some "Jane Doe") (Some "34") "lab-A"] in
  UploadRoute.POST env (AuthUser "lab-A") formData db
  = (db, Json 400 (Message "At least one image and patient ID are required")).
Proof.
  cbv zeta.
  pose proof (C2_invalid_upload_leaves_store_unchanged
    (UploadRoute.mkEnv None "job-1" 0 (fun _ _ => Throws "unused"))
    (AuthUser "lab-A")
    (UploadRoute.mkFormData [UploadRoute.FileValue "cell.png" []] None None
       (Some "Jane Doe") (Some "34"))
    (mkStore [] [mkPatient "P1" (Some "Jane Doe") (Some "34") "lab-A"])
    (or_intror (or_introl eq_refl))) as [Hst Hresp].
  specialize (Hresp "lab-A" eq_refl).
  destruct (UploadRoute.POST _ _ _ _) as [db' resp].
  cbn [fst snd] in Hst, Hresp. now subst.
Defined.

(** C5. A valid upload: a non-empty patient id, and at least one image, the
    images submitted being the [images] entries of the form when there are
    any, and otherwise the single [image] entry (a file or a non-empty text).
    Such an upload makes two writes before it forwards: the Patient collection
    gets the upsert of (patientId, name, age, owner), after which the lookup
    by that id returns exactly this document, the number of documents under
    that id is one (given there was at most one) and the documents under other
    ids are as before; the Job collection gets exactly one new document, with
    the generated id, status PENDING, progress 0 and totalImages the number of
    submitted images.  The handler always leaves one more Job than before and
    the Patient collection as after the upsert, and when the inference service
    accepts the forward call (which carries the submitted images) the store is
    the one after these two writes and the 200 response carries the job id,
    PENDING and the number of submitted images. *)
Theorem C5_valid_upload_creates_job_and_patient :
  forall (env : UploadRoute.Env) (userId : string)
         (formData : UploadRoute.FormData) (db : Store) (pid : string)
         (submitted : list UploadRoute.Entry),
    (UploadRoute.form_images formData <> []
     /\ submitted = UploadRoute.form_images formData)
    \/ (UploadRoute.form_images formData = []
        /\ exists image, UploadRoute.form_image formData = Some image
                         /\ image <> UploadRoute.Text ""
                         /\ submitted = [image]) ->
    UploadRoute.form_patientId formData = Some pid ->
    pid <> "" ->
    let n := length submitted in
    let nm := UploadRoute.form_name formData in
    let ag := UploadRoute.form_age formData in
    let job :=
      mkJob (UploadRoute.randomUUID env) pid userId "PENDING" (Some 0%Z) n
            Js.Undefined (UploadRoute.now env) in
    let patient := mkPatient pid nm ag userId in
    let db1 := mkStore (jobs db ++ [job])
                       (PatientModel.upsert patient (patients db)) in
    let out := UploadRoute.POST env (AuthUser userId) formData db in
    0 < n
    /\ UploadRoute.persist env userId submitted pid nm ag db = db1
    /\ PatientModel.findOne pid db1 = Some patient
    /\ (PatientModel.count pid (patients db) <= 1 ->
        PatientModel.count pid (patients db1) = 1)
    /\ (forall q, q <> pid ->
          PatientModel.count q (patients db1) = PatientModel.count q (patients db)
          /\ PatientModel.findOne q db1 = PatientModel.findOne q db)
    /\ length (jobs (fst out)) = S (length (jobs db))
    /\ patients (fst out) = patients db1
    /\ ((forall j, In j (jobs db) -> jobId j <> UploadRoute.randomUUID env) ->
        exists st res,
          jobs (fst out)
          = (jobs db ++ [mkJob (UploadRoute.randomUUID env) pid userId st
                               (Some 0%Z) n res (UploadRoute.now env)])%list)
    /\ (forall r,
          UploadRoute.fetch env
            (UploadRoute.ML_BACKEND_URL env ++ "/api/analyze")
            (UploadRoute.mlFormData submitted
               (UploadRoute.randomUUID env) pid nm ag userId) = Returns r ->
          ok r = true ->
          out = (db1,
                 Json 200
                   (UploadAccepted (UploadRoute.randomUUID env) "PENDING" n
                      (Js.string_of_nat n
                         ++ " image(s) uploaded, ML processing started")))).
Proof.
  intros env userId formData db pid submitted Hsub Hpid Hne n nm ag job patient db1 out.
  destruct (allImages_submitted_images formData submitted Hsub) as [Hall Hnonempty].
  assert (Himg : UploadRoute.allImages formData <> []) by (rewrite Hall; assumption).
  assert (Hout : out = _) by
    exact (POST_valid env userId formData db pid Himg Hpid Hne).
  cbv zeta in Hout. rewrite Hall in Hout. fold nm ag in Hout.
  assert (Hpersist : UploadRoute.persist env userId submitted pid nm ag db = db1)
    by reflexivity.
  rewrite Hpersist in Hout.
  split; [unfold n; destruct submitted; [congruence | cbn [length]; lia]|].
  split; [exact Hpersist|].
  split.
  { unfold PatientModel.findOne, db1. cbn [patients].
    exact (find_upsert_same patient (patients db)). }
  split.
  { intros Hle. unfold db1. cbn [patients].
    rewrite count_upsert. cbn [patientId patient]. rewrite String.eqb_refl. lia. }
  split.
  { intros q Hq. split.
    - unfold db1. cbn [patients]. rewrite count_upsert. cbn [patientId patient].
      assert (E : (pid =? q) = false) by (apply String.eqb_neq; congruence).
      now rewrite E.
    - unfold PatientModel.findOne, db1. cbn [patients].
      apply find_upsert_other. cbn [patientId patient]. assumption. }
  split.
  { rewrite Hout.
    destruct (UploadRoute.forward _ _ _ _ _ _ _); cbn [fst].
    - unfold db1. cbn [jobs]. rewrite length_app. cbn [length]. lia.
    - unfold JobModel.findOneAndUpdate. cbn [jobs].
      rewrite update_first_length. unfold db1. cbn [jobs].
      rewrite length_app. cbn [length]. lia. }
  split.
  { rewrite Hout. destruct (UploadRoute.forward _ _ _ _ _ _ _); reflexivity. }
  split.
  { intros Hfresh. rewrite Hout.
    destruct (UploadRoute.forward _ _ _ _ _ _ _); cbn [fst].
    - eexists. eexists. unfold db1, job. cbn [jobs]. reflexivity.
    - eexists. eexists. unfold JobModel.findOneAndUpdate, db1. cbn [jobs].
      rewrite update_first_fresh; [reflexivity | assumption | reflexivity]. }
  intros r Hfetch Hok. rewrite Hout.
  unfold UploadRoute.forward. rewrite Hfetch.
  cbn [bind]. rewrite Hok. reflexivity.
Qed.

Lemma C5_valid_upload_creates_job_and_patient_witness :
  let accept := fun (_ : string) (_ : list (string * UploadRoute.Entry)) =>
                  Returns (mkFetchResponse true (Returns Js.Null) (Returns [])) in
  let env := UploadRoute.mkEnv None "job-1" 1700000000000 accept in
  let a := UploadRoute.FileValue "a.png" [] in
  let b := UploadRoute.FileValue "b.png" [] in
  let legacy := UploadRoute.FileValue "c.png" [] in
  let formData :=
    UploadRoute.mkFormData [a; b] (Some legacy) (Some "P1") (Some "Jane Doe")
      (Some "34") in
  UploadRoute.POST env (AuthUser "lab-A") formData (mkStore [] [])
  = (mkStore [mkJob "job-1" "P1" "lab-A" "PENDING" (Some 0%Z) 2 Js.Undefined
                    1700000000000]
             [mkPatient "P1" (Some "Jane Doe") (Some "34") "lab-A"],
     Json 200 (UploadAccepted "job-1" "PENDING" 2
                 "2 image(s) uploaded, ML processing started")).
Proof.
  cbv zeta.
  pose proof (C5_valid_upload_creates_job_and_patient
    (UploadRoute.mkEnv None "job-1" 1700000000000
       (fun _ _ => Returns (mkFetchResponse true (Returns Js.Null) (Returns []))))
    "lab-A"
    (UploadRoute.mkFormData
       [UploadRoute.FileValue "a.png" []; UploadRoute.FileValue "b.png" []]
       (Some (UploadRoute.FileValue "c.png" [])) (Some "P1") (Some "Jane Doe")
       (Some "34"))
    (mkStore [] []) "P1"
    [UploadRoute.FileValue "a.png" []; UploadRoute.FileValue "b.png" []]) as H.
  cbn [UploadRoute.form_images UploadRoute.form_image UploadRoute.form_patientId] in H.
  match type of H with
  | ?A -> _ => assert (Hsub : A) by (left; split; [discriminate | reflexivity])
  end.
  specialize (H Hsub eq_refl ltac:(discriminate)).
  cbv zeta in H.
  destruct H as (_ & _ & _ & _ & _ & _ & _ & _ & H).
  rewrite (H _ eq_refl eq_refl). vm_compute. reflexivity.
Defined.

Section UploadFailure.
Import UploadRoute.

(** When the inference service does not answer with a success, the [try]
    block throws. *)
Lemma forward_throws (env : Env) (images : list Entry) (jobId pid : string)
    (name age : option string) (userId : string) :
  (forall r,
      fetch env (ML_BACKEND_URL env ++ "/api/analyze")
        (mlFormData images jobId pid name age userId) = Returns r ->
      ok r = false) ->
  exists message,
    forward env images jobId pid name age userId = Throws message.
Proof.
  intros H. unfold forward.
  destruct (fetch env _ _) as [r | m]; cbn [bind].
  - rewrite (H r eq_refl). cbn [negb].
    destruct (json r) as [errorData | m]; cbn [bind]; [| now exists m].
    destruct (read_detail errorData) as [detail | m]; cbn [bind]; eexists; reflexivity.
  - now exists m.
Qed.

End UploadFailure.

(** C1, as the claim states it, fails: on a network error ("fetch failed") the
    job is stored as FAILED with [result.error] the error's message, and the
    500 response carries that text under [error], while its [message] is the
    fixed text "Failed to start ML processing". *)
Lemma C1_counterexample_message_is_fixed :
  let env := UploadRoute.mkEnv None "job-1" 0 (fun _ _ => Throws "fetch failed") in
  let formData :=
    UploadRoute.mkFormData [UploadRoute.FileValue "cell.png" []] None
      (Some "P1") (Some "Jane Doe") (Some "34") in
  let out := UploadRoute.POST env (AuthUser "lab-A") formData (mkStore [] []) in
  map (fun j => (status j, Js.get (result j) "error")) (jobs (fst out))
  = [("FAILED", Js.Str "fetch failed")]
  /\ response_status (snd out) = 500
  /\ response_message (snd out) = Js.Str "Failed to start ML processing"
  /\ response_message (snd out) <> Js.Str "fetch failed".
Proof.
  cbv zeta. repeat split; try (vm_compute; reflexivity).
  vm_compute. discriminate.
Qed.

(** C1, amended.  For a valid upload whose generated job id is not yet in the
    store, if the forward call fails (fetch throws, or the response is not ok)
    then the job created for the request ends as FAILED with the error's
    message in [result.error], and the response is a 500 whose [error] field
    is that same message; its [message] field is the fixed text
    "Failed to start ML processing". *)
Theorem C1_forward_failure_marks_job_failed :
  forall (env : UploadRoute.Env) (userId : string)
         (formData : UploadRoute.FormData) (db : Store) (pid : string),
    UploadRoute.allImages formData <> [] ->
    UploadRoute.form_patientId formData = Some pid ->
    pid <> "" ->
    (forall j, In j (jobs db) -> jobId j <> UploadRoute.randomUUID env) ->
    (forall r,
        UploadRoute.fetch env
          (UploadRoute.ML_BACKEND_URL env ++ "/api/analyze")
          (UploadRoute.mlFormData (UploadRoute.allImages formData)
             (UploadRoute.randomUUID env) pid (UploadRoute.form_name formData)
             (UploadRoute.form_age formData) userId) = Returns r ->
        ok r = false) ->
    exists message : string,
      UploadRoute.POST env (AuthUser userId) formData db
      = (mkStore
           (jobs db ++
              [mkJob (UploadRoute.randomUUID env) pid userId "FAILED" (Some 0%Z)
                     (length (UploadRoute.allImages formData))
                     (Js.Obj [("error", Js.Str message)])
                     (UploadRoute.now env)])
           (PatientModel.upsert
              (mkPatient pid (UploadRoute.form_name formData)
                         (UploadRoute.form_age formData) userId)
              (patients db)),
         Json 500 (UploadError "Failed to start ML processing" message)).
Proof.
  intros env userId formData db pid Himg Hpid Hne Hfresh Hfail.
  destruct (forward_throws env _ _ _ _ _ _ Hfail) as [message Hthrow].
  exists message.
  rewrite (POST_valid env userId formData db pid Himg Hpid Hne). cbv zeta.
  rewrite Hthrow.
  unfold JobModel.findOneAndUpdate, UploadRoute.persist, JobModel.create.
  cbn [jobs patients PatientModel.findOneAndUpdate].
  rewrite update_first_fresh; [reflexivity | assumption | reflexivity].
Qed.

Lemma C1_forward_failure_marks_job_failed_witness :
  let refuse := fun (_ : string) (_ : list (string * UploadRoute.Entry)) =>
    Returns (mkFetchResponse false
               (Returns (Js.Obj [("detail", Js.Str "Model not loaded")]))
               (Returns [])) in
  let env := UploadRoute.mkEnv None "job-2" 5 refuse in
  let formData :=
    UploadRoute.mkFormData [UploadRoute.FileValue "cell.png" []] None
      (Some "P1") (Some "Jane Doe") (Some "34") in
  let old := mkJob "job-1" "P1" "lab-A" "PENDING" (Some 0%Z) 1 Js.Undefined 1 in
  exists message : string,
    UploadRoute.POST env (AuthUser "lab-A") formData (mkStore [old] [])
    = (mkStore
         [old; mkJob "job-2" "P1" "lab-A" "FAILED" (Some 0%Z) 1
                     (Js.Obj [("error", Js.Str message)]) 5]
         [mkPatient "P1" (Some "Jane Doe") (Some "34") "lab-A"],
       Json 500 (UploadError "Failed to start ML processing" message)).
Proof.
  cbv zeta.
  apply (C1_forward_failure_marks_job_failed
    (UploadRoute.mkEnv None "job-2" 5
       (fun _ _ =>
          Returns (mkFetchResponse false
                     (Returns (Js.Obj [("detail", Js.Str "Model not loaded")]))
                     (Returns []))))
    "lab-A"
    (UploadRoute.mkFormData [UploadRoute.FileValue "cell.png" []] None
       (Some "P1") (Some "Jane Doe") (Some "34"))
    (mkStore [mkJob "job-1" "P1" "lab-A" "PENDING" (Some 0%Z) 1 Js.Undefined 1] [])
    "P1").
  - vm_compute. discriminate.
  - reflexivity.
  - discriminate.
  - intros j [Hj | []]. subst j. vm_compute. discriminate.
  - intros r Hr. vm_compute in Hr. inversion Hr. reflexivity.
Defined.

(** ** Report route *)
Section ReportFacts.
Import ReportRoute.

(** The handler on a job the caller owns and that is COMPLETED. *)
Lemma GET_completed (env : Env) (userId id : string) (db : Store) (job : Job) :
  JobModel.findOne id userId db = Some job ->
  status job = COMPLETED ->
  GET env (AuthUser userId) id db =
  match download env id with
  | Returns response => response
  | Throws _ => Json 500 (Message "Failed to download report")
  end.
Proof.
  intros Hfind Hst. unfold GET. rewrite Hfind, Hst.
  rewrite String.eqb_refl. reflexivity.
Qed.

Lemma header_value_ok_app (a b : string) :
  header_value_ok (a ++ b) = header_value_ok a && header_value_ok b.
Proof.
  induction a as [|c a IH]; cbn [append header_value_ok]; [reflexivity|].
  rewrite IH. apply andb_assoc.
Qed.

(** The check, character by character. *)
Lemma header_value_ok_chars (value : string) :
  header_value_ok value = true <->
  (forall c, In c (list_ascii_of_string value) ->
             c <> "000"%char /\ c <> "010"%char /\ c <> "013"%char).
Proof.
  induction value as [|c value IH]; cbn [header_value_ok list_ascii_of_string].
  - split; [intros _ c [] | reflexivity].
  - rewrite andb_true_iff, negb_true_iff, !orb_false_iff, IH. split.
    + intros [[[H0 H10] H13] Hrest] x [Hx | Hx].
      * subst x. apply Ascii.eqb_neq in H0, H10, H13. auto.
      * auto.
    + intros H. split.
      * destruct (H c (or_introl eq_refl)) as (H0 & H10 & H13).
        apply Ascii.eqb_neq in H0, H10, H13. auto.
      * intros x Hx. apply H. now right.
Qed.

(** The response is built exactly when the job id is legal in a header. *)
Lemma new_NextResponse_pdf (bytes : list Byte.byte) (id : string) :
  new_NextResponse bytes (pdf_headers id)
  = if header_value_ok id
    then Returns (Binary bytes (pdf_headers id))
    else Throws "Invalid header value".
Proof.
  unfold new_NextResponse, pdf_headers. cbn [forallb snd].
  rewrite !header_value_ok_app.
  change (header_value_ok "application/pdf") with true.
  change (header_value_ok "attachment; filename=cytomind_report_") with true.
  change (header_value_ok ".pdf") with true.
  cbn [andb]. rewrite !andb_true_r. reflexivity.
Qed.

End ReportFacts.

(** C6, as the claim states it, fails: the inference service answers the PDF
    request of a COMPLETED job with a non-success response whose body is
    [{ detail: "Report not found" }]; the caller gets a 500 whose message is
    the fixed text "Failed to download report", not the upstream detail. *)
Lemma C6_counterexample_report_message_is_generic :
  let upstream := fun (_ : string) =>
    Returns (mkFetchResponse false
               (Returns (Js.Obj [("detail", Js.Str "Report not found")]))
               (Returns [])) in
  let env := ReportRoute.mkEnv None upstream in
  let job := mkJob "job-1" "P1" "lab-A" "COMPLETED" (Some 100%Z) 1
                   (Js.Obj [("classification", Js.Str "MALIGNANT")]) 1 in
  let response := ReportRoute.GET env (AuthUser "lab-A") "job-1" (mkStore [job] []) in
  response = Json 500 (Message "Failed to download report")
  /\ response_message response <> Js.Str "Report not found".
Proof.
  cbv zeta. split.
  - vm_compute. reflexivity.
  - vm_compute. discriminate.
Qed.

(** C6, amended.  Both routes answer 500 when the inference service is
    unreachable or answers with a non-success, and in both the [message] is a
    fixed text.  The report route answers "Failed to download report" whatever
    the upstream said.  The upload route answers "Failed to start ML
    processing" and forwards the upstream text in a separate [error] field:
    the thrown error's message on a network error, the body's [detail] when
    that is a non-empty string, and "ML backend error" when the body is an
    object without [detail]. *)
Theorem C6_upstream_failure_messages :
  (forall (env : ReportRoute.Env) (userId id : string) (db : Store) (job : Job),
      JobModel.findOne id userId db = Some job ->
      status job = "COMPLETED" ->
      (forall r, ReportRoute.fetch env
                   (ReportRoute.ML_BACKEND_URL env ++ "/api/reports/" ++ id ++ "/pdf")
                 = Returns r ->
                 ok r = false \/ exists m, arrayBuffer r = Throws m) ->
      ReportRoute.GET env (AuthUser userId) id db
      = Json 500 (Message "Failed to download report"))
  /\
  (forall (env : UploadRoute.Env) (userId : string)
          (formData : UploadRoute.FormData) (db : Store) (pid : string),
      UploadRoute.allImages formData <> [] ->
      UploadRoute.form_patientId formData = Some pid ->
      pid <> "" ->
      let reply :=
        UploadRoute.fetch env
          (UploadRoute.ML_BACKEND_URL env ++ "/api/analyze")
          (UploadRoute.mlFormData (UploadRoute.allImages formData)
             (UploadRoute.randomUUID env) pid (UploadRoute.form_name formData)
             (UploadRoute.form_age formData) userId) in
      let response := snd (UploadRoute.POST env (AuthUser userId) formData db) in
      (forall m, reply = Throws m ->
         response = Json 500 (UploadError "Failed to start ML processing" m))
      /\ (forall r fields d,
            reply = Returns r -> ok r = false ->
            json r = Returns (Js.Obj fields) ->
            Js.lookup "detail" fields = Js.Str d -> d <> "" ->
            response = Json 500 (UploadError "Failed to start ML processing" d))
      /\ (forall r fields,
            reply = Returns r -> ok r = false ->
            json r = Returns (Js.Obj fields) ->
            Js.lookup "detail" fields = Js.Undefined ->
            response
            = Json 500 (UploadError "Failed to start ML processing"
                          "ML backend error"))).
Proof.
  split.
  - intros env userId id db job Hfind Hst Hfail.
    rewrite (GET_completed env userId id db job Hfind Hst).
    unfold ReportRoute.download, ReportRoute.pdf_url.
    destruct (ReportRoute.fetch env _) as [r | m] eqn:Hfetch; cbn [bind];
      [| reflexivity].
    destruct (Hfail r eq_refl) as [Hok | [m Hbuf]].
    + rewrite Hok. reflexivity.
    + destruct (ok r); cbn [negb]; [| reflexivity].
      rewrite Hbuf. reflexivity.
  - intros env userId formData db pid Himg Hpid Hne reply response.
    assert (Hresp : response = snd _) by
      exact (f_equal snd (POST_valid env userId formData db pid Himg Hpid Hne)).
    cbv zeta in Hresp. unfold UploadRoute.forward in Hresp.
    fold reply in Hresp.
    repeat split.
    + intros m Hm. rewrite Hresp, Hm. reflexivity.
    + intros r fields d Hr Hok Hjson Hd Hdne.
      rewrite Hresp, Hr. cbn [bind]. rewrite Hok, Hjson. cbn [negb bind].
      cbn [UploadRoute.read_detail Js.get bind]. rewrite Hd.
      unfold Js.or. cbn [Js.truthy]. apply String.eqb_neq in Hdne.
      rewrite Hdne. reflexivity.
    + intros r fields Hr Hok Hjson Hd.
      rewrite Hresp, Hr. cbn [bind]. rewrite Hok, Hjson. cbn [negb bind].
      cbn [UploadRoute.read_detail Js.get bind]. rewrite Hd. reflexivity.
Qed.

Lemma C6_upstream_failure_messages_witness :
  let unreachable := fun (_ : string) =>
    @Throws FetchResponse "connect ECONNREFUSED 127.0.0.1:8000" in
  let env := ReportRoute.mkEnv None unreachable in
  let job := mkJob "job-1" "P1" "lab-A" "COMPLETED" (Some 100%Z) 1
                   (Js.Obj [("classification", Js.Str "MALIGNANT")]) 1 in
  ReportRoute.GET env (AuthUser "lab-A") "job-1" (mkStore [job] [])
  = Json 500 (Message "Failed to download report").
Proof.
  cbv zeta.
  apply (proj1 C6_upstream_failure_messages
    (ReportRoute.mkEnv None
       (fun _ => @Throws FetchResponse "connect ECONNREFUSED 127.0.0.1:8000"))
    "lab-A" "job-1"
    (mkStore [mkJob "job-1" "P1" "lab-A" "COMPLETED" (Some 100%Z) 1
                    (Js.Obj [("classification", Js.Str "MALIGNANT")]) 1] [])
    (mkJob "job-1" "P1" "lab-A" "COMPLETED" (Some 100%Z) 1
           (Js.Obj [("classification", Js.Str "MALIGNANT")]) 1)).
  - vm_compute. reflexivity.
  - reflexivity.
  - intros r Hr. vm_compute in Hr. discriminate.
Defined.

(** C4. For a job the caller owns: when its status is not COMPLETED the answer
    is 400 "Report not ready yet", whatever the inference service would have
    said; when its status is COMPLETED, its id is legal in a header value (no
    NUL, LF or CR, as in every generated id) and the inference service's PDF
    endpoint answers with success and a body, the answer is exactly those
    bytes, with Content-Type application/pdf and Content-Disposition
    attachment; filename=cytomind_report_{jobId}.pdf.  (With an id that is not
    legal in a header value the response cannot be built, and the answer is
    the 500 of the catch block.) *)
Theorem C4_report_not_ready_or_pdf_bytes :
  forall (env : ReportRoute.Env) (userId id : string) (db : Store) (job : Job),
    JobModel.findOne id userId db = Some job ->
    (status job <> "COMPLETED" ->
     ReportRoute.GET env (AuthUser userId) id db
     = Json 400 (Message "Report not ready yet"))
    /\ (status job = "COMPLETED" ->
        forall r bytes,
          ReportRoute.fetch env
            (ReportRoute.ML_BACKEND_URL env ++ "/api/reports/" ++ id ++ "/pdf")
          = Returns r ->
          ok r = true ->
          arrayBuffer r = Returns bytes ->
          ((forall c, In c (list_ascii_of_string id) ->
                      c <> "000"%char /\ c <> "010"%char /\ c <> "013"%char) ->
           ReportRoute.GET env (AuthUser userId) id db
           = Binary bytes
               [ ("Content-Type", "application/pdf");
                 ("Content-Disposition",
                  "attachment; filename=cytomind_report_" ++ id ++ ".pdf") ])
          /\ ((exists c, In c (list_ascii_of_string id)
                         /\ (c = "000"%char \/ c = "010"%char \/ c = "013"%char)) ->
              ReportRoute.GET env (AuthUser userId) id db
              = Json 500 (Message "Failed to download report"))).
Proof.
  intros env userId id db job Hfind. split.
  - intros Hst. unfold ReportRoute.GET. rewrite Hfind.
    apply String.eqb_neq in Hst. unfold COMPLETED. rewrite Hst. reflexivity.
  - intros Hst r bytes Hfetch Hok Hbuf.
    rewrite (GET_completed env userId id db job Hfind Hst).
    unfold ReportRoute.download, ReportRoute.pdf_url.
    rewrite Hfetch. cbn [bind]. rewrite Hok, Hbuf. cbn [negb bind].
    rewrite new_NextResponse_pdf. split.
    + intros Hlegal. apply header_value_ok_chars in Hlegal.
      rewrite Hlegal. reflexivity.
    + intros (c & Hin & Hc).
      destruct (ReportRoute.header_value_ok id) eqn:E; [| reflexivity].
      exfalso. rewrite header_value_ok_chars in E.
      destruct (E c Hin) as (H0 & H10 & H13).
      destruct Hc as [Hc | [Hc | Hc]]; contradiction.
Qed.

Lemma C4_report_not_ready_or_pdf_bytes_witness :
  let pdf := [Byte.x25; Byte.x50; Byte.x44; Byte.x46] in
  let upstream := fun (url : string) =>
    if url =? "http://127.0.0.1:8000/api/reports/job-1/pdf"
    then Returns (mkFetchResponse true (Throws "not JSON") (Returns pdf))
    else Throws "unexpected URL" in
  let env := ReportRoute.mkEnv None upstream in
  let job := mkJob "job-1" "P1" "lab-A" "COMPLETED" (Some 100%Z) 1
                   (Js.Obj [("classification", Js.Str "MALIGNANT")]) 1 in
  ReportRoute.GET env (AuthUser "lab-A") "job-1" (mkStore [job] [])
  = Binary pdf
      [ ("Content-Type", "application/pdf");
        ("Content-Disposition", "attachment; filename=cytomind_report_job-1.pdf") ].
Proof.
  cbv zeta.
  refine (proj1 (proj2 (C4_report_not_ready_or_pdf_bytes
    (ReportRoute.mkEnv None
       (fun url =>
          if url =? "http://127.0.0.1:8000/api/reports/job-1/pdf"
          then Returns (mkFetchResponse true (Throws "not JSON")
                          (Returns [Byte.x25; Byte.x50; Byte.x44; Byte.x46]))
          else Throws "unexpected URL"))
    "lab-A" "job-1"
    (mkStore [mkJob "job-1" "P1" "lab-A" "COMPLETED" (Some 100%Z) 1
                    (Js.Obj [("classification", Js.Str "MALIGNANT")]) 1] [])
    (mkJob "job-1" "P1" "lab-A" "COMPLETED" (Some 100%Z) 1
           (Js.Obj [("classification", Js.Str "MALIGNANT")]) 1)
    _) eq_refl
    (mkFetchResponse true (Throws "not JSON")
       (Returns [Byte.x25; Byte.x50; Byte.x44; Byte.x46]))
    [Byte.x25; Byte.x50; Byte.x44; Byte.x46] _ eq_refl eq_refl) _).
  - vm_compute. reflexivity.
  - vm_compute. reflexivity.
  - intros c Hin. cbn in Hin.
    repeat (destruct Hin as [Hin | Hin]; [subst c; repeat split; discriminate|]).
    destruct Hin.
Defined.

(** ** Patient upserts over a run of uploads *)
Section UpsertRuns.
Import UploadRoute.

Lemma find_hd_filter {A : Type} (f : A -> bool) (l : list A) :
  find f l = hd_error (filter f l).
Proof.
  induction l as [|x l IH]; cbn [find filter]; [reflexivity|].
  destruct (f x); [reflexivity | exact IH].
Qed.

(** With one document under a key, every document under it is the one the
    lookup returns. *)
Lemma count_1_unique (pid : string) (l : list Patient) (p x : Patient) :
  PatientModel.count pid l = 1 ->
  find (fun y => patientId y =? pid) l = Some p ->
  In x l -> patientId x = pid -> x = p.
Proof.
  unfold PatientModel.count. rewrite find_hd_filter. intros Hc Hf Hin Hx.
  assert (Hxf : In x (filter (fun y => patientId y =? pid) l)).
  { apply filter_In. split; [assumption | now apply String.eqb_eq]. }
  destruct (filter (fun y => patientId y =? pid) l) as [|a [|b rest]];
    try discriminate.
  cbn [hd_error] in Hf. inversion Hf; subst a.
  destruct Hxf as [E | []]. now symmetry.
Qed.

Lemma serve_valid_patients (env : Env) (userId : string) (formData : FormData)
    (db : Store) (pid : string) :
  allImages formData <> [] ->
  form_patientId formData = Some pid ->
  pid <> "" ->
  patients (serve db (mkRequest env (AuthUser userId) formData))
  = PatientModel.upsert
      (mkPatient pid (form_name formData) (form_age formData) userId)
      (patients db).
Proof.
  intros Himg Hpid Hne. unfold serve. cbn [req_env req_auth req_form].
  rewrite (POST_valid env userId formData db pid Himg Hpid Hne). cbv zeta.
  destruct (forward _ _ _ _ _ _ _); reflexivity.
Qed.

End UpsertRuns.

(** C8. Take a store with at most one Patient document under [pid] (the empty
    store, for one) and serve any sequence of upload requests, the last of
    which is a valid upload naming [pid].  Afterwards the Patient collection
    holds exactly one document under [pid]; the lookup by [pid] returns the
    document with the name, age and owner of that last upload; and every
    document stored under [pid] is that one, so nothing of earlier uploads is
    left. *)
Theorem C8_patient_upsert_last_write_wins :
  forall (rs : list UploadRoute.Request) (env : UploadRoute.Env)
         (userId : string) (formData : UploadRoute.FormData)
         (pid : string) (db : Store),
    PatientModel.count pid (patients db) <= 1 ->
    UploadRoute.allImages formData <> [] ->
    UploadRoute.form_patientId formData = Some pid ->
    pid <> "" ->
    let last := UploadRoute.mkRequest env (AuthUser userId) formData in
    let stored :=
      mkPatient pid (UploadRoute.form_name formData)
                (UploadRoute.form_age formData) userId in
    let db' := UploadRoute.serve_all (rs ++ [last]) db in
    PatientModel.count pid (patients db') = 1
    /\ PatientModel.findOne pid db' = Some stored
    /\ (forall p, In p (patients db') -> patientId p = pid -> p = stored).
Proof.
  intros rs env userId formData pid db Hle Himg Hpid Hne last stored db'.
  assert (Hpat : patients db'
                 = PatientModel.upsert stored
                     (patients (UploadRoute.serve_all rs db))).
  { unfold db'. rewrite serve_all_app.
    cbn [UploadRoute.serve_all fold_left].
    exact (serve_valid_patients env userId formData _ pid Himg Hpid Hne). }
  pose proof (serve_all_count_le_1 rs db pid Hle) as Hmid.
  assert (Hcount : PatientModel.count pid (patients db') = 1).
  { rewrite Hpat, count_upsert. cbn [patientId stored].
    rewrite String.eqb_refl. lia. }
  assert (Hfind : PatientModel.findOne pid db' = Some stored).
  { unfold PatientModel.findOne. rewrite Hpat.
    exact (find_upsert_same stored _). }
  repeat split; try assumption.
  intros p Hin Hp.
  exact (count_1_unique pid (patients db') stored p Hcount Hfind Hin Hp).
Qed.

Lemma C8_patient_upsert_last_write_wins_witness :
  let accept := fun (_ : string) (_ : list (string * UploadRoute.Entry)) =>
                  Returns (mkFetchResponse true (Returns Js.Null) (Returns [])) in
  let png := UploadRoute.FileValue "cell.png" [] in
  let first :=
    UploadRoute.mkRequest (UploadRoute.mkEnv None "job-1" 1 accept)
      (AuthUser "lab-A")
      (UploadRoute.mkFormData [png] None (Some "P1") (Some "Jane Doe") (Some "34")) in
  let second :=
    UploadRoute.mkRequest (UploadRoute.mkEnv None "job-2" 2 accept)
      (AuthUser "lab-B")
      (UploadRoute.mkFormData [png] None (Some "P1") (Some "Jane Roe") (Some "35")) in
  patients (UploadRoute.serve_all [first; second] (mkStore [] []))
  = [mkPatient "P1" (Some "Jane Roe") (Some "35") "lab-B"]
  /\ PatientModel.count "P1"
       (patients (UploadRoute.serve_all [first; second] (mkStore [] []))) = 1.
Proof.
  cbv zeta. split; [vm_compute; reflexivity|].
  exact (proj1 (C8_patient_upsert_last_write_wins
    [UploadRoute.mkRequest
       (UploadRoute.mkEnv None "job-1" 1
          (fun _ _ => Returns (mkFetchResponse true (Returns Js.Null) (Returns []))))
       (AuthUser "lab-A")
       (UploadRoute.mkFormData [UploadRoute.FileValue "cell.png" []] None
          (Some "P1") (Some "Jane Doe") (Some "34"))]
    (UploadRoute.mkEnv None "job-2" 2
       (fun _ _ => Returns (mkFetchResponse true (Returns Js.Null) (Returns []))))
    "lab-B"
    (UploadRoute.mkFormData [UploadRoute.FileValue "cell.png" []] None
       (Some "P1") (Some "Jane Roe") (Some "35"))
    "P1" (mkStore [] [])
    ltac:(vm_compute; lia) ltac:(vm_compute; discriminate) eq_refl
    ltac:(discriminate))).
Defined.

(** ** Status route *)

(** C3. When the store holds no job with the asked id that the caller owns,
    the status route answers 404 with the one fixed message.  Hence for any
    two stores without such a job (one where the id is unknown, one where the
    job exists under another owner, whatever its status) the caller gets the
    same response.  The report route does the same with its own fixed
    message. *)
Theorem C3_not_owned_is_not_found :
  forall (userId id : string) (db1 db2 : Store) (env : ReportRoute.Env),
    (forall j, In j (jobs db1) -> jobId j = id -> job_labId j <> userId) ->
    (forall j, In j (jobs db2) -> jobId j = id -> job_labId j <> userId) ->
    StatusRoute.GET (AuthUser userId) id db1
    = Json 404 (Message "Job not found or access denied")
    /\ StatusRoute.GET (AuthUser userId) id db1
       = StatusRoute.GET (AuthUser userId) id db2
    /\ ReportRoute.GET env (AuthUser userId) id db1
       = Json 404 (Message "Report not found or access denied")
    /\ ReportRoute.GET env (AuthUser userId) id db1
       = ReportRoute.GET env (AuthUser userId) id db2.
Proof.
  intros userId id db1 db2 env H1 H2.
  apply findOne_None in H1. apply findOne_None in H2.
  unfold StatusRoute.GET, ReportRoute.GET. rewrite H1, H2.
  repeat split.
Qed.

Lemma C3_not_owned_is_not_found_witness :
  let other := mkJob "job-1" "P1" "lab-B" "COMPLETED" (Some 100%Z) 1
                     (Js.Obj [("classification", Js.Str "MALIGNANT")]) 1 in
  StatusRoute.GET (AuthUser "lab-A") "job-1" (mkStore [] [])
  = StatusRoute.GET (AuthUser "lab-A") "job-1" (mkStore [other] []).
Proof.
  cbv zeta.
  refine (proj1 (proj2 (C3_not_owned_is_not_found "lab-A" "job-1"
    (mkStore [] [])
    (mkStore [mkJob "job-1" "P1" "lab-B" "COMPLETED" (Some 100%Z) 1
                    (Js.Obj [("classification", Js.Str "MALIGNANT")]) 1] [])
    (ReportRoute.mkEnv None (fun _ => Throws "unused")) _ _))).
  - intros j [].
  - intros j [Hj | []] _. subst j. vm_compute. discriminate.
Defined.

(** C10. For a job the caller owns whose status is COMPLETED and whose result
    is present, when no Patient document exists under the job's patient id the
    status route still answers 200 with the report, in which patientName and
    age are both the string N/A. *)
Theorem C10_report_without_patient_uses_NA :
  forall (userId id : string) (db : Store) (job : Job),
    JobModel.findOne id userId db = Some job ->
    status job = "COMPLETED" ->
    Js.truthy (result job) = true ->
    PatientModel.findOne (job_patientId job) db = None ->
    exists report : Report,
      StatusRoute.GET (AuthUser userId) id db
      = Json 200 (JobStatus (jobId job) "COMPLETED"
                    (StatusRoute.progress_or_0 (progress job))
                    (Some report) None)
      /\ patientName report = "N/A"
      /\ report_age report = "N/A"
      /\ report_jobId report = jobId job
      /\ classification report = Js.get (result job) "classification".
Proof.
  intros userId id db job Hfind Hst Hres Hpat.
  exists (StatusRoute.build_report job None).
  unfold StatusRoute.GET. rewrite Hfind, Hpat, Hres, Hst.
  repeat split.
Qed.

Lemma C10_report_without_patient_uses_NA_witness :
  let job := mkJob "job-1" "P9" "lab-A" "COMPLETED" (Some 100%Z) 1
                   (Js.Obj [("classification", Js.Str "MALIGNANT")]) 1 in
  exists report : Report,
    StatusRoute.GET (AuthUser "lab-A") "job-1" (mkStore [job] [])
    = Json 200 (JobStatus "job-1" "COMPLETED" 100 (Some report) None)
    /\ patientName report = "N/A"
    /\ report_age report = "N/A"
    /\ report_jobId report = "job-1"
    /\ classification report = Js.Str "MALIGNANT".
Proof.
  cbv zeta.
  exact (C10_report_without_patient_uses_NA "lab-A" "job-1"
    (mkStore [mkJob "job-1" "P9" "lab-A" "COMPLETED" (Some 100%Z) 1
                    (Js.Obj [("classification", Js.Str "MALIGNANT")]) 1] [])
    (mkJob "job-1" "P9" "lab-A" "COMPLETED" (Some 100%Z) 1
           (Js.Obj [("classification", Js.Str "MALIGNANT")]) 1)
    eq_refl eq_refl eq_refl eq_refl).
Defined.

(** * Further properties *)

(** ** Upload validator: batches, removal *)
Section ImageUploadMore.
Import ImageUpload.

Lemma filter_all_allowed (sel : list File) :
  (forall f, In f sel -> allowed f) ->
  filter (fun f => negb (rejected f)) sel = sel.
Proof.
  induction sel as [|f sel IH]; intros H; cbn [filter]; [reflexivity|].
  assert (Hf : rejected f = false).
  { apply rejected_false_allowed. apply H. now left. }
  rewrite Hf. cbn [negb]. f_equal. apply IH. intros g Hg. apply H. now right.
Qed.

(** The handler on a selection that is not empty. *)
Lemma handleFileChange_nonempty (sel : list File) (st : State) :
  sel <> [] ->
  handleFileChange sel st =
  let accepted := filter (fun f => negb (rejected f)) sel in
  if (0 <? length accepted)%nat
  then mkState (files st ++ accepted) ""
  else mkState (files st)
         match last_rejected sel with
         | Some f => rejection_reason f
         | None => error st
         end.
Proof.
  intros Hne. unfold handleFileChange. destruct sel as [|g sel]; [congruence|].
  pose proof (loop_validFiles (g :: sel) [] (error st)) as Hv.
  pose proof (loop_error (g :: sel) [] (error st)) as He.
  destruct (loop (g :: sel) [] (error st)) as [validFiles err].
  cbn [fst snd app] in Hv, He. subst validFiles err. reflexivity.
Qed.

Lemma remove_at_firstn_skipn {A : Type} (i : nat) (l : list A) :
  remove_at i l = (firstn i l ++ skipn (S i) l)%list.
Proof.
  revert i. induction l as [|x l IH]; intros i.
  - destruct i; reflexivity.
  - destruct i; cbn [remove_at firstn skipn app]; [reflexivity|].
    now rewrite IH.
Qed.

End ImageUploadMore.

(** X1. Staging composes: selecting a batch and then a second batch stages
    the same files, in the same order, as selecting the two batches at once. *)
Theorem handleFileChange_batches_compose :
  forall (batch1 batch2 : list ImageUpload.File) (st : ImageUpload.State),
    ImageUpload.files
      (ImageUpload.handleFileChange batch2 (ImageUpload.handleFileChange batch1 st))
    = ImageUpload.files (ImageUpload.handleFileChange (batch1 ++ batch2) st).
Proof.
  intros batch1 batch2 st.
  rewrite !handleFileChange_files, filter_app, app_assoc. reflexivity.
Qed.

(** X2. A non-empty selection in which every file has an allowed type and a
    size of at most 50 MiB is appended whole, in selection order, after the
    files already staged (a file selected twice is staged twice), and whatever
    error was shown before is cleared. *)
Theorem handleFileChange_all_allowed :
  forall (sel : list ImageUpload.File) (st : ImageUpload.State),
    sel <> [] ->
    (forall f, In f sel ->
       In (ImageUpload.file_type f)
          ["image/jpeg"; "image/jpg"; "image/png"; "image/tiff"]
       /\ (ImageUpload.file_size f <= 52428800)%N) ->
    ImageUpload.handleFileChange sel st
    = ImageUpload.mkState (ImageUpload.files st ++ sel) "".
Proof.
  intros sel st Hne Hall.
  rewrite (handleFileChange_nonempty sel st Hne). cbv zeta.
  rewrite (filter_all_allowed sel Hall).
  destruct sel; [congruence | reflexivity].
Qed.

Lemma handleFileChange_all_allowed_witness :
  let png := ImageUpload.mkFile "cell.png" "image/png" 2048 in
  let old := ImageUpload.mkFile "old.tiff" "image/tiff" 52428800 in
  ImageUpload.handleFileChange [png; png]
    (ImageUpload.mkState [old] "x.gif: Invalid file type. Only JPG, PNG, or TIFF allowed.")
  = ImageUpload.mkState [old; png; png] "".
Proof.
  cbv zeta.
  apply (handleFileChange_all_allowed
    [ImageUpload.mkFile "cell.png" "image/png" 2048;
     ImageUpload.mkFile "cell.png" "image/png" 2048]
    (ImageUpload.mkState [ImageUpload.mkFile "old.tiff" "image/tiff" 52428800]
       "x.gif: Invalid file type. Only JPG, PNG, or TIFF allowed.")).
  - discriminate.
  - intros f [Hf | [Hf | []]]; subst f; (split; [vm_compute; tauto | vm_compute; discriminate]).
Defined.

(** X3. A selection in which no file passes the checks stages nothing: the
    staged files are as before, and the error shown is the reason for the last
    file of the selection, whatever error was shown before. *)
Theorem handleFileChange_all_rejected :
  forall (sel : list ImageUpload.File) (last : ImageUpload.File)
         (st : ImageUpload.State),
    (forall f, In f (sel ++ [last]) ->
       ~ (In (ImageUpload.file_type f)
             ["image/jpeg"; "image/jpg"; "image/png"; "image/tiff"]
          /\ (ImageUpload.file_size f <= 52428800)%N)) ->
    ImageUpload.handleFileChange (sel ++ [last]) st
    = ImageUpload.mkState (ImageUpload.files st) (ImageUpload.rejection_reason last).
Proof.
  intros sel last st Hall.
  assert (Hrej : forall f, In f (sel ++ [last]) -> ImageUpload.rejected f = true).
  { intros f Hf. apply rejected_true_not_allowed. exact (Hall f Hf). }
  assert (Hne : (sel ++ [last])%list <> []) by (destruct sel; discriminate).
  rewrite (handleFileChange_nonempty _ st Hne). cbv zeta.
  assert (Hfilter : filter (fun f => negb (ImageUpload.rejected f)) (sel ++ [last]) = []).
  { clear Hne Hall. induction (sel ++ [last])%list as [|f l IH]; [reflexivity|].
    cbn [filter]. rewrite (Hrej f (or_introl eq_refl)). cbn [negb].
    apply IH. intros g Hg. apply Hrej. now right. }
  rewrite Hfilter. cbn [length Nat.ltb Nat.leb].
  assert (Hlast : ImageUpload.last_rejected (sel ++ [last]) = Some last).
  { assert (Hl : ImageUpload.rejected last = true).
    { apply Hrej. apply in_or_app. right. now left. }
    clear Hrej Hne Hall Hfilter.
    induction sel as [|f sel IH]; cbn [app ImageUpload.last_rejected].
    - now rewrite Hl.
    - now rewrite IH. }
  now rewrite Hlast.
Qed.

Lemma handleFileChange_all_rejected_witness :
  let gif := ImageUpload.mkFile "smear.gif" "image/gif" 1024 in
  let big := ImageUpload.mkFile "huge.png" "image/png" 52428801 in
  let old := ImageUpload.mkFile "old.tiff" "image/tiff" 1 in
  ImageUpload.handleFileChange [gif; big] (ImageUpload.mkState [old] "")
  = ImageUpload.mkState [old] "huge.png: File size must be less than 50MB".
Proof.
  cbv zeta.
  apply (handleFileChange_all_rejected
    [ImageUpload.mkFile "smear.gif" "image/gif" 1024]
    (ImageUpload.mkFile "huge.png" "image/png" 52428801)
    (ImageUpload.mkState [ImageUpload.mkFile "old.tiff" "image/tiff" 1] "")).
  intros f [Hf | [Hf | []]]; subst f; intros [Ht Hs].
  - vm_compute in Ht. repeat (destruct Ht as [Ht | Ht]; try discriminate). exact Ht.
  - apply Hs. reflexivity.
Defined.

(** X4. [removeFile] drops exactly the staged file at the given position,
    keeping the others in order and the error as it was; with a position past
    the end nothing changes. *)
Theorem removeFile_drops_position :
  forall (index : nat) (st : ImageUpload.State),
    ImageUpload.files (ImageUpload.removeFile index st)
    = (firstn index (ImageUpload.files st)
       ++ skipn (S index) (ImageUpload.files st))%list
    /\ ImageUpload.error (ImageUpload.removeFile index st) = ImageUpload.error st
    /\ (index < length (ImageUpload.files st) ->
        S (length (ImageUpload.files (ImageUpload.removeFile index st)))
        = length (ImageUpload.files st))
    /\ (length (ImageUpload.files st) <= index ->
        ImageUpload.removeFile index st = st).
Proof.
  intros index st. unfold ImageUpload.removeFile. cbn [ImageUpload.files ImageUpload.error].
  rewrite remove_at_firstn_skipn. repeat split.
  - intros Hlt. rewrite length_app, length_firstn, length_skipn. lia.
  - intros Hle. rewrite firstn_all2 by exact Hle.
    rewrite skipn_all2 by lia. rewrite app_nil_r. now destruct st.
Qed.

Lemma removeFile_drops_position_witness :
  let a := ImageUpload.mkFile "a.png" "image/png" 1 in
  let b := ImageUpload.mkFile "b.png" "image/png" 2 in
  let c := ImageUpload.mkFile "c.png" "image/png" 3 in
  ImageUpload.files (ImageUpload.removeFile 1 (ImageUpload.mkState [a; b; c] "")) = [a; c]
  /\ ImageUpload.removeFile 3 (ImageUpload.mkState [a; b; c] "")
     = ImageUpload.mkState [a; b; c] "".
Proof.
  cbv zeta. split.
  - exact (proj1 (removeFile_drops_position 1
      (ImageUpload.mkState [ImageUpload.mkFile "a.png" "image/png" 1;
                            ImageUpload.mkFile "b.png" "image/png" 2;
                            ImageUpload.mkFile "c.png" "image/png" 3] ""))).
  - apply (proj2 (proj2 (proj2 (removeFile_drops_position 3
      (ImageUpload.mkState [ImageUpload.mkFile "a.png" "image/png" 1;
                            ImageUpload.mkFile "b.png" "image/png" 2;
                            ImageUpload.mkFile "c.png" "image/png" 3] ""))))).
    cbn. lia.
Defined.

(** ** Upload route: what it forwards, what it keeps *)
Section FormEntriesFacts.

Lemma getAll_app {A : Type} (key : string) (l1 l2 : list (string * A)) :
  FormEntries.getAll key (l1 ++ l2)
  = (FormEntries.getAll key l1 ++ FormEntries.getAll key l2)%list.
Proof. unfold FormEntries.getAll. now rewrite filter_app, map_app. Qed.

Lemma getAll_same_key {A B : Type} (key : string) (f : B -> A) (l : list B) :
  FormEntries.getAll key (map (fun x => (key, f x)) l) = map f l.
Proof.
  unfold FormEntries.getAll. induction l as [|x l IH]; [reflexivity|].
  cbn [map filter fst]. rewrite String.eqb_refl. cbn [map snd]. now rewrite IH.
Qed.

Lemma getAll_other_key {A B : Type} (key key' : string) (f : B -> A) (l : list B) :
  (key' =? key) = false ->
  FormEntries.getAll key (map (fun x => (key', f x)) l) = [].
Proof.
  intros Hk. unfold FormEntries.getAll. induction l as [|x l IH]; [reflexivity|].
  cbn [map filter fst]. rewrite Hk. exact IH.
Qed.

End FormEntriesFacts.

Section UploadMore.
Import UploadRoute.

(** The [try] block returns nothing but the 200 answer. *)
Lemma forward_returns (env : Env) (images : list Entry) (jobId pid : string)
    (name age : option string) (userId : string) (response : Response) :
  forward env images jobId pid name age userId = Returns response ->
  response = Json 200
    (UploadAccepted jobId PENDING (length images)
       (Js.string_of_nat (length images)
          ++ " image(s) uploaded, ML processing started")).
Proof.
  unfold forward. destruct (fetch env _ _) as [r | m]; cbn [bind]; [| discriminate].
  destruct (ok r); cbn [negb].
  - intros H. now inversion H.
  - destruct (json r) as [errorData | m]; cbn [bind]; [| discriminate].
    destruct (read_detail errorData); cbn [bind]; discriminate.
Qed.

(** Either a guard answered, or the request is a valid upload. *)
Lemma POST_cases (env : Env) (auth : Auth) (formData : FormData) (db : Store) :
  (exists e, auth = AuthError e
             /\ POST env auth formData db = (db, Json 401 (Message e)))
  \/ (exists userId, auth = AuthUser userId
        /\ POST env auth formData db
           = (db, Json 400 (Message "At least one image and patient ID are required")))
  \/ (exists userId pid,
        auth = AuthUser userId
        /\ allImages formData <> []
        /\ form_patientId formData = Some pid /\ pid <> "").
Proof.
  destruct auth as [e | userId].
  - left. exists e. split; reflexivity.
  - destruct (invalid formData) eqn:Hinv.
    + right. left. exists userId. split; [reflexivity|].
      unfold POST. now rewrite Hinv.
    + right. right. unfold invalid in Hinv. apply orb_false_iff in Hinv.
      destruct Hinv as [Hlen Htr]. apply negb_false_iff in Htr.
      apply truthy_str_Some in Htr. destruct Htr as (pid & Hpid & Hne).
      exists userId, pid. repeat split; try assumption.
      intros E. rewrite E in Hlen. discriminate.
Qed.

Lemma update_first_ident {B : Type} (ident : Job -> B) (id st : string)
    (res : Js.Value) (l : list Job) :
  (forall j st' res',
      ident (mkJob (jobId j) (job_patientId j) (job_labId j) st' (progress j)
                   (totalImages j) res' (createdAt j)) = ident j) ->
  map ident (JobModel.update_first id st res l) = map ident l.
Proof.
  intros Hid. induction l as [|j l IH]; cbn [JobModel.update_first map].
  - reflexivity.
  - destruct (jobId j =? id); cbn [map].
    + now rewrite Hid.
    + now rewrite IH.
Qed.

Lemma update_first_keeps_others (id st : string) (res : Js.Value)
    (l : list Job) (j : Job) :
  In j l -> jobId j <> id -> In j (JobModel.update_first id st res l).
Proof.
  intros Hin Hne. induction l as [|x l IH]; cbn [JobModel.update_first].
  - assumption.
  - destruct Hin as [E | Hin].
    + subst x. apply String.eqb_neq in Hne. rewrite Hne. now left.
    + destruct (jobId x =? id); right; auto.
Qed.

(** The store after a valid upload whose generated id no job carries yet. *)
Lemma POST_valid_fresh (env : Env) (userId : string) (formData : FormData)
    (db : Store) (pid : string) :
  allImages formData <> [] ->
  form_patientId formData = Some pid ->
  pid <> "" ->
  (forall j, In j (jobs db) -> jobId j <> randomUUID env) ->
  exists (st : string) (res : Js.Value),
    fst (POST env (AuthUser userId) formData db)
    = mkStore
        (jobs db ++ [mkJob (randomUUID env) pid userId st (Some 0%Z)
                           (length (allImages formData)) res (now env)])
        (PatientModel.upsert
           (mkPatient pid (form_name formData) (form_age formData) userId)
           (patients db))
    /\ ((st = PENDING /\ res = Js.Undefined
         /\ snd (POST env (AuthUser userId) formData db)
            = Json 200
                (UploadAccepted (randomUUID env) PENDING
                   (length (allImages formData))
                   (Js.string_of_nat (length (allImages formData))
                      ++ " image(s) uploaded, ML processing started")))
        \/ (exists message,
              st = FAILED /\ res = Js.Obj [("error", Js.Str message)]
              /\ snd (POST env (AuthUser userId) formData db)
                 = Json 500 (UploadError "Failed to start ML processing" message))).
Proof.
  intros Himg Hpid Hne Hfresh.
  rewrite (POST_valid env userId formData db pid Himg Hpid Hne). cbv zeta.
  destruct (forward _ _ _ _ _ _ _) as [response | message] eqn:Hfw.
  - exists PENDING, Js.Undefined. split; [reflexivity|]. left.
    repeat split. cbn [snd]. exact (forward_returns _ _ _ _ _ _ _ _ Hfw).
  - exists FAILED, (Js.Obj [("error", Js.Str message)]). split.
    + cbn [fst]. unfold JobModel.findOneAndUpdate, persist, JobModel.create.
      cbn [jobs patients PatientModel.findOneAndUpdate].
      rewrite update_first_fresh; [reflexivity | assumption | reflexivity].
    + right. exists message. repeat split.
Qed.

End UploadMore.

(** X5. Serving an upload request never removes a job and never changes the
    id, patient, owner, image count or creation time of a job already stored:
    those of the jobs afterwards are those before, followed by at most one new
    job.  A stored job whose id differs from the generated one is left exactly
    as it was. *)
Theorem POST_never_drops_jobs :
  forall (env : UploadRoute.Env) (auth : Auth) (formData : UploadRoute.FormData)
         (db : Store),
    let ident := fun j : Job =>
      (jobId j, job_patientId j, job_labId j, totalImages j, createdAt j) in
    let db' := fst (UploadRoute.POST env auth formData db) in
    (exists added,
        map ident (jobs db') = (map ident (jobs db) ++ added)%list
        /\ length added <= 1)
    /\ (forall j, In j (jobs db) -> jobId j <> UploadRoute.randomUUID env ->
                  In j (jobs db')).
Proof.
  intros env auth formData db ident db'. unfold db'.
  destruct (POST_cases env auth formData db)
    as [(e & _ & E) | [(u & _ & E) | (u & pid & Hauth & Himg & Hpid & Hne)]].
  - rewrite E. cbn [fst]. split; [| auto].
    exists []. rewrite app_nil_r. split; [reflexivity | cbn; lia].
  - rewrite E. cbn [fst]. split; [| auto].
    exists []. rewrite app_nil_r. split; [reflexivity | cbn; lia].
  - subst auth.
    rewrite (POST_valid env u formData db pid Himg Hpid Hne). cbv zeta.
    unfold UploadRoute.persist, JobModel.create.
    destruct (UploadRoute.forward _ _ _ _ _ _ _); cbn [fst].
    + cbn [jobs PatientModel.findOneAndUpdate]. split.
      * eexists. rewrite map_app. split; [reflexivity | cbn; lia].
      * intros j Hj _. apply in_or_app. now left.
    + unfold JobModel.findOneAndUpdate.
      cbn [jobs PatientModel.findOneAndUpdate]. split.
      * eexists. rewrite update_first_ident by reflexivity.
        rewrite map_app. split; [reflexivity | cbn; lia].
      * intros j Hj Hid. apply update_first_keeps_others; [| assumption].
        apply in_or_app. now left.
Qed.

Lemma POST_never_drops_jobs_witness :
  let env := UploadRoute.mkEnv None "job-2" 5 (fun _ _ => Throws "fetch failed") in
  let formData :=
    UploadRoute.mkFormData [UploadRoute.FileValue "cell.png" []] None
      (Some "P1") None None in
  let old := mkJob "job-1" "P1" "lab-B" "COMPLETED" (Some 100%Z) 1
                   (Js.Obj [("classification", Js.Str "BENIGN")]) 1 in
  In old (jobs (fst (UploadRoute.POST env (AuthUser "lab-A") formData
                       (mkStore [old] [])))).
Proof.
  cbv zeta.
  apply (proj2 (POST_never_drops_jobs
    (UploadRoute.mkEnv None "job-2" 5 (fun _ _ => Throws "fetch failed"))
    (AuthUser "lab-A")
    (UploadRoute.mkFormData [UploadRoute.FileValue "cell.png" []] None
       (Some "P1") None None)
    (mkStore [mkJob "job-1" "P1" "lab-B" "COMPLETED" (Some 100%Z) 1
                    (Js.Obj [("classification", Js.Str "BENIGN")]) 1] []))).
  - left. reflexivity.
  - vm_compute. discriminate.
Defined.


(** X7. When the upload route answers 400 or 401 it has neither written to the
    store nor called the inference service: the store is the one it was
    given, and the outcome is the same whatever the inference service, the id
    generator and the clock would have produced. *)
Theorem POST_guard_answers_touch_nothing :
  forall (env : UploadRoute.Env) (auth : Auth) (formData : UploadRoute.FormData)
         (db : Store),
    response_status (snd (UploadRoute.POST env auth formData db)) = 400
    \/ response_status (snd (UploadRoute.POST env auth formData db)) = 401 ->
    fst (UploadRoute.POST env auth formData db) = db
    /\ forall env',
         UploadRoute.POST env' auth formData db
         = UploadRoute.POST env auth formData db.
Proof.
  intros env auth formData db Hst.
  destruct (POST_cases env auth formData db)
    as [(e & Hauth & E) | [(u & Hauth & E) | (u & pid & Hauth & Himg & Hpid & Hne)]].
  - rewrite E. split; [reflexivity|]. intros env'. now subst auth.
  - rewrite E. split; [reflexivity|]. intros env'. subst auth.
    unfold UploadRoute.POST in *. destruct (UploadRoute.invalid formData).
    + reflexivity.
    + exfalso. revert E.
      destruct (UploadRoute.forward _ _ _ _ _ _ _) eqn:Hfw; intros E.
      * apply forward_returns in Hfw. subst. inversion E.
      * inversion E.
  - exfalso. subst auth.
    rewrite (POST_valid env u formData db pid Himg Hpid Hne) in Hst.
    cbv zeta in Hst.
    destruct (UploadRoute.forward _ _ _ _ _ _ _) eqn:Hfw; cbn [snd] in Hst.
    + apply forward_returns in Hfw. subst.
      cbn [response_status] in Hst. destruct Hst; discriminate.
    + cbn [response_status] in Hst. destruct Hst; discriminate.
Qed.

Lemma POST_guard_answers_touch_nothing_witness :
  let env := UploadRoute.mkEnv None "job-1" 0 (fun _ _ => Throws "unused") in
  let env' := UploadRoute.mkEnv (Some "http://ml:9000") "job-9" 7
                (fun _ _ => Returns (mkFetchResponse true (Returns Js.Null) (Returns []))) in
  let formData :=
    UploadRoute.mkFormData [UploadRoute.FileValue "cell.png" []] None
      (Some "P1") None None in
  UploadRoute.POST env' (AuthError "No token provided") formData (mkStore [] [])
  = UploadRoute.POST env (AuthError "No token provided") formData (mkStore [] []).
Proof.
  cbv zeta.
  apply (proj2 (POST_guard_answers_touch_nothing
    (UploadRoute.mkEnv None "job-1" 0 (fun _ _ => Throws "unused"))
    (AuthError "No token provided")
    (UploadRoute.mkFormData [UploadRoute.FileValue "cell.png" []] None
       (Some "P1") None None)
    (mkStore [] [])
    (or_intror eq_refl))).
Defined.

(** ** An upload followed by reads *)
Section UploadThenRead.
Import UploadRoute.

Lemma find_app_last {A : Type} (f : A -> bool) (l : list A) (x : A) :
  (forall y, In y l -> f y = false) ->
  find f (l ++ [x]) = if f x then Some x else None.
Proof.
  intros H. induction l as [|y l IH]; cbn [app find]; [reflexivity|].
  rewrite (H y (or_introl eq_refl)). apply IH. intros z Hz. apply H. now right.
Qed.

Lemma find_app_first {A : Type} (f : A -> bool) (l l' : list A) (x : A) :
  find f l = Some x -> find f (l ++ l') = Some x.
Proof.
  induction l as [|y l IH]; cbn [app find]; [discriminate|].
  destruct (f y); [trivial | exact IH].
Qed.

(** The store after an upload that got past the guards, the generated id
    being new. *)
Lemma POST_stored_fresh (env : Env) (userId : string) (formData : FormData)
    (db : Store) :
  (forall j, In j (jobs db) -> jobId j <> randomUUID env) ->
  response_status (snd (POST env (AuthUser userId) formData db)) <> 400 ->
  exists (pid st : string) (res : Js.Value),
    form_patientId formData = Some pid
    /\ fst (POST env (AuthUser userId) formData db)
       = mkStore
           (jobs db ++ [mkJob (randomUUID env) pid userId st (Some 0%Z)
                              (length (allImages formData)) res (now env)])
           (PatientModel.upsert
              (mkPatient pid (form_name formData) (form_age formData) userId)
              (patients db))
    /\ ((st = PENDING /\ res = Js.Undefined
         /\ snd (POST env (AuthUser userId) formData db)
            = Json 200
                (UploadAccepted (randomUUID env) PENDING
                   (length (allImages formData))
                   (Js.string_of_nat (length (allImages formData))
                      ++ " image(s) uploaded, ML processing started")))
        \/ (exists message,
              st = FAILED /\ res = Js.Obj [("error", Js.Str message)]
              /\ snd (POST env (AuthUser userId) formData db)
                 = Json 500 (UploadError "Failed to start ML processing" message))).
Proof.
  intros Hfresh Hst.
  destruct (POST_cases env (AuthUser userId) formData db)
    as [(e & Hauth & _) | [(u & _ & E) | (u & pid & Hauth & Himg & Hpid & Hne)]].
  - discriminate.
  - rewrite E in Hst. now contradiction Hst.
  - inversion Hauth; subst u.
    destruct (POST_valid_fresh env userId formData db pid Himg Hpid Hne Hfresh)
      as (st & res & Hstore & Hresp).
    exists pid, st, res. auto.
Qed.

Lemma findOne_new_job (id lab : string) (l : list Job) (ps : list Patient) (j : Job) :
  (forall x, In x l -> jobId x <> id) ->
  jobId j = id ->
  JobModel.findOne id lab (mkStore (l ++ [j]) ps)
  = if job_labId j =? lab then Some j else None.
Proof.
  intros Hfresh Hj. unfold JobModel.findOne. cbn [jobs].
  rewrite find_app_last.
  - apply String.eqb_eq in Hj. rewrite Hj. reflexivity.
  - intros y Hy. apply andb_false_iff. left. apply String.eqb_neq. auto.
Qed.

End UploadThenRead.

(** X8. The job id in a 200 answer of the upload route can be polled at once:
    provided the generated id was new to the store, the status route then
    answers the uploader with that id, status PENDING and progress 0, without
    report and without message. *)
Theorem upload_accepted_then_status_pending :
  forall (env : UploadRoute.Env) (userId : string)
         (formData : UploadRoute.FormData) (db : Store)
         (id st : string) (n : nat) (msg : string),
    (forall j, In j (jobs db) -> jobId j <> UploadRoute.randomUUID env) ->
    snd (UploadRoute.POST env (AuthUser userId) formData db)
    = Json 200 (UploadAccepted id st n msg) ->
    StatusRoute.GET (AuthUser userId) id
      (fst (UploadRoute.POST env (AuthUser userId) formData db))
    = Json 200 (JobStatus id "PENDING" 0 None None).
Proof.
  intros env userId formData db id st n msg Hfresh Hresp.
  destruct (POST_stored_fresh env userId formData db Hfresh)
    as (pid & st' & res & _ & Hstore & [(Hst & Hres & Hr) | (m & _ & _ & Hr)]).
  - rewrite Hresp. cbn. discriminate.
  - rewrite Hr in Hresp. inversion Hresp; subst id st n msg st' res.
    rewrite Hstore. unfold StatusRoute.GET.
    rewrite findOne_new_job by (assumption || reflexivity).
    cbn [job_labId]. rewrite String.eqb_refl. reflexivity.
  - rewrite Hr in Hresp. discriminate.
Qed.

Lemma upload_accepted_then_status_pending_witness :
  let accept := fun (_ : string) (_ : list (string * UploadRoute.Entry)) =>
                  Returns (mkFetchResponse true (Returns Js.Null) (Returns [])) in
  let env := UploadRoute.mkEnv None "job-1" 1700000000000 accept in
  let formData :=
    UploadRoute.mkFormData [UploadRoute.FileValue "cell.png" []] None
      (Some "P1") (Some "Jane Doe") (Some "34") in
  StatusRoute.GET (AuthUser "lab-A") "job-1"
    (fst (UploadRoute.POST env (AuthUser "lab-A") formData (mkStore [] [])))
  = Json 200 (JobStatus "job-1" "PENDING" 0 None None).
Proof.
  cbv zeta.
  apply (upload_accepted_then_status_pending
    (UploadRoute.mkEnv None "job-1" 1700000000000
       (fun _ _ => Returns (mkFetchResponse true (Returns Js.Null) (Returns []))))
    "lab-A"
    (UploadRoute.mkFormData [UploadRoute.FileValue "cell.png" []] None
       (Some "P1") (Some "Jane Doe") (Some "34"))
    (mkStore [] []) "job-1" "PENDING" 1
    "1 image(s) uploaded, ML processing started").
  - intros j [].
  - vm_compute. reflexivity.
Defined.

(** X9. After an upload that is answered 500, the generated id being new, a
    status poll of the job by the uploader answers FAILED with progress 0 and
    no report; its message is the text the 500 answer carried under [error],
    and is left out when that text is empty. *)
Theorem upload_failed_then_status_failed :
  forall (env : UploadRoute.Env) (userId : string)
         (formData : UploadRoute.FormData) (db : Store) (m e : string),
    (forall j, In j (jobs db) -> jobId j <> UploadRoute.randomUUID env) ->
    snd (UploadRoute.POST env (AuthUser userId) formData db)
    = Json 500 (UploadError m e) ->
    StatusRoute.GET (AuthUser userId) (UploadRoute.randomUUID env)
      (fst (UploadRoute.POST env (AuthUser userId) formData db))
    = Json 200
        (JobStatus (UploadRoute.randomUUID env) "FAILED" 0 None
           (if e =? "" then None else Some (Js.Str e))).
Proof.
  intros env userId formData db m e Hfresh Hresp.
  destruct (POST_stored_fresh env userId formData db Hfresh)
    as (pid & st' & res & _ & Hstore & [(_ & _ & Hr) | (msg & Hst & Hres & Hr)]).
  - rewrite Hresp. cbn. discriminate.
  - rewrite Hr in Hresp. discriminate.
  - rewrite Hr in Hresp. inversion Hresp; subst m e st' res.
    rewrite Hstore. unfold StatusRoute.GET.
    rewrite findOne_new_job by (assumption || reflexivity).
    cbn [job_labId]. rewrite String.eqb_refl.
    cbn [status result progress jobId].
    change (FAILED =? COMPLETED) with false. rewrite String.eqb_refl.
    cbn [andb Js.get_opt Js.get Js.lookup]. rewrite String.eqb_refl.
    cbn [Js.truthy StatusRoute.progress_or_0 Z.eqb].
    destruct (msg =? ""); reflexivity.
Qed.

Lemma upload_failed_then_status_failed_witness :
  let refuse := fun (_ : string) (_ : list (string * UploadRoute.Entry)) =>
    Returns (mkFetchResponse false
               (Returns (Js.Obj [("detail", Js.Str "Model not loaded")]))
               (Returns [])) in
  let env := UploadRoute.mkEnv None "job-2" 5 refuse in
  let formData :=
    UploadRoute.mkFormData [UploadRoute.FileValue "cell.png" []] None
      (Some "P1") (Some "Jane Doe") (Some "34") in
  StatusRoute.GET (AuthUser "lab-A") "job-2"
    (fst (UploadRoute.POST env (AuthUser "lab-A") formData (mkStore [] [])))
  = Json 200 (JobStatus "job-2" "FAILED" 0 None (Some (Js.Str "Model not loaded"))).
Proof.
  cbv zeta.
  apply (upload_failed_then_status_failed
    (UploadRoute.mkEnv None "job-2" 5
       (fun _ _ =>
          Returns (mkFetchResponse false
                     (Returns (Js.Obj [("detail", Js.Str "Model not loaded")]))
                     (Returns []))))
    "lab-A"
    (UploadRoute.mkFormData [UploadRoute.FileValue "cell.png" []] None
       (Some "P1") (Some "Jane Doe") (Some "34"))
    (mkStore [] []) "Failed to start ML processing" "Model not loaded").
  - intros j [].
  - vm_compute. reflexivity.
Defined.

(** X10. Right after an upload that got past the guards (answered 200 or 500),
    the generated id being new, the report route answers the uploader 400
    "Report not ready yet" for that job and does not ask the inference
    service; any other caller is answered 404 by the status route and by the
    report route. *)
Theorem upload_then_report_not_ready_and_private :
  forall (env : UploadRoute.Env) (renv : ReportRoute.Env) (userId other : string)
         (formData : UploadRoute.FormData) (db : Store),
    (forall j, In j (jobs db) -> jobId j <> UploadRoute.randomUUID env) ->
    response_status (snd (UploadRoute.POST env (AuthUser userId) formData db)) <> 400 ->
    other <> userId ->
    let db' := fst (UploadRoute.POST env (AuthUser userId) formData db) in
    ReportRoute.GET renv (AuthUser userId) (UploadRoute.randomUUID env) db'
    = Json 400 (Message "Report not ready yet")
    /\ StatusRoute.GET (AuthUser other) (UploadRoute.randomUUID env) db'
       = Json 404 (Message "Job not found or access denied")
    /\ ReportRoute.GET renv (AuthUser other) (UploadRoute.randomUUID env) db'
       = Json 404 (Message "Report not found or access denied").
Proof.
  intros env renv userId other formData db Hfresh Hst Hother db'. unfold db'.
  destruct (POST_stored_fresh env userId formData db Hfresh Hst)
    as (pid & st' & res & _ & Hstore & Hcases).
  rewrite Hstore. unfold StatusRoute.GET, ReportRoute.GET.
  rewrite !findOne_new_job by (assumption || reflexivity).
  cbn [job_labId]. rewrite String.eqb_refl.
  assert (Ho : (userId =? other) = false) by (apply String.eqb_neq; congruence).
  rewrite Ho. repeat split.
  cbn [status].
  destruct Hcases as [(E & _ & _) | (m & E & _ & _)]; subst st'; reflexivity.
Qed.

Lemma upload_then_report_not_ready_and_private_witness :
  let env := UploadRoute.mkEnv None "job-2" 5 (fun _ _ => Throws "fetch failed") in
  let renv := ReportRoute.mkEnv None (fun _ => Throws "unused") in
  let formData :=
    UploadRoute.mkFormData [UploadRoute.FileValue "cell.png" []] None
      (Some "P1") None None in
  let db' := fst (UploadRoute.POST env (AuthUser "lab-A") formData (mkStore [] [])) in
  ReportRoute.GET renv (AuthUser "lab-A") "job-2" db'
  = Json 400 (Message "Report not ready yet")
  /\ StatusRoute.GET (AuthUser "lab-B") "job-2" db'
     = Json 404 (Message "Job not found or access denied")
  /\ ReportRoute.GET renv (AuthUser "lab-B") "job-2" db'
     = Json 404 (Message "Report not found or access denied").
Proof.
  cbv zeta.
  apply (upload_then_report_not_ready_and_private
    (UploadRoute.mkEnv None "job-2" 5 (fun _ _ => Throws "fetch failed"))
    (ReportRoute.mkEnv None (fun _ => Throws "unused"))
    "lab-A" "lab-B"
    (UploadRoute.mkFormData [UploadRoute.FileValue "cell.png" []] None
       (Some "P1") None None)
    (mkStore [] [])).
  - intros j [].
  - vm_compute. discriminate.
  - discriminate.
Defined.

(** X11. The report view reads the patient at poll time: when a COMPLETED job
    with a result refers to patient [pid], and a later valid upload (by any
    account, with a job id new to the store) names [pid] again, the status
    route shows the job's owner a report whose patientName and age are those
    of the later upload, N/A standing in for a missing or empty one. *)
Theorem later_upload_renames_patient_in_report :
  forall (env : UploadRoute.Env) (uploader owner id : string)
         (formData : UploadRoute.FormData) (db : Store) (job : Job),
    JobModel.findOne id owner db = Some job ->
    status job = "COMPLETED" ->
    Js.truthy (result job) = true ->
    UploadRoute.allImages formData <> [] ->
    UploadRoute.form_patientId formData = Some (job_patientId job) ->
    job_patientId job <> "" ->
    (forall j, In j (jobs db) -> jobId j <> UploadRoute.randomUUID env) ->
    exists report : Report,
      StatusRoute.GET (AuthUser owner) id
        (fst (UploadRoute.POST env (AuthUser uploader) formData db))
      = Json 200 (JobStatus (jobId job) "COMPLETED"
                    (StatusRoute.progress_or_0 (progress job))
                    (Some report) None)
      /\ patientName report = Js.or_str (UploadRoute.form_name formData) "N/A"
      /\ report_age report = Js.or_str (UploadRoute.form_age formData) "N/A".
Proof.
  intros env uploader owner id formData db job Hfind Hst Hres Himg Hpid Hne Hfresh.
  destruct (POST_valid_fresh env uploader formData db _ Himg Hpid Hne Hfresh)
    as (st' & res & Hstore & _).
  rewrite Hstore.
  set (patient := mkPatient (job_patientId job) (UploadRoute.form_name formData)
                            (UploadRoute.form_age formData) uploader).
  exists (StatusRoute.build_report job (Some patient)).
  unfold StatusRoute.GET.
  assert (Hjob : JobModel.findOne id owner
                   (mkStore (jobs db ++ [mkJob (UploadRoute.randomUUID env)
                                (job_patientId job) uploader st' (Some 0%Z)
                                (length (UploadRoute.allImages formData)) res
                                (UploadRoute.now env)])
                            (PatientModel.upsert patient (patients db)))
                 = Some job).
  { unfold JobModel.findOne. cbn [jobs]. now apply find_app_first. }
  rewrite Hjob.
  assert (Hpat : PatientModel.findOne (job_patientId job)
                   (mkStore (jobs db ++ [mkJob (UploadRoute.randomUUID env)
                                (job_patientId job) uploader st' (Some 0%Z)
                                (length (UploadRoute.allImages formData)) res
                                (UploadRoute.now env)])
                            (PatientModel.upsert patient (patients db)))
                 = Some patient).
  { unfold PatientModel.findOne. cbn [patients].
    exact (find_upsert_same patient (patients db)). }
  rewrite Hpat, Hres, Hst. repeat split.
Qed.

Lemma later_upload_renames_patient_in_report_witness :
  let accept := fun (_ : string) (_ : list (string * UploadRoute.Entry)) =>
                  Returns (mkFetchResponse true (Returns Js.Null) (Returns [])) in
  let env := UploadRoute.mkEnv None "job-2" 9 accept in
  let formData :=
    UploadRoute.mkFormData [UploadRoute.FileValue "cell.png" []] None
      (Some "P1") (Some "Jane Roe") None in
  let done := mkJob "job-1" "P1" "lab-A" "COMPLETED" (Some 100%Z) 1
                    (Js.Obj [("classification", Js.Str "MALIGNANT")]) 1 in
  let db := mkStore [done] [mkPatient "P1" (Some "Jane Doe") (Some "34") "lab-A"] in
  exists report : Report,
    StatusRoute.GET (AuthUser "lab-A") "job-1"
      (fst (UploadRoute.POST env (AuthUser "lab-B") formData db))
    = Json 200 (JobStatus "job-1" "COMPLETED" 100 (Some report) None)
    /\ patientName report = "Jane Roe"
    /\ report_age report = "N/A".
Proof.
  cbv zeta.
  apply (later_upload_renames_patient_in_report
    (UploadRoute.mkEnv None "job-2" 9
       (fun _ _ => Returns (mkFetchResponse true (Returns Js.Null) (Returns []))))
    "lab-B" "lab-A" "job-1"
    (UploadRoute.mkFormData [UploadRoute.FileValue "cell.png" []] None
       (Some "P1") (Some "Jane Roe") None)
    (mkStore [mkJob "job-1" "P1" "lab-A" "COMPLETED" (Some 100%Z) 1
                    (Js.Obj [("classification", Js.Str "MALIGNANT")]) 1]
             [mkPatient "P1" (Some "Jane Doe") (Some "34") "lab-A"])
    (mkJob "job-1" "P1" "lab-A" "COMPLETED" (Some 100%Z) 1
           (Js.Obj [("classification", Js.Str "MALIGNANT")]) 1)).
  - reflexivity.
  - reflexivity.
  - reflexivity.
  - vm_compute. discriminate.
  - reflexivity.
  - vm_compute. discriminate.
  - intros j [Hj | []]. subst j. vm_compute. discriminate.
Defined.

(** ** Job ids in the store *)
Section JobIds.
Import UploadRoute.

Lemma POST_job_ids (env : Env) (auth : Auth) (formData : FormData) (db : Store) :
  map jobId (jobs (fst (POST env auth formData db))) = map jobId (jobs db)
  \/ map jobId (jobs (fst (POST env auth formData db)))
     = (map jobId (jobs db) ++ [randomUUID env])%list.
Proof.
  destruct (POST_cases env auth formData db)
    as [(e & _ & E) | [(u & _ & E) | (u & pid & Hauth & Himg & Hpid & Hne)]].
  - left. now rewrite E.
  - left. now rewrite E.
  - right. subst auth.
    rewrite (POST_valid env u formData db pid Himg Hpid Hne). cbv zeta.
    unfold persist, JobModel.create.
    destruct (forward _ _ _ _ _ _ _); cbn [fst].
    + cbn [jobs PatientModel.findOneAndUpdate]. now rewrite map_app.
    + unfold JobModel.findOneAndUpdate. cbn [jobs PatientModel.findOneAndUpdate].
      rewrite update_first_ident by reflexivity. now rewrite map_app.
Qed.

(** The only ids the upload route puts in the store are the generated ones:
    when those are legal in a header value (as every UUID is) and the ids
    already stored are, every stored id stays legal, whatever requests are
    served. *)
Lemma serve_all_ids_legal (rs : list Request) (db : Store) :
  (forall r, In r rs ->
             ReportRoute.header_value_ok (randomUUID (req_env r)) = true) ->
  (forall id, In id (map jobId (jobs db)) -> ReportRoute.header_value_ok id = true) ->
  forall id, In id (map jobId (jobs (serve_all rs db))) ->
             ReportRoute.header_value_ok id = true.
Proof.
  revert db. induction rs as [|r rs IH]; intros db Hgen Hdb; cbn [serve_all fold_left].
  - exact Hdb.
  - apply IH.
    + intros r' Hr'. apply Hgen. now right.
    + intros id Hid. unfold serve in Hid.
      destruct (POST_job_ids (req_env r) (req_auth r) (req_form r) db) as [E | E];
        rewrite E in Hid.
      * now apply Hdb.
      * apply in_app_or in Hid. destruct Hid as [Hid | [Hid | []]].
        -- now apply Hdb.
        -- subst id. apply Hgen. now left.
Qed.

End JobIds.

(** ** What the read routes give away *)
Section ReadRoutes.

Lemma findOne_Some (id lab : string) (db : Store) (job : Job) :
  JobModel.findOne id lab db = Some job ->
  In job (jobs db) /\ jobId job = id /\ job_labId job = lab.
Proof.
  unfold JobModel.findOne. intros H. apply find_some in H.
  destruct H as [Hin Hb]. apply andb_true_iff in Hb. destruct Hb as [H1 H2].
  apply String.eqb_eq in H1, H2. auto.
Qed.

(** Every JSON answer of the report route is an error with a message. *)
Lemma ReportRoute_json_is_error (env : ReportRoute.Env) (auth : Auth)
    (id : string) (db : Store) (s : nat) (b : Body) :
  ReportRoute.GET env auth id db = Json s b ->
  (s = 400 \/ s = 401 \/ s = 404 \/ s = 500) /\ exists m, b = Message m.
Proof.
  unfold ReportRoute.GET. destruct auth as [e | u].
  - intros H. inversion H. split; [auto | now exists e].
  - destruct (JobModel.findOne id u db) as [job|].
    + destruct (negb (status job =? COMPLETED)).
      * intros H. inversion H. split; [auto | eexists; reflexivity].
      * unfold ReportRoute.download.
        destruct (ReportRoute.fetch env _) as [r | m]; cbn [bind].
        -- destruct (negb (ok r)).
           ++ intros H. inversion H. split; [auto | eexists; reflexivity].
           ++ destruct (arrayBuffer r) as [buf | m]; cbn [bind].
              ** rewrite new_NextResponse_pdf.
                 destruct (ReportRoute.header_value_ok id); intros H;
                   [discriminate | inversion H; split; [auto | eexists; reflexivity]].
              ** intros H. inversion H. split; [auto | eexists; reflexivity].
        -- intros H. inversion H. split; [auto | eexists; reflexivity].
    + intros H. inversion H. split; [auto | eexists; reflexivity].
Qed.

End ReadRoutes.

(** X12. The status route answers 200 only to the owner of a stored job with
    the asked id.  The body then echoes that id with the job's status and
    progress; a report is included only for a COMPLETED job, a message only
    for a FAILED one, and never both. *)
Theorem status_200_only_for_owner :
  forall (auth : Auth) (id : string) (db : Store) (body : Body),
    StatusRoute.GET auth id db = Json 200 body ->
    exists (userId : string) (job : Job) (report : option Report)
           (message : option Js.Value),
      auth = AuthUser userId
      /\ In job (jobs db) /\ jobId job = id /\ job_labId job = userId
      /\ body = JobStatus id (status job)
                  (StatusRoute.progress_or_0 (progress job)) report message
      /\ (report <> None -> status job = "COMPLETED")
      /\ (message <> None -> status job = "FAILED")
      /\ (report = None \/ message = None).
Proof.
  intros auth id db body H. unfold StatusRoute.GET in H.
  destruct auth as [e | u]; [discriminate|].
  destruct (JobModel.findOne id u db) as [job|] eqn:Hfind; [| discriminate].
  destruct (findOne_Some id u db job Hfind) as (Hin & Hid & Hlab).
  inversion H as [Hbody]. clear H.
  exists u, job. eexists. eexists.
  repeat split; try eassumption.
  - rewrite Hid. reflexivity.
  - intros Hrep. destruct (status job =? COMPLETED) eqn:E.
    + now apply String.eqb_eq in E.
    + now contradiction Hrep.
  - intros Hmsg. destruct (status job =? FAILED) eqn:E.
    + now apply String.eqb_eq in E.
    + now contradiction Hmsg.
  - destruct (status job =? COMPLETED) eqn:E; [| now left].
    apply String.eqb_eq in E. rewrite E. right. reflexivity.
Qed.

Lemma status_200_only_for_owner_witness :
  let job := mkJob "job-1" "P1" "lab-A" "FAILED" (Some 0%Z) 1
                   (Js.Obj [("error", Js.Str "Model not loaded")]) 1 in
  exists (userId : string) (j : Job) (report : option Report)
         (message : option Js.Value),
    AuthUser "lab-A" = AuthUser userId
    /\ In j [job] /\ jobId j = "job-1" /\ job_labId j = userId
    /\ JobStatus "job-1" "FAILED" 0 None (Some (Js.Str "Model not loaded"))
       = JobStatus "job-1" (status j)
           (StatusRoute.progress_or_0 (progress j)) report message
    /\ (report <> None -> status j = "COMPLETED")
    /\ (message <> None -> status j = "FAILED")
    /\ (report = None \/ message = None).
Proof.
  cbv zeta.
  exact (status_200_only_for_owner (AuthUser "lab-A") "job-1"
    (mkStore [mkJob "job-1" "P1" "lab-A" "FAILED" (Some 0%Z) 1
                    (Js.Obj [("error", Js.Str "Model not loaded")]) 1] [])
    (JobStatus "job-1" "FAILED" 0 None (Some (Js.Str "Model not loaded")))
    eq_refl).
Defined.

(** X13. The report route hands out PDF bytes only to the owner of a stored,
    COMPLETED job with the asked id, and only the bytes the inference service
    returned with a success answer for that job's PDF address; the headers are
    then the PDF content type and the attachment name built from the id. *)
Theorem report_bytes_only_for_owner_of_completed :
  forall (env : ReportRoute.Env) (auth : Auth) (id : string) (db : Store)
         (bytes : list Byte.byte) (headers : list (string * string)),
    ReportRoute.GET env auth id db = Binary bytes headers ->
    exists (userId : string) (job : Job) (r : FetchResponse),
      auth = AuthUser userId
      /\ In job (jobs db) /\ jobId job = id /\ job_labId job = userId
      /\ status job = "COMPLETED"
      /\ ReportRoute.fetch env
           (ReportRoute.ML_BACKEND_URL env ++ "/api/reports/" ++ id ++ "/pdf")
         = Returns r
      /\ ok r = true
      /\ arrayBuffer r = Returns bytes
      /\ headers
         = [ ("Content-Type", "application/pdf");
             ("Content-Disposition",
              "attachment; filename=cytomind_report_" ++ id ++ ".pdf") ].
Proof.
  intros env auth id db bytes headers H. unfold ReportRoute.GET in H.
  destruct auth as [e | u]; [discriminate|].
  destruct (JobModel.findOne id u db) as [job|] eqn:Hfind; [| discriminate].
  destruct (findOne_Some id u db job Hfind) as (Hin & Hid & Hlab).
  destruct (status job =? COMPLETED) eqn:Hst; cbn [negb] in H; [| discriminate].
  apply String.eqb_eq in Hst.
  unfold ReportRoute.download, ReportRoute.pdf_url in H.
  destruct (ReportRoute.fetch env _) as [r | m] eqn:Hfetch; cbn [bind] in H;
    [| discriminate].
  destruct (ok r) eqn:Hok; cbn [negb] in H; [| discriminate].
  destruct (arrayBuffer r) as [buf | m] eqn:Hbuf; cbn [bind] in H; [| discriminate].
  rewrite new_NextResponse_pdf in H.
  destruct (ReportRoute.header_value_ok id); [| discriminate].
  inversion H; subst buf headers.
  exists u, job, r. repeat split; assumption.
Qed.

Lemma report_bytes_only_for_owner_of_completed_witness :
  let pdf := [Byte.x25; Byte.x50; Byte.x44; Byte.x46] in
  let env := ReportRoute.mkEnv None
               (fun _ => Returns (mkFetchResponse true (Throws "not JSON") (Returns pdf))) in
  let job := mkJob "job-1" "P1" "lab-A" "COMPLETED" (Some 100%Z) 1
                   (Js.Obj [("classification", Js.Str "MALIGNANT")]) 1 in
  exists (userId : string) (j : Job) (r : FetchResponse),
    AuthUser "lab-A" = AuthUser userId
    /\ In j [job] /\ jobId j = "job-1" /\ job_labId j = userId
    /\ status j = "COMPLETED"
    /\ ReportRoute.fetch env
         (ReportRoute.ML_BACKEND_URL env ++ "/api/reports/" ++ "job-1" ++ "/pdf")
       = Returns r
    /\ ok r = true
    /\ arrayBuffer r = Returns pdf
    /\ ReportRoute.pdf_headers "job-1"
       = [ ("Content-Type", "application/pdf");
           ("Content-Disposition",
            "attachment; filename=cytomind_report_" ++ "job-1" ++ ".pdf") ].
Proof.
  cbv zeta.
  exact (report_bytes_only_for_owner_of_completed
    (ReportRoute.mkEnv None
       (fun _ => Returns (mkFetchResponse true (Throws "not JSON")
                            (Returns [Byte.x25; Byte.x50; Byte.x44; Byte.x46]))))
    (AuthUser "lab-A") "job-1"
    (mkStore [mkJob "job-1" "P1" "lab-A" "COMPLETED" (Some 100%Z) 1
                    (Js.Obj [("classification", Js.Str "MALIGNANT")]) 1] [])
    [Byte.x25; Byte.x50; Byte.x44; Byte.x46]
    (ReportRoute.pdf_headers "job-1")
    eq_refl).
Defined.

(** X14. The report route asks the inference service only for a COMPLETED job
    of the caller, and only at that job's PDF address: when the caller owns no
    COMPLETED job with the asked id the answer is the same whatever the
    service and the configured address; otherwise two configurations with the
    same address whose services answer alike at that PDF address give the
    same answer. *)
Theorem report_route_fetches_only_for_completed :
  forall (env1 env2 : ReportRoute.Env) (auth : Auth) (id : string) (db : Store),
    ((forall userId job,
         auth = AuthUser userId ->
         JobModel.findOne id userId db = Some job ->
         status job <> "COMPLETED") ->
     ReportRoute.GET env1 auth id db = ReportRoute.GET env2 auth id db)
    /\ (ReportRoute.env_ML_BACKEND_URL env1 = ReportRoute.env_ML_BACKEND_URL env2 ->
        ReportRoute.fetch env1
          (ReportRoute.ML_BACKEND_URL env1 ++ "/api/reports/" ++ id ++ "/pdf")
        = ReportRoute.fetch env2
            (ReportRoute.ML_BACKEND_URL env1 ++ "/api/reports/" ++ id ++ "/pdf") ->
        ReportRoute.GET env1 auth id db = ReportRoute.GET env2 auth id db).
Proof.
  intros env1 env2 auth id db. split.
  - intros H. unfold ReportRoute.GET. destruct auth as [e | u]; [reflexivity|].
    destruct (JobModel.findOne id u db) as [job|] eqn:Hfind; [| reflexivity].
    specialize (H u job eq_refl Hfind). apply String.eqb_neq in H.
    unfold COMPLETED. now rewrite H.
  - intros Hurl Hfetch. unfold ReportRoute.GET, ReportRoute.download, ReportRoute.pdf_url.
    assert (Hbase : ReportRoute.ML_BACKEND_URL env2 = ReportRoute.ML_BACKEND_URL env1).
    { unfold ReportRoute.ML_BACKEND_URL. now rewrite Hurl. }
    rewrite Hbase, Hfetch. reflexivity.
Qed.

Lemma report_route_fetches_only_for_completed_witness :
  let env1 := ReportRoute.mkEnv None (fun _ => Throws "down") in
  let env2 := ReportRoute.mkEnv (Some "http://ml:9000")
                (fun _ => Returns (mkFetchResponse true (Throws "x") (Returns []))) in
  let job := mkJob "job-1" "P1" "lab-A" "PROCESSING" (Some 40%Z) 1 Js.Undefined 1 in
  ReportRoute.GET env1 (AuthUser "lab-A") "job-1" (mkStore [job] [])
  = ReportRoute.GET env2 (AuthUser "lab-A") "job-1" (mkStore [job] []).
Proof.
  cbv zeta.
  apply (proj1 (report_route_fetches_only_for_completed
    (ReportRoute.mkEnv None (fun _ => Throws "down"))
    (ReportRoute.mkEnv (Some "http://ml:9000")
       (fun _ => Returns (mkFetchResponse true (Throws "x") (Returns []))))
    (AuthUser "lab-A") "job-1"
    (mkStore [mkJob "job-1" "P1" "lab-A" "PROCESSING" (Some 40%Z) 1 Js.Undefined 1] []))).
  intros userId job Hauth Hfind. inversion Hauth; subst userId.
  vm_compute in Hfind. inversion Hfind. vm_compute. discriminate.
Defined.

(** ** API client *)
Section ApiFacts.

(** A call resolves with data only for an ok reply, and then with its body. *)
Lemma unwrap_Returns (fallback : string) (r : Api.ClientResponse) (d : Js.Value) :
  Api.unwrap fallback r = Returns d ->
  Api.resp_ok r = true /\ Api.resp_json r = Returns d.
Proof.
  unfold Api.unwrap. destruct (Api.resp_json r) as [data | m]; cbn [bind];
    [| discriminate].
  destruct (Api.resp_ok r); cbn [negb].
  - intros H. inversion H. auto.
  - destruct (Api.read_message data); cbn [bind]; discriminate.
Qed.

(** A reply that is not ok makes the call throw: the body's [message] when it
    is a non-empty string, the fallback when the body has none. *)
Lemma unwrap_not_ok (fallback : string) (r : Api.ClientResponse)
    (fields : list (string * Js.Value)) :
  Api.resp_ok r = false ->
  Api.resp_json r = Returns (Js.Obj fields) ->
  (forall m, Js.lookup "message" fields = Js.Str m -> m <> "" ->
             Api.unwrap fallback r = Throws m)
  /\ (Js.lookup "message" fields = Js.Undefined ->
      Api.unwrap fallback r = Throws fallback).
Proof.
  intros Hok Hjson. unfold Api.unwrap. rewrite Hjson, Hok.
  cbn [bind negb Api.read_message Js.get]. split.
  - intros m Hm Hne. rewrite Hm. unfold Js.or. cbn [Js.truthy].
    apply String.eqb_neq in Hne. now rewrite Hne.
  - intros Hm. rewrite Hm. reflexivity.
Qed.

End ApiFacts.

(** X15. [api.uploadImages] sends one request and resolves only with the body
    of an ok reply.  On a reply that is not ok it throws: the body's [message]
    when that is a non-empty string, "Upload failed" when the body has no
    [message]; an error thrown by [fetch] is passed on as it is. *)
Theorem uploadImages_outcomes :
  forall (W : Type) (env : Api.Env W) (files : list ImageUpload.File)
         (patientData : Api.PatientData) (w : W),
    let sent := Api.fetch env (Api.upload_request env files patientData) w in
    let out := Api.uploadImages env files patientData w in
    fst out = fst sent
    /\ (forall d, snd out = Returns d ->
          exists r, snd sent = Returns r
                    /\ Api.resp_ok r = true /\ Api.resp_json r = Returns d)
    /\ (forall r fields m,
          snd sent = Returns r -> Api.resp_ok r = false ->
          Api.resp_json r = Returns (Js.Obj fields) ->
          Js.lookup "message" fields = Js.Str m -> m <> "" ->
          snd out = Throws m)
    /\ (forall r fields,
          snd sent = Returns r -> Api.resp_ok r = false ->
          Api.resp_json r = Returns (Js.Obj fields) ->
          Js.lookup "message" fields = Js.Undefined ->
          snd out = Throws "Upload failed")
    /\ (forall m, snd sent = Throws m -> snd out = Throws m).
Proof.
  intros W env files patientData w sent out. unfold out, Api.uploadImages.
  fold sent. destruct sent as [w1 fetched]. cbn [fst snd]. repeat split.
  - intros d Hd. destruct fetched as [r | m]; cbn [bind] in Hd; [| discriminate].
    exists r. split; [reflexivity|]. now apply unwrap_Returns in Hd.
  - intros r fields m Hr Hok Hjson Hm Hne. subst fetched. cbn [bind].
    exact (proj1 (unwrap_not_ok "Upload failed" r fields Hok Hjson) m Hm Hne).
  - intros r fields Hr Hok Hjson Hm. subst fetched. cbn [bind].
    exact (proj2 (unwrap_not_ok "Upload failed" r fields Hok Hjson) Hm).
  - intros m Hm. now subst fetched.
Qed.

Lemma uploadImages_outcomes_witness :
  let reply := Api.mkClientResponse false
                 (Returns (Js.Obj [("message", Js.Str "Failed to start ML processing");
                                   ("error", Js.Str "Model not loaded")]))
                 (Returns []) in
  let env := Api.mkEnv (Some "t0k3n")
               (fun (_ : Api.Request) (n : nat) => (S n, Returns reply)) in
  let png := ImageUpload.mkFile "cell.png" "image/png" 2048 in
  let pd := Api.mkPatientData (Js.Str "P1") (Js.Str "Jane Doe") (Js.Num 34) in
  snd (Api.uploadImages env [png] pd 0) = Throws "Failed to start ML processing".
Proof.
  cbv zeta.
  refine (proj1 (proj2 (proj2 (uploadImages_outcomes nat
    (Api.mkEnv (Some "t0k3n")
       (fun (_ : Api.Request) (n : nat) =>
          (S n, Returns
             (Api.mkClientResponse false
                (Returns (Js.Obj [("message", Js.Str "Failed to start ML processing");
                                  ("error", Js.Str "Model not loaded")]))
                (Returns [])))))
    [ImageUpload.mkFile "cell.png" "image/png" 2048]
    (Api.mkPatientData (Js.Str "P1") (Js.Str "Jane Doe") (Js.Num 34)) 0)))
    (Api.mkClientResponse false
       (Returns (Js.Obj [("message", Js.Str "Failed to start ML processing");
                         ("error", Js.Str "Model not loaded")]))
       (Returns []))
    [("message", Js.Str "Failed to start ML processing");
     ("error", Js.Str "Model not loaded")]
    "Failed to start ML processing" eq_refl eq_refl eq_refl eq_refl _).
  discriminate.
Defined.

(** X16. The request [api.uploadImages] sends: a POST to /api/upload whose
    body holds the files under [images], in order, and [patientId], [name]
    and [age] as the strings the patient data print to; so a patient id that
    is missing (undefined) or null is sent as the text undefined or null.
    The Authorization header is always present and reads Bearer null when no
    token is stored. *)
Theorem upload_request_parts :
  forall (W : Type) (env : Api.Env W) (files : list ImageUpload.File)
         (patientData : Api.PatientData),
    let req := Api.upload_request env files patientData in
    Api.url req = "/api/upload"
    /\ Api.method req = "POST"
    /\ FormEntries.getAll "images" (Api.body req) = map Api.FilePart files
    /\ FormEntries.getAll "image" (Api.body req) = []
    /\ FormEntries.getAll "patientId" (Api.body req)
       = [Api.TextPart (Js.ToString (Api.pd_patientId patientData))]
    /\ FormEntries.getAll "name" (Api.body req)
       = [Api.TextPart (Js.ToString (Api.pd_name patientData))]
    /\ FormEntries.getAll "age" (Api.body req)
       = [Api.TextPart (Js.ToString (Api.pd_age patientData))]
    /\ (Api.pd_patientId patientData = Js.Undefined ->
        FormEntries.get "patientId" (Api.body req) = Some (Api.TextPart "undefined"))
    /\ (Api.pd_patientId patientData = Js.Null ->
        FormEntries.get "patientId" (Api.body req) = Some (Api.TextPart "null"))
    /\ (Api.token env = None -> Api.authorization req = Some "Bearer null")
    /\ (forall t, Api.token env = Some t ->
                  Api.authorization req = Some ("Bearer " ++ t)).
Proof.
  intros W env files patientData req. unfold req, Api.upload_request.
  cbn [Api.url Api.method Api.body Api.authorization].
  unfold FormEntries.get. rewrite !getAll_app.
  rewrite (getAll_same_key "images" Api.FilePart).
  rewrite !(getAll_other_key _ "images" Api.FilePart) by reflexivity.
  repeat split.
  - apply app_nil_r.
  - intros H. rewrite H. reflexivity.
  - intros H. rewrite H. reflexivity.
  - intros H. unfold Api.bearer. now rewrite H.
  - intros t H. unfold Api.bearer. now rewrite H.
Qed.

Lemma upload_request_parts_witness :
  let env := Api.mkEnv None (fun (_ : Api.Request) (u : unit) => (u, Throws "offline")) in
  let pd := Api.mkPatientData Js.Undefined (Js.Str "Jane Doe") (Js.Num 34) in
  let req := Api.upload_request env [ImageUpload.mkFile "cell.png" "image/png" 2048] pd in
  FormEntries.get "patientId" (Api.body req) = Some (Api.TextPart "undefined")
  /\ Api.authorization req = Some "Bearer null".
Proof.
  cbv zeta.
  pose proof (upload_request_parts unit
    (Api.mkEnv None (fun (_ : Api.Request) (u : unit) => (u, Throws "offline")))
    [ImageUpload.mkFile "cell.png" "image/png" 2048]
    (Api.mkPatientData Js.Undefined (Js.Str "Jane Doe") (Js.Num 34))) as H.
  cbv zeta in H.
  destruct H as (_ & _ & _ & _ & _ & _ & _ & Hundef & _ & Hnone & _).
  split; [exact (Hundef eq_refl) | exact (Hnone eq_refl)].
Defined.

(** X17. [api.getJobStatus] sends one GET to /api/jobs/{jobId}/status, with an
    Authorization header only when a non-empty token is stored, and resolves
    only with the body of an ok reply; on a reply that is not ok it throws the
    body's [message], or "API request failed" when the body has none. *)
Theorem getJobStatus_outcomes :
  forall (W : Type) (env : Api.Env W) (id : string) (w : W),
    let req :=
      Api.mkRequest ("/api/jobs/" ++ id ++ "/status") "GET"
        (match Api.token env with
         | Some t => if t =? "" then None else Some ("Bearer " ++ t)
         | None => None
         end)
        (Some "application/json") [] in
    let sent := Api.fetch env req w in
    let out := Api.getJobStatus env id w in
    fst out = fst sent
    /\ (forall d, snd out = Returns d ->
          exists r, snd sent = Returns r
                    /\ Api.resp_ok r = true /\ Api.resp_json r = Returns d)
    /\ (forall r fields m,
          snd sent = Returns r -> Api.resp_ok r = false ->
          Api.resp_json r = Returns (Js.Obj fields) ->
          Js.lookup "message" fields = Js.Str m -> m <> "" ->
          snd out = Throws m)
    /\ (forall r fields,
          snd sent = Returns r -> Api.resp_ok r = false ->
          Api.resp_json r = Returns (Js.Obj fields) ->
          Js.lookup "message" fields = Js.Undefined ->
          snd out = Throws "API request failed").
Proof.
  intros W env id w req sent out.
  assert (Hout : out = (fst sent,
                        response <- snd sent ;; Api.unwrap "API request failed" response)).
  { unfold out, Api.getJobStatus, Api.call, sent, req.
    assert (Hh : (if Js.truthy_str (Api.token env)
                  then Some (Api.bearer (Api.token env)) else None)
                 = match Api.token env with
                   | Some t => if t =? "" then None else Some ("Bearer " ++ t)
                   | None => None
                   end).
    { unfold Js.truthy_str, Api.bearer. destruct (Api.token env) as [t|];
        [destruct (t =? "")|]; reflexivity. }
    rewrite Hh. destruct (Api.fetch env _ w). reflexivity. }
  rewrite Hout. cbn [fst snd]. destruct sent as [w1 fetched]. cbn [fst snd].
  repeat split.
  - intros d Hd. destruct fetched as [r | m]; cbn [bind] in Hd; [| discriminate].
    exists r. split; [reflexivity|]. now apply unwrap_Returns in Hd.
  - intros r fields m Hr Hok Hjson Hm Hne. subst fetched. cbn [bind].
    exact (proj1 (unwrap_not_ok _ r fields Hok Hjson) m Hm Hne).
  - intros r fields Hr Hok Hjson Hm. subst fetched. cbn [bind].
    exact (proj2 (unwrap_not_ok _ r fields Hok Hjson) Hm).
Qed.

Lemma getJobStatus_outcomes_witness :
  let reply := Api.mkClientResponse false
                 (Returns (Js.Obj [("message", Js.Str "Job not found or access denied")]))
                 (Returns []) in
  let env := Api.mkEnv (Some "t0k3n")
               (fun (_ : Api.Request) (u : unit) => (u, Returns reply)) in
  snd (Api.getJobStatus env "job-1" tt) = Throws "Job not found or access denied".
Proof.
  cbv zeta.
  refine (proj1 (proj2 (proj2 (getJobStatus_outcomes unit
    (Api.mkEnv (Some "t0k3n")
       (fun (_ : Api.Request) (u : unit) =>
          (u, Returns
             (Api.mkClientResponse false
                (Returns (Js.Obj [("message", Js.Str "Job not found or access denied")]))
                (Returns [])))))
    "job-1" tt)))
    (Api.mkClientResponse false
       (Returns (Js.Obj [("message", Js.Str "Job not found or access denied")]))
       (Returns []))
    [("message", Js.Str "Job not found or access denied")]
    "Job not found or access denied" eq_refl eq_refl eq_refl eq_refl _).
  discriminate.
Defined.

(** ** The two buttons *)
Section Buttons.

Lemma or_str_nonempty (s : option string) (d : string) :
  d <> "" -> Js.or_str s d <> "".
Proof.
  intros Hd. destruct s as [x|]; cbn [Js.or_str]; [| assumption].
  destruct (x =? "") eqn:E; [assumption | now apply String.eqb_neq].
Qed.

End Buttons.

(** X18. [handleUpload] never changes the staged files.  With no staged file
    or no patient data it does not call the API: the world is untouched, the
    callback is not called, [uploading] stays as it was and the error asks for
    an image and patient data.  Otherwise it calls [uploadImages] once with
    the staged files, and ends in one of two ways: [uploading] is true, no
    error is shown and [onUploadComplete] got the result of the call; or
    [uploading] is false and a non-empty error is shown. *)
Theorem handleUpload_outcomes :
  forall (W : Type)
         (uploadImages : list ImageUpload.File -> Api.PatientData -> W -> W * Try Js.Value)
         (onUploadComplete : Js.Value -> Try unit)
         (patientData : option Api.PatientData) (v : UploadPanel.View) (w : W),
    let staged_files := ImageUpload.files (UploadPanel.staged v) in
    let out := UploadPanel.handleUpload uploadImages onUploadComplete patientData v w in
    let w' := fst (fst out) in
    let v' := snd (fst out) in
    ImageUpload.files (UploadPanel.staged v') = staged_files
    /\ (staged_files = [] \/ patientData = None ->
        w' = w /\ snd out = None
        /\ UploadPanel.uploading v' = UploadPanel.uploading v
        /\ ImageUpload.error (UploadPanel.staged v')
           = "Please select at least one image and enter patient data")
    /\ (forall pd,
          staged_files <> [] -> patientData = Some pd ->
          w' = fst (uploadImages staged_files pd w)
          /\ ((UploadPanel.uploading v' = true
               /\ ImageUpload.error (UploadPanel.staged v') = ""
               /\ exists result,
                    snd (uploadImages staged_files pd w) = Returns result
                    /\ snd out = Some result)
              \/ (UploadPanel.uploading v' = false
                  /\ ImageUpload.error (UploadPanel.staged v') <> ""))).
Proof.
  intros W uploadImages onUploadComplete patientData v w. cbv zeta.
  unfold UploadPanel.handleUpload.
  assert (Hfb : "Upload failed. Please try again." <> "") by discriminate.
  destruct patientData as [pd|]; [| cbn [fst snd]; split; [reflexivity|];
                                    split; [intros _; auto | intros pd _ H; discriminate]].
  destruct (ImageUpload.files (UploadPanel.staged v)) as [|f fs];
    cbn [length Nat.eqb].
  { cbn [fst snd]. split; [reflexivity|].
    split; [intros _; auto | intros pd' Hne; congruence]. }
  destruct (uploadImages (f :: fs) pd w) as [w1 uploaded] eqn:Hup.
  split.
  { destruct uploaded as [r | m]; [destruct (onUploadComplete r)|]; reflexivity. }
  split.
  { intros [H | H]; discriminate. }
  intros pd' _ Hpd. inversion Hpd; subst pd'. rewrite Hup. cbn [fst snd].
  destruct uploaded as [result | m].
  - destruct (onUploadComplete result) as [u | m]; cbn [fst snd].
    + split; [reflexivity|]. left. repeat split. now exists result.
    + split; [reflexivity|]. right. split; [reflexivity|].
      cbn [UploadPanel.staged ImageUpload.error]. now apply or_str_nonempty.
  - cbn [fst snd]. split; [reflexivity|]. right. split; [reflexivity|].
    cbn [UploadPanel.staged ImageUpload.error]. now apply or_str_nonempty.
Qed.

Lemma handleUpload_outcomes_witness :
  let png := ImageUpload.mkFile "cell.png" "image/png" 2048 in
  let v := UploadPanel.mkView (ImageUpload.mkState [png] "") false in
  let up := fun (_ : list ImageUpload.File) (_ : Api.PatientData) (n : nat) =>
              (S n, @Throws Js.Value "") in
  let pd := Api.mkPatientData (Js.Str "P1") (Js.Str "Jane Doe") (Js.Num 34) in
  let out := UploadPanel.handleUpload up (fun _ => Returns tt) (Some pd) v 0 in
  fst (fst out) = 1
  /\ snd (fst out)
     = UploadPanel.mkView (ImageUpload.mkState [png] "Upload failed. Please try again.")
         false.
Proof.
  cbv zeta. split; [| vm_compute; reflexivity].
  exact (proj1 (proj2 (proj2 (handleUpload_outcomes nat
    (fun _ _ n => (S n, @Throws Js.Value ""))
    (fun _ => Returns tt)
    (Some (Api.mkPatientData (Js.Str "P1") (Js.Str "Jane Doe") (Js.Num 34)))
    (UploadPanel.mkView
       (ImageUpload.mkState [ImageUpload.mkFile "cell.png" "image/png" 2048] "")
       false)
    0))
    (Api.mkPatientData (Js.Str "P1") (Js.Str "Jane Doe") (Js.Num 34))
    ltac:(discriminate) eq_refl)).
Defined.

(** X19. [handleDownload] over [api.downloadReport] sends one GET to
    /api/reports/{jobId} and always ends with [downloading] false.  It ends in
    one of two ways: the reply was ok and its blob is handed to the browser
    under the name cytomind_report_{jobId}.pdf, with no error shown; or
    nothing is downloaded and the error is the fixed text "Download failed.
    Please try again.", whatever the reply said. *)
Theorem handleDownload_outcomes :
  forall (W : Type) (env : Api.Env W) (id : string) (st : ReportViewer.State) (w : W),
    let req :=
      Api.mkRequest ("/api/reports/" ++ id) "GET"
        (Some (Api.bearer (Api.token env))) None [] in
    let sent := Api.fetch env req w in
    let out := ReportViewer.handleDownload (Api.downloadReport env) id st w in
    fst (fst out) = fst sent
    /\ ReportViewer.downloading (snd (fst out)) = false
    /\ ((exists r blob,
           snd sent = Returns r /\ Api.resp_ok r = true
           /\ Api.resp_blob r = Returns blob
           /\ snd out
              = Some (Api.mkDownload blob ("cytomind_report_" ++ id ++ ".pdf"))
           /\ ReportViewer.error (snd (fst out)) = "")
        \/ (snd out = None
            /\ (forall r, snd sent = Returns r ->
                  Api.resp_ok r = false \/ exists m, Api.resp_blob r = Throws m)
            /\ ReportViewer.error (snd (fst out))
               = "Download failed. Please try again.")).
Proof.
  intros W env id st w req sent out.
  unfold out, ReportViewer.handleDownload, Api.downloadReport. fold req. fold sent.
  destruct sent as [w1 fetched]. cbn [fst snd].
  destruct fetched as [r | m]; cbn [bind].
  - destruct (Api.resp_ok r) eqn:Hok; cbn [negb].
    + destruct (Api.resp_blob r) as [blob | m] eqn:Hblob; cbn [bind fst snd].
      * repeat split. left. exists r, blob. repeat split; assumption.
      * repeat split. right. repeat split.
        intros r' Hr'. inversion Hr'; subst r'. right. now exists m.
    + cbn [fst snd]. repeat split. right. repeat split.
      intros r' Hr'. inversion Hr'; subst r'. now left.
  - cbn [fst snd]. repeat split. right. repeat split. intros r Hr. discriminate.
Qed.

Lemma handleDownload_outcomes_witness :
  let pdf := [Byte.x25; Byte.x50; Byte.x44; Byte.x46] in
  let env := Api.mkEnv (Some "t0k3n")
               (fun (_ : Api.Request) (u : unit) =>
                  (u, Returns (Api.mkClientResponse false
                                 (Returns (Js.Obj [("message", Js.Str "Report not ready yet")]))
                                 (Returns pdf)))) in
  ReportViewer.handleDownload (Api.downloadReport env) "job-1"
    (ReportViewer.mkState false "") tt
  = (tt, ReportViewer.mkState false "Download failed. Please try again.", None).
Proof.
  cbv zeta.
  pose proof (handleDownload_outcomes unit
    (Api.mkEnv (Some "t0k3n")
       (fun (_ : Api.Request) (u : unit) =>
          (u, Returns (Api.mkClientResponse false
                         (Returns (Js.Obj [("message", Js.Str "Report not ready yet")]))
                         (Returns [Byte.x25; Byte.x50; Byte.x44; Byte.x46])))))
    "job-1" (ReportViewer.mkState false "") tt) as H.
  cbv zeta in H. destruct H as (Hw & Hd & [(r & blob & Hr & Hok & _) | (Hn & _ & He)]).
  - exfalso. cbn in Hr. inversion Hr; subst r. discriminate.
  - destruct (ReportViewer.handleDownload _ _ _ _) as [[[] st'] d].
    cbn [fst snd] in *. subst d. destruct st' as [dl err].
    cbn [ReportViewer.downloading ReportViewer.error] in *. now subst.
Defined.

(** ** The client in front of the routes *)
Section SiteFacts.

Variable verifyToken : option string -> Auth.
Variable content : ImageUpload.File -> list Byte.byte.
Variable toISOString : Z -> string.
Variable encode : Js.Value -> list Byte.byte.
Variable decode : list Byte.byte -> Try Js.Value.

(** The encoding keeps an empty text empty and a non-empty one non-empty. *)
Lemma crlf_nonempty (s : string) : s <> "" -> Site.crlf s <> "".
Proof.
  destruct s as [|c rest]; [congruence|]. intros _. cbn [Site.crlf].
  destruct (c =? "013")%char.
  - destruct rest as [|c' rest']; [discriminate|].
    destruct (c' =? "010")%char; discriminate.
  - destruct (c =? "010")%char; discriminate.
Qed.

(** A text without CR and LF is sent as it is. *)
Lemma crlf_plain (s : string) :
  (forall c, In c (list_ascii_of_string s) -> c <> "010"%char /\ c <> "013"%char) ->
  Site.crlf s = s.
Proof.
  induction s as [|c rest IH]; intros H; [reflexivity|].
  destruct (H c (or_introl eq_refl)) as [Hlf Hcr].
  apply Ascii.eqb_neq in Hlf, Hcr.
  assert (Hrest : Site.crlf rest = rest).
  { apply IH. intros x Hx. apply H. now right. }
  cbn [Site.crlf]. rewrite Hcr, Hlf. now rewrite Hrest.
Qed.

Lemma upload_form_request {W : Type} (env : Api.Env W)
    (files : list ImageUpload.File) (pd : Api.PatientData) :
  Site.upload_form content (Api.body (Api.upload_request env files pd))
  = Site.submitted_form content files pd.
Proof.
  unfold Site.upload_form, Site.submitted_form, FormEntries.get, Api.upload_request.
  cbn [Api.body]. rewrite !getAll_app.
  rewrite (getAll_same_key "images" Api.FilePart).
  rewrite !(getAll_other_key _ "images" Api.FilePart) by reflexivity.
  cbn [FormEntries.getAll filter map fst snd app hd_error option_map Site.text_of].
  rewrite app_nil_r, map_map. reflexivity.
Qed.

Lemma allImages_submitted (files : list ImageUpload.File) (pd : Api.PatientData) :
  UploadRoute.allImages (Site.submitted_form content files pd)
  = map (fun f => Site.entry_of content (Api.FilePart f)) files.
Proof.
  unfold UploadRoute.allImages, Site.submitted_form.
  cbn [UploadRoute.form_images UploadRoute.form_image].
  destruct files; reflexivity.
Qed.

(** Pressing the button with files staged and patient data present: one
    request reaches the upload route, and the view follows its answer. *)
Lemma submit_passes_guard (srv : UploadRoute.Env) (token : option string)
    (onUploadComplete : Js.Value -> Try unit) (pd : Api.PatientData)
    (v : UploadPanel.View) (db : Store) :
  ImageUpload.files (UploadPanel.staged v) <> [] ->
  let files := ImageUpload.files (UploadPanel.staged v) in
  let out := UploadRoute.POST srv (verifyToken (Some (Api.bearer token)))
               (Site.submitted_form content files pd) db in
  Site.submit verifyToken content toISOString encode decode srv token
    onUploadComplete (Some pd) v db
  = match Api.unwrap "Upload failed"
            (Site.reply_of toISOString encode decode (snd out)) with
    | Returns result =>
        match onUploadComplete result with
        | Returns _ =>
            (fst out, UploadPanel.mkView (ImageUpload.mkState files "") true,
             Some result)
        | Throws message =>
            (fst out,
             UploadPanel.mkView
               (ImageUpload.mkState files
                  (Js.or_str (Some message) "Upload failed. Please try again."))
               false, Some result)
        end
    | Throws message =>
        (fst out,
         UploadPanel.mkView
           (ImageUpload.mkState files
              (Js.or_str (Some message) "Upload failed. Please try again."))
           false, None)
    end.
Proof.
  intros Hne. cbv zeta.
  unfold Site.submit, UploadPanel.handleUpload, Api.uploadImages, Site.fetch_upload.
  cbn [Api.fetch Api.token].
  destruct (ImageUpload.files (UploadPanel.staged v)) as [|f fs] eqn:Hf;
    [congruence|].
  cbn [length Nat.eqb].
  rewrite upload_form_request.
  cbn [Api.authorization Api.upload_request Api.token bind].
  destruct (Api.unwrap _ _) as [result | m]; [| reflexivity].
  destruct (onUploadComplete result); reflexivity.
Qed.

(** What the client makes of an error answer carrying a message. *)
Lemma unwrap_error_reply (fallback : string) (s : nat) (b : Body) (m : string) :
  ((200 <=? s)%nat && (s <=? 299)%nat) = false ->
  body_message b = Js.Str m ->
  (exists e, b = Message m \/ b = UploadError m e) ->
  m <> "" ->
  Api.unwrap fallback (Site.reply_of toISOString encode decode (Json s b))
  = Throws m.
Proof.
  intros Hs Hm [e Hb] Hne. unfold Api.unwrap, Site.reply_of.
  cbn [Api.resp_json Api.resp_ok bind]. rewrite Hs. cbn [negb].
  apply String.eqb_neq in Hne.
  destruct Hb as [Hb | Hb]; subst b;
    cbn [Site.json_of_body Api.read_message Js.get Js.lookup bind];
    rewrite String.eqb_refl; unfold Js.or; cbn [Js.truthy];
    rewrite Hne; reflexivity.
Qed.

End SiteFacts.

(** X20. End to end, a failed forward call shows the fixed message: with files
    staged, patient data whose id prints to a non-empty string and a token the
    server accepts, if the inference service never answers with a success then
    pressing the upload button stores one more job, calls no completion
    callback, and leaves the view with [uploading] false and the error
    "Failed to start ML processing" (the upstream detail is not shown). *)
Theorem submit_forward_failure_shows_fixed_message :
  forall (verifyToken : option string -> Auth)
         (content : ImageUpload.File -> list Byte.byte)
         (toISOString : Z -> string)
         (encode : Js.Value -> list Byte.byte)
         (decode : list Byte.byte -> Try Js.Value)
         (srv : UploadRoute.Env) (token : option string)
         (onUploadComplete : Js.Value -> Try unit) (pd : Api.PatientData)
         (v : UploadPanel.View) (db : Store) (userId : string),
    ImageUpload.files (UploadPanel.staged v) <> [] ->
    verifyToken (Some (Api.bearer token)) = AuthUser userId ->
    Js.ToString (Api.pd_patientId pd) <> "" ->
    (forall url payload r,
        UploadRoute.fetch srv url payload = Returns r -> ok r = false) ->
    let out := Site.submit verifyToken content toISOString encode decode srv token
                 onUploadComplete (Some pd) v db in
    snd (fst out)
    = UploadPanel.mkView
        (ImageUpload.mkState (ImageUpload.files (UploadPanel.staged v))
           "Failed to start ML processing")
        false
    /\ snd out = None
    /\ length (jobs (fst (fst out))) = S (length (jobs db)).
Proof.
  intros verifyToken content toISOString encode decode srv token cb pd v db u
         Hfiles Hauth Hpid Hfail.
  cbv zeta.
  rewrite (submit_passes_guard verifyToken content toISOString encode decode
             srv token cb pd v db Hfiles).
  cbv zeta. rewrite Hauth.
  set (form := Site.submitted_form content (ImageUpload.files (UploadPanel.staged v)) pd).
  assert (Himg : UploadRoute.allImages form <> []).
  { unfold form. rewrite allImages_submitted.
    destruct (ImageUpload.files (UploadPanel.staged v)); [congruence | discriminate]. }
  rewrite (POST_valid srv u form db _ Himg eq_refl (crlf_nonempty _ Hpid)). cbv zeta.
  destruct (forward_throws srv (UploadRoute.allImages form)
              (UploadRoute.randomUUID srv)
              (Site.crlf (Js.ToString (Api.pd_patientId pd)))
              (UploadRoute.form_name form) (UploadRoute.form_age form) u
              (fun r Hr => Hfail _ _ r Hr)) as [m Hthrow].
  rewrite Hthrow. cbn [fst snd].
  rewrite (unwrap_error_reply toISOString encode decode "Upload failed" 500
             (UploadError "Failed to start ML processing" m)
             "Failed to start ML processing" eq_refl eq_refl
             (ex_intro _ m (or_intror eq_refl)) ltac:(discriminate)).
  cbn [fst snd]. repeat split.
  unfold JobModel.findOneAndUpdate, UploadRoute.persist, JobModel.create.
  cbn [jobs PatientModel.findOneAndUpdate].
  rewrite update_first_length, length_app. cbn [length]. lia.
Qed.

Lemma submit_forward_failure_shows_fixed_message_witness :
  let verifyToken := fun h : option string =>
    match h with
    | Some "Bearer t0k3n" => AuthUser "lab-A"
    | _ => AuthError "Invalid token"
    end in
  let srv := UploadRoute.mkEnv None "job-1" 5
    (fun _ _ => Returns (mkFetchResponse false
                           (Returns (Js.Obj [("detail", Js.Str "Model not loaded")]))
                           (Returns []))) in
  let png := ImageUpload.mkFile "cell.png" "image/png" 2048 in
  let v := UploadPanel.mkView (ImageUpload.mkState [png] "") false in
  let pd := Api.mkPatientData (Js.Str "P1") (Js.Str "Jane Doe") (Js.Num 34) in
  let out := Site.submit verifyToken (fun _ => []) (fun _ => "") (fun _ => [])
               (fun _ => Throws "not JSON") srv (Some "t0k3n")
               (fun _ => Returns tt) (Some pd) v (mkStore [] []) in
  snd (fst out)
  = UploadPanel.mkView (ImageUpload.mkState [png] "Failed to start ML processing") false
  /\ snd out = None
  /\ length (jobs (fst (fst out))) = 1.
Proof.
  cbv zeta.
  apply (submit_forward_failure_shows_fixed_message
    (fun h : option string =>
       match h with
       | Some "Bearer t0k3n" => AuthUser "lab-A"
       | _ => AuthError "Invalid token"
       end)
    (fun _ => []) (fun _ => "") (fun _ => []) (fun _ => Throws "not JSON")
    (UploadRoute.mkEnv None "job-1" 5
       (fun _ _ => Returns (mkFetchResponse false
                              (Returns (Js.Obj [("detail", Js.Str "Model not loaded")]))
                              (Returns []))))
    (Some "t0k3n") (fun _ => Returns tt)
    (Api.mkPatientData (Js.Str "P1") (Js.Str "Jane Doe") (Js.Num 34))
    (UploadPanel.mkView
       (ImageUpload.mkState [ImageUpload.mkFile "cell.png" "image/png" 2048] "")
       false)
    (mkStore [] []) "lab-A").
  - discriminate.
  - reflexivity.
  - discriminate.
  - intros url payload r Hr. inversion Hr. reflexivity.
Defined.

(** X21. End to end, the guards of the upload route reach the user in their
    own words and nothing is stored: with files staged and patient data
    present, when the server rejects the token the error shown is the
    server's reason, and when the patient id prints to the empty string the
    error shown is "At least one image and patient ID are required"; in both
    cases the store is as before, [uploading] is false and the completion
    callback is not called. *)
Theorem submit_guard_message_reaches_user :
  forall (verifyToken : option string -> Auth)
         (content : ImageUpload.File -> list Byte.byte)
         (toISOString : Z -> string)
         (encode : Js.Value -> list Byte.byte)
         (decode : list Byte.byte -> Try Js.Value)
         (srv : UploadRoute.Env) (token : option string)
         (onUploadComplete : Js.Value -> Try unit) (pd : Api.PatientData)
         (v : UploadPanel.View) (db : Store),
    ImageUpload.files (UploadPanel.staged v) <> [] ->
    let files := ImageUpload.files (UploadPanel.staged v) in
    let out := Site.submit verifyToken content toISOString encode decode srv token
                 onUploadComplete (Some pd) v db in
    (forall reason,
        verifyToken (Some (Api.bearer token)) = AuthError reason ->
        reason <> "" ->
        out = (db, UploadPanel.mkView (ImageUpload.mkState files reason) false, None))
    /\ (forall userId,
          verifyToken (Some (Api.bearer token)) = AuthUser userId ->
          Js.ToString (Api.pd_patientId pd) = "" ->
          out = (db,
                 UploadPanel.mkView
                   (ImageUpload.mkState files
                      "At least one image and patient ID are required")
                   false,
                 None)).
Proof.
  intros verifyToken content toISOString encode decode srv token cb pd v db Hfiles.
  cbv zeta.
  rewrite (submit_passes_guard verifyToken content toISOString encode decode
             srv token cb pd v db Hfiles).
  cbv zeta. split.
  - intros reason Hauth Hne. rewrite Hauth. cbn [UploadRoute.POST fst snd].
    rewrite (unwrap_error_reply toISOString encode decode "Upload failed" 401
               (Message reason) reason eq_refl eq_refl
               (ex_intro _ "" (or_introl eq_refl)) Hne).
    cbn [Js.or_str]. apply String.eqb_neq in Hne. now rewrite Hne.
  - intros u Hauth Hpid. rewrite Hauth.
    assert (Hinv : UploadRoute.invalid
                     (Site.submitted_form content
                        (ImageUpload.files (UploadPanel.staged v)) pd) = true).
    { unfold UploadRoute.invalid, Site.submitted_form.
      cbn [UploadRoute.form_patientId Js.truthy_str]. rewrite Hpid.
      apply orb_true_r. }
    unfold UploadRoute.POST. rewrite Hinv. cbn [fst snd].
    rewrite (unwrap_error_reply toISOString encode decode "Upload failed" 400
               (Message "At least one image and patient ID are required")
               "At least one image and patient ID are required" eq_refl eq_refl
               (ex_intro _ "" (or_introl eq_refl)) ltac:(discriminate)).
    reflexivity.
Qed.

Lemma submit_guard_message_reaches_user_witness :
  let verifyToken := fun _ : option string => AuthError "Invalid token" in
  let srv := UploadRoute.mkEnv None "job-1" 5 (fun _ _ => Throws "unused") in
  let png := ImageUpload.mkFile "cell.png" "image/png" 2048 in
  let v := UploadPanel.mkView (ImageUpload.mkState [png] "") false in
  let pd := Api.mkPatientData (Js.Str "P1") (Js.Str "Jane Doe") (Js.Num 34) in
  Site.submit verifyToken (fun _ => []) (fun _ => "") (fun _ => [])
    (fun _ => Throws "not JSON") srv None (fun _ => Returns tt) (Some pd) v
    (mkStore [] [])
  = (mkStore [] [],
     UploadPanel.mkView (ImageUpload.mkState [png] "Invalid token") false, None).
Proof.
  cbv zeta.
  apply (proj1 (submit_guard_message_reaches_user
    (fun _ : option string => AuthError "Invalid token")
    (fun _ => []) (fun _ => "") (fun _ => []) (fun _ => Throws "not JSON")
    (UploadRoute.mkEnv None "job-1" 5 (fun _ _ => Throws "unused"))
    None (fun _ => Returns tt)
    (Api.mkPatientData (Js.Str "P1") (Js.Str "Jane Doe") (Js.Num 34))
    (UploadPanel.mkView
       (ImageUpload.mkState [ImageUpload.mkFile "cell.png" "image/png" 2048] "")
       false)
    (mkStore [] []) ltac:(discriminate))).
  - reflexivity.
  - discriminate.
Defined.

(** X22. End to end, an accepted upload: with files staged, a token the server
    accepts, patient data whose id prints to a non-empty string, an inference
    service that answers with a success and a completion callback that
    returns, pressing the upload button stores the patient under the printed
    id as the multipart body carries it (line breaks sent as CR LF, so an id
    without line breaks is stored as printed; the text undefined for a missing
    id), with the name and age carried the same way, and one PENDING job whose
    totalImages is the number of staged files; it hands the callback the job
    id, PENDING and that number, and leaves the view with [uploading] true and
    no error. *)
Theorem submit_accepted_end_to_end :
  forall (verifyToken : option string -> Auth)
         (content : ImageUpload.File -> list Byte.byte)
         (toISOString : Z -> string)
         (encode : Js.Value -> list Byte.byte)
         (decode : list Byte.byte -> Try Js.Value)
         (srv : UploadRoute.Env) (token : option string)
         (onUploadComplete : Js.Value -> Try unit) (pd : Api.PatientData)
         (v : UploadPanel.View) (db : Store) (userId : string),
    ImageUpload.files (UploadPanel.staged v) <> [] ->
    verifyToken (Some (Api.bearer token)) = AuthUser userId ->
    Js.ToString (Api.pd_patientId pd) <> "" ->
    (forall url payload,
        exists r, UploadRoute.fetch srv url payload = Returns r /\ ok r = true) ->
    (forall result, onUploadComplete result = Returns tt) ->
    let files := ImageUpload.files (UploadPanel.staged v) in
    let pid := Site.crlf (Js.ToString (Api.pd_patientId pd)) in
    Site.submit verifyToken content toISOString encode decode srv token
      onUploadComplete (Some pd) v db
    = (mkStore
         (jobs db ++ [mkJob (UploadRoute.randomUUID srv) pid userId "PENDING"
                            (Some 0%Z) (length files) Js.Undefined
                            (UploadRoute.now srv)])
         (PatientModel.upsert
            (mkPatient pid (Some (Site.crlf (Js.ToString (Api.pd_name pd))))
                       (Some (Site.crlf (Js.ToString (Api.pd_age pd)))) userId)
            (patients db)),
       UploadPanel.mkView (ImageUpload.mkState files "") true,
       Some (Js.Obj [ ("jobId", Js.Str (UploadRoute.randomUUID srv));
                      ("status", Js.Str "PENDING");
                      ("totalImages", Js.Num (Z.of_nat (length files)));
                      ("message",
                       Js.Str (Js.string_of_nat (length files)
                               ++ " image(s) uploaded, ML processing started")) ]))
    /\ ((forall c,
           In c (list_ascii_of_string (Js.ToString (Api.pd_patientId pd))) ->
           c <> "010"%char /\ c <> "013"%char) ->
        pid = Js.ToString (Api.pd_patientId pd)).
Proof.
  intros verifyToken content toISOString encode decode srv token cb pd v db u
         Hfiles Hauth Hpid Hacc Hcb.
  cbv zeta. split; [| apply crlf_plain].
  rewrite (submit_passes_guard verifyToken content toISOString encode decode
             srv token cb pd v db Hfiles).
  cbv zeta. rewrite Hauth.
  set (files := ImageUpload.files (UploadPanel.staged v)) in *.
  set (form := Site.submitted_form content files pd).
  assert (Hall : UploadRoute.allImages form
                 = map (fun f => Site.entry_of content (Api.FilePart f)) files).
  { apply allImages_submitted. }
  assert (Himg : UploadRoute.allImages form <> []).
  { rewrite Hall. destruct files; [congruence | discriminate]. }
  rewrite (POST_valid srv u form db _ Himg eq_refl (crlf_nonempty _ Hpid)).
  cbv zeta. unfold UploadRoute.forward.
  destruct (Hacc (UploadRoute.ML_BACKEND_URL srv ++ "/api/analyze")
              (UploadRoute.mlFormData (UploadRoute.allImages form)
                 (UploadRoute.randomUUID srv)
                 (Site.crlf (Js.ToString (Api.pd_patientId pd)))
                 (UploadRoute.form_name form) (UploadRoute.form_age form) u))
    as (r & Hr & Hok).
  rewrite Hr. cbn [bind]. rewrite Hok. cbn [negb fst snd].
  unfold Api.unwrap, Site.reply_of.
  cbn [Api.resp_json Api.resp_ok bind Nat.leb andb negb Site.json_of_body].
  rewrite Hcb. rewrite Hall, !length_map.
  unfold UploadRoute.persist, JobModel.create, PatientModel.findOneAndUpdate.
  cbn [jobs patients]. rewrite ?length_map. reflexivity.
Qed.

Lemma submit_accepted_end_to_end_witness :
  let verifyToken := fun _ : option string => AuthUser "lab-A" in
  let srv := UploadRoute.mkEnv None "job-1" 5
    (fun _ _ => Returns (mkFetchResponse true (Returns Js.Null) (Returns []))) in
  let png := ImageUpload.mkFile "cell.png" "image/png" 2048 in
  let v := UploadPanel.mkView (ImageUpload.mkState [png; png] "") false in
  let pd := Api.mkPatientData Js.Undefined
              (Js.Str (String "J" (String "010" "D"))) (Js.Num 34) in
  fst (fst (Site.submit verifyToken (fun _ => []) (fun _ => "") (fun _ => [])
              (fun _ => Throws "not JSON") srv (Some "t0k3n")
              (fun _ => Returns tt) (Some pd) v (mkStore [] [])))
  = mkStore [mkJob "job-1" "undefined" "lab-A" "PENDING" (Some 0%Z) 2 Js.Undefined 5]
            [mkPatient "undefined"
               (Some (String "J" (String "013" (String "010" "D"))))
               (Some "34") "lab-A"].
Proof.
  cbv zeta.
  rewrite (proj1 (submit_accepted_end_to_end
    (fun _ : option string => AuthUser "lab-A")
    (fun _ => []) (fun _ => "") (fun _ => []) (fun _ => Throws "not JSON")
    (UploadRoute.mkEnv None "job-1" 5
       (fun _ _ => Returns (mkFetchResponse true (Returns Js.Null) (Returns []))))
    (Some "t0k3n") (fun _ => Returns tt)
    (Api.mkPatientData Js.Undefined
       (Js.Str (String "J" (String "010" "D"))) (Js.Num 34))
    (UploadPanel.mkView
       (ImageUpload.mkState [ImageUpload.mkFile "cell.png" "image/png" 2048;
                             ImageUpload.mkFile "cell.png" "image/png" 2048] "")
       false)
    (mkStore [] []) "lab-A"
    ltac:(discriminate) eq_refl ltac:(discriminate)
    (fun _ _ => ex_intro _ _ (conj eq_refl eq_refl))
    (fun _ => eq_refl))).
  reflexivity.
Defined.

(** X23. End to end, the download button: the store is never changed and
    [downloading] ends false.  When the report route answers with the PDF the
    browser gets exactly those bytes under the name
    cytomind_report_{jobId}.pdf and no error is shown; when it answers with
    any JSON body (token rejected, job unknown or not the caller's, report not
    ready, inference service failing) nothing is downloaded and the error
    shown is the fixed "Download failed. Please try again.", not the route's
    message. *)
Theorem download_end_to_end :
  forall (verifyToken : option string -> Auth)
         (toISOString : Z -> string)
         (encode : Js.Value -> list Byte.byte)
         (decode : list Byte.byte -> Try Js.Value)
         (srv : ReportRoute.Env) (token : option string) (id : string)
         (st : ReportViewer.State) (db : Store),
    let answer :=
      ReportRoute.GET srv (verifyToken (Some (Api.bearer token))) id db in
    let out := Site.download verifyToken toISOString encode decode srv token id st db in
    (forall bytes headers,
        answer = Binary bytes headers ->
        out = (db, ReportViewer.mkState false "",
               Some (Api.mkDownload bytes ("cytomind_report_" ++ id ++ ".pdf"))))
    /\ (forall s body,
          answer = Json s body ->
          out = (db,
                 ReportViewer.mkState false "Download failed. Please try again.",
                 None)).
Proof.
  intros verifyToken toISOString encode decode srv token id st db. cbv zeta.
  unfold Site.download, ReportViewer.handleDownload, Api.downloadReport,
    Site.fetch_report.
  cbn [Api.fetch Api.token Api.authorization bind]. split.
  - intros bytes headers H. rewrite H. reflexivity.
  - intros s body H.
    destruct (ReportRoute_json_is_error srv _ id db s body H) as [Hs _].
    rewrite H. unfold Site.reply_of. cbn [Api.resp_ok].
    destruct Hs as [Hs | [Hs | [Hs | Hs]]]; subst s; reflexivity.
Qed.

Lemma download_end_to_end_witness :
  let verifyToken := fun _ : option string => AuthUser "lab-A" in
  let srv := ReportRoute.mkEnv None (fun _ => Throws "unused") in
  let job := mkJob "job-1" "P1" "lab-A" "PROCESSING" (Some 40%Z) 1 Js.Undefined 1 in
  Site.download verifyToken (fun _ => "") (fun _ => []) (fun _ => Throws "not JSON")
    srv (Some "t0k3n") "job-1" (ReportViewer.mkState false "") (mkStore [job] [])
  = (mkStore [job] [],
     ReportViewer.mkState false "Download failed. Please try again.", None).
Proof.
  cbv zeta.
  apply (proj2 (download_end_to_end
    (fun _ : option string => AuthUser "lab-A")
    (fun _ => "") (fun _ => []) (fun _ => Throws "not JSON")
    (ReportRoute.mkEnv None (fun _ => Throws "unused"))
    (Some "t0k3n") "job-1" (ReportViewer.mkState false "")
    (mkStore [mkJob "job-1" "P1" "lab-A" "PROCESSING" (Some 40%Z) 1 Js.Undefined 1] []))
    400 (Message "Report not ready yet")).
  vm_compute. reflexivity.
Defined.

(** X24. End to end, one status poll leaves the store as it is.  For a caller
    the server authenticates: when the store holds no job with the asked id
    owned by the caller the client call throws "Job not found or access
    denied"; when it holds one, the call resolves with a body whose [jobId],
    [status] and [progress] are the asked id and that job's status and
    progress. *)
Theorem poll_end_to_end :
  forall (verifyToken : option string -> Auth)
         (toISOString : Z -> string)
         (encode : Js.Value -> list Byte.byte)
         (decode : list Byte.byte -> Try Js.Value)
         (token : option string) (id : string) (db : Store) (userId : string),
    verifyToken (if Js.truthy_str token then Some (Api.bearer token) else None)
    = AuthUser userId ->
    let out := Site.poll verifyToken toISOString encode decode token id db in
    fst out = db
    /\ (JobModel.findOne id userId db = None ->
        snd out = Throws "Job not found or access denied")
    /\ (forall job,
          JobModel.findOne id userId db = Some job ->
          exists data,
            snd out = Returns data
            /\ Js.get data "jobId" = Js.Str id
            /\ Js.get data "status" = Js.Str (status job)
            /\ Js.get data "progress"
               = Js.Num (StatusRoute.progress_or_0 (progress job))).
Proof.
  intros verifyToken toISOString encode decode token id db u Hauth. cbv zeta.
  unfold Site.poll, Api.getJobStatus, Api.call, Site.fetch_status.
  cbn [Api.fetch Api.token Api.authorization bind fst snd]. rewrite Hauth.
  split; [reflexivity|]. unfold StatusRoute.GET. split.
  - intros Hnone. rewrite Hnone.
    exact (unwrap_error_reply toISOString encode decode "API request failed" 404
             (Message "Job not found or access denied")
             "Job not found or access denied" eq_refl eq_refl
             (ex_intro _ "" (or_introl eq_refl)) ltac:(discriminate)).
  - intros job Hfind. rewrite Hfind.
    destruct (findOne_Some id u db job Hfind) as (_ & Hid & _).
    eexists. split; [reflexivity|]. rewrite Hid.
    cbn [Site.json_of_body Js.get app Js.lookup].
    repeat split.
Qed.

Lemma poll_end_to_end_witness :
  let verifyToken := fun h : option string =>
    match h with
    | Some "Bearer t0k3n" => AuthUser "lab-A"
    | _ => AuthError "Invalid token"
    end in
  let job := mkJob "job-1" "P1" "lab-B" "COMPLETED" (Some 100%Z) 1
                   (Js.Obj [("classification", Js.Str "MALIGNANT")]) 1 in
  snd (Site.poll verifyToken (fun _ => "") (fun _ => []) (fun _ => Throws "not JSON")
         (Some "t0k3n") "job-1" (mkStore [job] []))
  = Throws "Job not found or access denied".
Proof.
  cbv zeta.
  apply (proj1 (proj2 (poll_end_to_end
    (fun h : option string =>
       match h with
       | Some "Bearer t0k3n" => AuthUser "lab-A"
       | _ => AuthError "Invalid token"
       end)
    (fun _ => "") (fun _ => []) (fun _ => Throws "not JSON")
    (Some "t0k3n") "job-1"
    (mkStore [mkJob "job-1" "P1" "lab-B" "COMPLETED" (Some 100%Z) 1
                    (Js.Obj [("classification", Js.Str "MALIGNANT")]) 1] [])
    "lab-A" eq_refl))).
  vm_compute. reflexivity.
Defined.

(** X25. Whatever selections, removals and clears led to the staged list,
    every file [api.uploadImages] puts under [images] for it has an allowed
    MIME type and a size of at most 50 MiB, and the number of files sent is
    the number staged. *)
Theorem staged_files_sent_passed_validation :
  forall (W : Type) (env : Api.Env W) (es : list ImageUpload.Event)
         (pd : Api.PatientData),
    let sent :=
      FormEntries.getAll "images"
        (Api.body (Api.upload_request env (ImageUpload.files (ImageUpload.run es)) pd)) in
    length sent = length (ImageUpload.files (ImageUpload.run es))
    /\ forall part, In part sent ->
         exists f, part = Api.FilePart f
                   /\ In (ImageUpload.file_type f)
                         ["image/jpeg"; "image/jpg"; "image/png"; "image/tiff"]
                   /\ (ImageUpload.file_size f <= 52428800)%N.
Proof.
  intros W env es pd. cbv zeta.
  unfold Api.upload_request. cbn [Api.body]. rewrite !getAll_app.
  rewrite (getAll_same_key "images" Api.FilePart).
  cbn [FormEntries.getAll filter map fst]. rewrite app_nil_r. split.
  - apply length_map.
  - intros part Hin. apply in_map_iff in Hin. destruct Hin as (f & Hf & Hin).
    exists f. split; [now symmetry|].
    assert (H : Forall ImageUpload.allowed (ImageUpload.files (ImageUpload.run es))).
    { apply fold_step_keeps_allowed. constructor. }
    rewrite Forall_forall in H. exact (H f Hin).
Qed.

Lemma staged_files_sent_passed_validation_witness :
  let env := Api.mkEnv None (fun (_ : Api.Request) (u : unit) => (u, Throws "offline")) in
  let gif := ImageUpload.mkFile "smear.gif" "image/gif" 1024 in
  let png := ImageUpload.mkFile "cell.png" "image/png" 2048 in
  let pd := Api.mkPatientData (Js.Str "P1") (Js.Str "Jane Doe") (Js.Num 34) in
  exists f, Api.FilePart png = Api.FilePart f
            /\ In (ImageUpload.file_type f)
                  ["image/jpeg"; "image/jpg"; "image/png"; "image/tiff"]
            /\ (ImageUpload.file_size f <= 52428800)%N.
Proof.
  cbv zeta.
  apply (proj2 (staged_files_sent_passed_validation unit
    (Api.mkEnv None (fun (_ : Api.Request) (u : unit) => (u, Throws "offline")))
    [ImageUpload.Select [ImageUpload.mkFile "smear.gif" "image/gif" 1024;
                         ImageUpload.mkFile "cell.png" "image/png" 2048]]
    (Api.mkPatientData (Js.Str "P1") (Js.Str "Jane Doe") (Js.Num 34)))).
  vm_compute. left. reflexivity.
Defined.

